(** * LessonPlanBuilder backend (backend/server.py): a shallow embedding

    The module-level state of the server (the in-memory [users_db], the
    temporary files on disk, the two Mongo collections the handlers write
    to, and the calls made through the LLM client) is one record, [World];
    every request handler is a function from the world to a result and a
    new world.  A handler that raises is a handler that returns an
    exception value, with the [try]/[except]/[finally] structure of the
    source written out.

    Third-party code is taken as a parameter of the development: SHA-256,
    the HS256 MAC of PyJWT, pypdf's reader, [json.loads], the chat client
    and reportlab's document builder.  Text is modelled as ASCII strings
    (one character per byte).  On text that is not ASCII, searching,
    splitting, replacing and the prefix and suffix tests are still those
    of Python on the UTF-8 bytes, while [strip], [isupper], [len] and
    slicing are not: Python knows white space and cased letters beyond
    ASCII and counts characters, not bytes.  The properties that depend on
    those say so, with [PyStr.isascii] of the text as a hypothesis. *)

From Stdlib Require Import ZArith Ascii.
From stdpp Require Import base option list strings gmap fin_maps pretty.

Local Open Scope Z_scope.

(** ** Python string methods used by the server *)

Module PyStr.

Definition LF : string := String (ascii_of_nat 10) "".
(** the double quote character *)
Definition DQ : string := String (ascii_of_nat 34) "".

(** [str.isspace] on one ASCII character; the white space Python knows
    beyond ASCII (the no-break space, the em space, ...) is not white
    space here. *)
Definition is_space (c : ascii) : bool :=
  let n := nat_of_ascii c in
  ((9 <=? n) && (n <=? 13) || (28 <=? n) && (n <=? 32))%nat.

Definition is_upper_char (c : ascii) : bool :=
  let n := nat_of_ascii c in ((65 <=? n) && (n <=? 90))%nat.

Definition is_lower_char (c : ascii) : bool :=
  let n := nat_of_ascii c in ((97 <=? n) && (n <=? 122))%nat.

Definition lower_char (c : ascii) : ascii :=
  if is_upper_char c then ascii_of_nat (nat_of_ascii c + 32) else c.

Definition is_empty (s : string) : bool :=
  match s with "" => true | _ => false end.

Fixpoint lstrip (s : string) : string :=
  match s with
  | "" => ""
  | String c s' => if is_space c then lstrip s' else s
  end.

Fixpoint rstrip (s : string) : string :=
  match s with
  | "" => ""
  | String c s' =>
      match rstrip s' with
      | "" => if is_space c then "" else String c ""
      | r => String c r
      end
  end.

(** [s.strip()], for the ASCII white space *)
Definition strip (s : string) : string := rstrip (lstrip s).

(** [s.startswith(p)] *)
Definition startswith (p s : string) : bool := String.prefix p s.

(** [s.endswith(p)] *)
Definition endswith (p s : string) : bool :=
  String.prefix (String.rev p) (String.rev s).

(** [sub in s] *)
Fixpoint contains (sub s : string) : bool :=
  String.prefix sub s ||
  match s with
  | "" => false
  | String _ s' => contains sub s'
  end.

(** [s[n:]] and [s[:n]] for a non-negative [n], counted in bytes: those
    of Python where the characters passed over are ASCII *)
Fixpoint drop (n : nat) (s : string) : string :=
  match n, s with
  | O, _ => s
  | S _, "" => ""
  | S k, String _ s' => drop k s'
  end.

Fixpoint take (n : nat) (s : string) : string :=
  match n, s with
  | O, _ => ""
  | S _, "" => ""
  | S k, String c s' => String c (take k s')
  end.

Fixpoint lower (s : string) : string :=
  match s with
  | "" => ""
  | String c s' => String (lower_char c) (lower s')
  end.

Fixpoint any_char (p : ascii -> bool) (s : string) : bool :=
  match s with
  | "" => false
  | String c s' => p c || any_char p s'
  end.

(** [s.isupper()]: at least one cased character and no lower-case one,
    with the letters of ASCII as the cased characters. *)
Definition isupper (s : string) : bool :=
  any_char is_upper_char s && negb (any_char is_lower_char s).

(** [s.isascii()]: every character is below 128; true of the empty
    string. *)
Definition isascii (s : string) : bool :=
  negb (any_char (fun c => (128 <=? nat_of_ascii c)%nat) s).

(** [s.split(sep)] for a non-empty [sep]: the pieces between the
    non-overlapping occurrences of [sep], found left to right.  [skip]
    counts the characters of an occurrence still to be passed over.  The
    result is the first piece and the list of the others, so it is never
    empty, as in Python. *)
Fixpoint split_go (sep : string) (skip : nat) (s : string) : string * list string :=
  match s with
  | "" => ("", [])
  | String c s' =>
      match skip with
      | S k => split_go sep k s'
      | O =>
          if String.prefix sep s
          then let '(h, t) := split_go sep (String.length sep - 1) s' in ("", h :: t)
          else let '(h, t) := split_go sep O s' in (String c h, t)
      end
  end.

Definition split (sep s : string) : list string :=
  let '(h, t) := split_go sep O s in h :: t.

(** [s.replace(old, new)] for a non-empty [old]. *)
Fixpoint replace_go (old new : string) (skip : nat) (s : string) : string :=
  match s with
  | "" => ""
  | String c s' =>
      match skip with
      | S k => replace_go old new k s'
      | O =>
          if String.prefix old s
          then new +:+ replace_go old new (String.length old - 1) s'
          else String c (replace_go old new O s')
      end
  end.

Definition replace (old new s : string) : string := replace_go old new O s.

(** [sep.join(parts)] *)
Fixpoint join (sep : string) (parts : list string) : string :=
  match parts with
  | [] => ""
  | [p] => p
  | p :: rest => p +:+ sep +:+ join sep rest
  end.

End PyStr.

(** ** Exceptions and results *)

(** A Python exception is either FastAPI's [HTTPException], which the
    framework turns into a response with that status code, or some other
    subclass of [Exception], named here by the place it comes from.  Both
    are caught by [except Exception]. *)
Inductive PyExc : Type :=
  | HTTPException (status_code : Z) (detail : string)
  | OtherException (origin : string).

Inductive result (A : Type) : Type :=
  | Ok (a : A)
  | Raise (e : PyExc).
Arguments Ok {A} a.
Arguments Raise {A} e.

(** The status code the client sees: an [HTTPException] gives its own
    code, any other exception that escapes a handler gives 500. *)
Definition http_status {A} (r : result A) : Z :=
  match r with
  | Ok _ => 200
  | Raise (HTTPException c _) => c
  | Raise (OtherException _) => 500
  end.

Definition is_ok {A} (r : result A) : bool :=
  match r with Ok _ => true | Raise _ => false end.

(** ** Pydantic models *)

Module User.
Record t : Type := mk {
  id : string;
  firstName : string;
  lastName : string;
  email : string;
  institution : string;
  department : string;
  password_hash : string;
  api_key : option string;
  newsletter : bool;
  created_at : Z
}.

(** [user["api_key"] = key] *)
Definition set_api_key (key : string) (u : t) : t :=
  mk (id u) (firstName u) (lastName u) (email u) (institution u)
     (department u) (password_hash u) (Some key) (newsletter u) (created_at u).
End User.

Module UserSignup.
Record t : Type := mk {
  firstName : string;
  lastName : string;
  email : string;
  institution : string;
  department : string;
  password : string;
  newsletter : bool
}.
End UserSignup.

Module UserLogin.
Record t : Type := mk { email : string; password : string }.
End UserLogin.

Module ApiKeyValidation.
Record t : Type := mk { apiKey : string }.
End ApiKeyValidation.

Module UserResponse.
Record t : Type := mk {
  id : string;
  firstName : string;
  lastName : string;
  email : string;
  institution : string;
  department : string;
  hasApiKey : bool
}.
End UserResponse.

Module PDFExtractionResult.
Record t : Type := mk {
  id : string;
  filename : string;
  subject_names : list string;
  lecture_topics : list string;
  (** a [Dict[str, List[str]]], in insertion order *)
  lecture_focus_mapping : list (string * list string);
  extracted_at : Z
}.
End PDFExtractionResult.

Module LessonPlanRequest.
Record t : Type := mk {
  subject_name : string;
  lecture_topic : string;
  focus_topic : option string;
  blooms_taxonomy : string;
  aqf_level : string;
  lesson_duration : string
}.
End LessonPlanRequest.

Module LessonPlan.
Record t : Type := mk {
  id : string;
  request_data : LessonPlanRequest.t;
  content : string;
  generated_at : Z
}.
End LessonPlan.

(** ** Session tokens

    A token is the payload together with its signature; the base64 layout
    of the three dot-separated parts is PyJWT's business.  A string that
    is not a well-formed token is a token whose signature does not
    verify. *)
Module Payload.
Record t : Type := mk { user_id : string; email : string; exp : Z }.
End Payload.

Module Token.
Record t : Type := mk { payload : Payload.t; signature : string }.
End Token.

Module AuthResponse.
Record t : Type := mk { success : bool; token : Token.t; user : UserResponse.t }.
End AuthResponse.

(** ** Parsed JSON, as [json.loads] returns it

    Numbers are restricted to integers.  An object is the list of its
    members in order; [dict_get] is [d.get(key, default)]. *)
#[warnings="-register-all"]
Inductive json : Type :=
  | JNull
  | JBool (b : bool)
  | JInt (n : Z)
  | JStr (s : string)
  | JArr (items : list json)
  | JObj (members : list (string * json)).

Fixpoint dict_get (key : string) (members : list (string * json)) (default : json) : json :=
  match members with
  | [] => default
  | (k, v) :: rest => if decide (k = key) then v else dict_get key rest default
  end.

(** [bool(v)] *)
Definition truthy (v : json) : bool :=
  match v with
  | JNull => false
  | JBool b => b
  | JInt n => negb (n =? 0)
  | JStr s => negb (PyStr.is_empty s)
  | JArr items => match items with [] => false | _ => true end
  | JObj members => match members with [] => false | _ => true end
  end.

(** [bool(s)] for an [Optional[str]] *)
Definition truthy_str (s : option string) : bool :=
  match s with
  | None => false
  | Some s => negb (PyStr.is_empty s)
  end.

(** ** Reportlab flowables *)

Inductive Style : Type :=
  | title_style
  | section_heading_style
  | subsection_heading_style
  | normal_style
  | bullet_style.

Inductive Flowable : Type :=
  | Paragraph (text : string) (style : Style)
  | Spacer (width height : Z)
  | Table (data : list (list string)).

Record FileResponse : Type := {
  path : string;
  media_type : string;
  download_name : string
}.

(** ** Other values the handlers pass around *)

(** [LlmChat(api_key=..., session_id=..., system_message=...)
    .with_model("gemini", "gemini-2.0-flash")]: the session id, the system
    message and the model are the same at both places a chat is built, so
    a chat is its key. *)
Record LlmChat : Type := { chat_api_key : string }.

(** The two errors of [jwt.decode] the server tells apart. *)
Inductive JwtError : Type := ExpiredSignatureError | InvalidTokenError.

(** The JSON body [validate_api_key] answers with. *)
Record Message : Type := { msg_success : bool; msg_message : string }.

(** An upload: its name and its bytes. *)
Record UploadFile : Type := { filename : string; file : string }.

(** The local variables of [upload_pdf] that its [finally] clause reads:
    [None] for [temp_file] is its initial value, [None] for
    [temp_file_path] is a name not yet bound. *)
Record UploadLocals : Type := {
  temp_file : option string;
  temp_file_path : option string
}.

(** ** The state of the server *)

Record World : Type := mkWorld {
  (** [users_db]: email -> user record *)
  users_db : gmap string User.t;
  (** the temporary directory: path -> content *)
  files : gmap string string;
  (** the collections [db.pdf_extractions] and [db.lesson_plans] *)
  pdf_extractions : list PDFExtractionResult.t;
  lesson_plans : list LessonPlan.t;
  (** every [chat.send_message] so far: the key of the chat and the text *)
  llm_calls : list (string * string)
}.

Definition set_users_db (f : gmap string User.t -> gmap string User.t) (w : World) : World :=
  mkWorld (f (users_db w)) (files w) (pdf_extractions w) (lesson_plans w) (llm_calls w).
Definition set_files (f : gmap string string -> gmap string string) (w : World) : World :=
  mkWorld (users_db w) (f (files w)) (pdf_extractions w) (lesson_plans w) (llm_calls w).
Definition add_pdf_extraction (r : PDFExtractionResult.t) (w : World) : World :=
  mkWorld (users_db w) (files w) (pdf_extractions w ++ [r]) (lesson_plans w) (llm_calls w).
Definition add_lesson_plan (p : LessonPlan.t) (w : World) : World :=
  mkWorld (users_db w) (files w) (pdf_extractions w) (lesson_plans w ++ [p]) (llm_calls w).
Definition add_llm_call (key text : string) (w : World) : World :=
  mkWorld (users_db w) (files w) (pdf_extractions w) (lesson_plans w) (llm_calls w ++ [(key, text)]).

(** What one request gets from outside the program. *)
Inductive TempFileOutcome : Type :=
  | TempCreateFails   (** [NamedTemporaryFile] raises *)
  | TempWriteFails    (** the file is created, writing to it raises *)
  | TempWritten.

Record Env : Type := mkEnv {
  (** [datetime.utcnow()], in seconds since the epoch, read once for the
      request *)
  now : Z;
  (** [str(uuid.uuid4())] *)
  uuid4 : string;
  (** the name [NamedTemporaryFile] picks *)
  temp_name : string;
  temp_outcome : TempFileOutcome;
  (** whether the database call of the request goes through *)
  db_ok : bool
}.

(** A handler: a function of the world that returns or raises. *)
Definition M (A : Type) : Type := World -> result A * World.

Definition ret {A} (a : A) : M A := fun w => (Ok a, w).
Definition raise {A} (e : PyExc) : M A := fun w => (Raise e, w).
Definition bind {A B} (m : M A) (k : A -> M B) : M B :=
  fun w => match m w with
           | (Ok a, w') => k a w'
           | (Raise e, w') => (Raise e, w')
           end.
Definition lift {A} (r : result A) : M A := fun w => (r, w).
Definition modify (f : World -> World) : M unit := fun w => (Ok tt, f w).

(** [try: m except Exception as e: h e] *)
Definition try_except {A} (m : M A) (h : PyExc -> M A) : M A :=
  fun w => match m w with
           | (Ok a, w') => (Ok a, w')
           | (Raise e, w') => h e w'
           end.

Notation "x <- c1 ;; c2" := (bind c1 (fun x => c2))
  (at level 100, c1 at next level, right associativity).
Notation "c1 ;;; c2" := (bind c1 (fun _ => c2))
  (at level 100, right associativity).

(** ** The models and constants of the remaining routes *)

Module StatusCheck.
Record t : Type := mk {
  id : string;
  client_name : string;
  timestamp : Z
}.
End StatusCheck.

Module StatusCheckCreate.
Record t : Type := mk { client_name : string }.
End StatusCheckCreate.

Definition BLOOMS_TAXONOMY_LEVELS : list string :=
  [ "Remember"; "Understand"; "Apply"; "Analyze"; "Evaluate"; "Create" ].

Definition AQF_LEVELS : list string :=
  [ "AQF Level 1 - Certificate I";
    "AQF Level 2 - Certificate II";
    "AQF Level 3 - Certificate III";
    "AQF Level 4 - Certificate IV";
    "AQF Level 5 - Diploma";
    "AQF Level 6 - Advanced Diploma/Associate Degree";
    "AQF Level 7 - Bachelor Degree";
    "AQF Level 8 - Bachelor Honours/Graduate Certificate/Graduate Diploma";
    "AQF Level 9 - Masters Degree";
    "AQF Level 10 - Doctoral Degree" ].

Definition LESSON_DURATIONS : list string :=
  [ "30 minutes"; "45 minutes"; "1 hour"; "1.5 hours"; "2 hours"; "2.5 hours";
    "3 hours" ].

(** The body of [GET /options]. *)
Record Options : Type := {
  opt_blooms_taxonomy : list string;
  opt_aqf_levels : list string;
  opt_lesson_durations : list string
}.

Definition get_options : Options :=
  {| opt_blooms_taxonomy := BLOOMS_TAXONOMY_LEVELS;
     opt_aqf_levels := AQF_LEVELS;
     opt_lesson_durations := LESSON_DURATIONS |}.

(** The message of [GET /]. *)
Definition root : string := "LLM Lesson Plan Builder API".

(** [POST /status] and [GET /status] touch nothing but the collection
    [db.status_checks], which is their state here: the documents in the
    order they were inserted.  Neither has a [try]: a failing database
    call escapes the handler. *)
Definition create_status_check (env : Env) (input : StatusCheckCreate.t)
    (status_checks : list StatusCheck.t)
    : result StatusCheck.t * list StatusCheck.t :=
  let status_obj :=
    StatusCheck.mk (uuid4 env) (StatusCheckCreate.client_name input) (now env) in
  if db_ok env
  then (Ok status_obj, status_checks ++ [status_obj])
  else (Raise (OtherException "insert_one"), status_checks).

(** [await db.status_checks.find().to_list(1000)] *)
Definition get_status_checks (env : Env) (status_checks : list StatusCheck.t)
    : result (list StatusCheck.t) :=
  if db_ok env
  then Ok (take (Z.to_nat 1000) status_checks)
  else Raise (OtherException "find").

(** ** Sample collaborators and inputs

    Stand-ins for the third-party functions and a few concrete inputs, for
    running the handlers on examples. *)

Module Sample.

Definition secret : string := "your-secret-key-change-in-production".
Definition system_key : option string := Some "system-key".
Definition sha256_hexdigest (s : string) : string := "sha256:" +:+ s.
Definition hs256 (key : string) (p : Payload.t) : string :=
  "hs256:" +:+ key +:+ ":" +:+ Payload.user_id p +:+ ":" +:+ Payload.email p.
(** [str] of an [HTTPException] is its status and its detail, as
    Starlette prints it; for another exception the name of the call that
    raised stands for its message. *)
Definition str_exc (e : PyExc) : string :=
  match e with
  | HTTPException status detail => pretty status +:+ ": " +:+ detail
  | OtherException origin => origin
  end.
Definition strftime (t : Z) : string := "2024-05-01 09:30:00".
Definition doc_build (t : Z) (story : list Flowable) : option string := Some "%PDF-1.4".
Definition pydantic_str (v : json) : option string :=
  match v with
  | JStr s => Some s
  | _ => None
  end.

(** A provider that answers [reply] to every message but the probe. *)
Definition llm_reply (reply : string) (key text : string) : option string :=
  if bool_decide (text = "Hello") then Some "Hi" else Some reply.

(** Two uploads: a scanned outline, whose two pages carry no text, and an
    outline with one page of text. *)
Definition PdfReader (bytes : string) : option (list (option string)) :=
  if bool_decide (bytes = "%PDF scanned") then Some [Some "  "; Some PyStr.LF]
  else if bool_decide (bytes = "%PDF outline") then Some [Some "Biology 101: Cells"]
  else None.

(** Replies of the model, as text and as [json.loads] reads them. *)
Definition q (s : string) : string := PyStr.DQ +:+ s +:+ PyStr.DQ.

Definition reply_text (topics mapping : string) : string :=
  "{" +:+ q "subject_names" +:+ ": [" +:+ q "Biology 101" +:+ "], "
  +:+ q "lecture_topics" +:+ ": " +:+ topics +:+ ", "
  +:+ q "lecture_focus_mapping" +:+ ": " +:+ mapping +:+ "}".

Definition reply_json (topics mapping : json) : json :=
  JObj [ ("subject_names", JArr [JStr "Biology 101"]);
         ("lecture_topics", topics);
         ("lecture_focus_mapping", mapping) ].

(** The mapping is a string and the topics are [null]. *)
Definition text_null_topics : string := reply_text "null" (q "Cells").
Definition json_null_topics : json := reply_json JNull (JStr "Cells").

(** The mapping is a string. *)
Definition text_string_mapping : string :=
  reply_text ("[" +:+ q "Cells" +:+ "]") (q "Cells").
Definition json_string_mapping : json :=
  reply_json (JArr [JStr "Cells"]) (JStr "Cells").

(** The mapping has a key that is not a lecture topic. *)
Definition text_stray_key : string :=
  reply_text ("[" +:+ q "Cells" +:+ "]")
    ("{" +:+ q "Genetics" +:+ ": [" +:+ q "DNA" +:+ "]}").
Definition json_stray_key : json :=
  reply_json (JArr [JStr "Cells"]) (JObj [("Genetics", JArr [JStr "DNA"])]).

(** The mapping the prompt asks for. *)
Definition text_good : string :=
  reply_text ("[" +:+ q "Cells" +:+ "]")
    ("{" +:+ q "Cells" +:+ ": [" +:+ q "Mitosis" +:+ "]}").
Definition json_good : json :=
  reply_json (JArr [JStr "Cells"]) (JObj [("Cells", JArr [JStr "Mitosis"])]).

(** A reply inside a code fence. *)
Definition fenced (text : string) : string :=
  "```json" +:+ PyStr.LF +:+ text +:+ PyStr.LF +:+ "```".

Definition json_loads (s : string) : option json :=
  if bool_decide (s = text_null_topics) then Some json_null_topics
  else if bool_decide (s = text_string_mapping) then Some json_string_mapping
  else if bool_decide (s = text_stray_key) then Some json_stray_key
  else if bool_decide (s = text_good) then Some json_good
  else None.

(** A registered user, a token minted for that user, and a request
    environment. *)
Definition ada : User.t :=
  User.mk "7d9f3c1e" "Ada" "Byron" "ada@example.org" "King's College" "Mathematics"
    (sha256_hexdigest "analytical") None false 1000.

Definition ada_payload : Payload.t := Payload.mk "7d9f3c1e" "ada@example.org" 90000.
Definition ada_token : Token.t := Token.mk ada_payload (hs256 secret ada_payload).

Definition world : World :=
  mkWorld {[ "ada@example.org" := ada ]} ∅ [] [] [].

Definition env : Env :=
  mkEnv 5000 "0b5e7a42" "/tmp/tmpk3x9qz.pdf" TempWritten true.

Definition scanned_pdf : UploadFile := {| filename := "Outline.PDF"; file := "%PDF scanned" |}.
Definition outline_pdf : UploadFile := {| filename := "outline.pdf"; file := "%PDF outline" |}.

(** Two signup requests and the environments they are handled in. *)
Definition ada_signup : UserSignup.t :=
  UserSignup.mk "Ada" "Byron" "ada@example.org" "King's College" "Mathematics"
    "analytical" false.
Definition grace_signup : UserSignup.t :=
  UserSignup.mk "Grace" "Hopper" "grace@example.org" "Vassar College" "Mathematics"
    "compiler" true.
Definition env_ada : Env := mkEnv 1000 "7d9f3c1e" "/tmp/tmpa.pdf" TempWritten true.
Definition env_grace : Env := mkEnv 2000 "c2a61b90" "/tmp/tmpb.pdf" TempWritten true.
Definition empty_world : World := mkWorld ∅ ∅ [] [] [].

Definition plan_request : LessonPlanRequest.t :=
  LessonPlanRequest.mk "Biology 101" "Cells" (Some "Mitosis") "Understand"
    "AQF Level 7 - Bachelor Degree" "1 hour".

(** A stored lesson plan whose content follows the template of the
    generation prompt. *)
Definition plan : LessonPlan.t :=
  LessonPlan.mk "4c1d2e3f-aaaa" plan_request
    (PyStr.join PyStr.LF
       [ "LEARNING OBJECTIVES"; "- Explain the phases of mitosis"; "";
         "LESSON STRUCTURE (1 hour)"; "";
         "Introduction/Hook (10 minutes)"; "- Show a dividing cell" ])
    4000.

Definition plan_world : World := mkWorld ∅ ∅ [] [plan] [].

End Sample.

(** ** Further sample inputs *)

Module Cases.

(** A second registered user, who has an API key, beside the first. *)
Definition grace : User.t :=
  User.mk "c2a61b90" "Grace" "Hopper" "grace@example.org" "Vassar College" "Mathematics"
    (Sample.sha256_hexdigest "compiler") (Some "grace-key") true 2000.

Definition two_users : World :=
  mkWorld (<[ "grace@example.org" := grace ]> {[ "ada@example.org" := Sample.ada ]})
    ∅ [] [] [].

(** An environment in which writing the upload fails, one in which the
    database is down. *)
Definition env_write_fails : Env :=
  mkEnv 5000 "0b5e7a42" "/tmp/tmpk3x9qz.pdf" TempWriteFails true.
Definition env_db_down : Env :=
  mkEnv 5000 "0b5e7a42" "/tmp/tmpk3x9qz.pdf" TempWritten false.
Definition env_later : Env :=
  mkEnv 6000 "9a8b7c6d" "/tmp/tmpw4r5t6.pdf" TempWritten true.

(** A provider that is down, and a builder that fails. *)
Definition llm_down (key text : string) : option string := None.
Definition doc_build_fails (t : Z) (story : list Flowable) : option string := None.

(** A builder that, like reportlab's, writes the time of the build into
    the document. *)
Definition doc_build_stamped (t : Z) (story : list Flowable) : option string :=
  Some ("%PDF-1.4 /CreationDate (" +:+ pretty t +:+ ")").

(** An outline of three pages whose second page cannot be read. *)
Definition three_pages : list (option string) :=
  [Some "Biology 101"; None; Some "Week 1: Cells"].

(** A reply with two empty lists. *)
Definition text_empty : string :=
  "{" +:+ Sample.q "subject_names" +:+ ": [], "
  +:+ Sample.q "lecture_topics" +:+ ": []}".
Definition json_empty : json :=
  JObj [ ("subject_names", JArr []); ("lecture_topics", JArr []) ].

Definition json_loads (s : string) : option json :=
  if bool_decide (s = text_empty) then Some json_empty else Sample.json_loads s.

Definition status_input : StatusCheckCreate.t := StatusCheckCreate.mk "dashboard".

(** A text of 8000 characters. *)
Definition long_text : string :=
  String.string_of_list_ascii (replicate (Z.to_nat 8000) "x"%char).

(** A plan whose timed phase stands under its section heading. *)
Definition structured_content : string :=
  PyStr.join PyStr.LF
    [ "LESSON STRUCTURE"; "Introduction/Hook (10 minutes)"; "- Show a dividing cell" ].
Definition structured_plan : LessonPlan.t :=
  LessonPlan.mk "5e6f7a8b-bbbb" Sample.plan_request structured_content 4000.

End Cases.

(** ** The server *)

Section Server.

Set Default Proof Using "Type".

(** The environment variables and the third-party functions. *)
Variable JWT_SECRET : string.
(** [os.environ.get('EMERGENT_LLM_KEY')] *)
Variable EMERGENT_LLM_KEY : option string.
(** [hashlib.sha256(s.encode()).hexdigest()] *)
Variable sha256_hexdigest : string -> string.
(** The HS256 signature of a payload under a key. *)
Variable hs256 : string -> Payload.t -> string.
(** The text the provider answers to a message sent with a key; [None]
    when the call raises. *)
Variable llm_reply : string -> string -> option string.
(** [str(e)] *)
Variable str_exc : PyExc -> string.

(** *** LLM client *)

Definition get_llm_chat : result LlmChat :=
  let api_key := EMERGENT_LLM_KEY in
  if negb (truthy_str api_key)
  then Raise (HTTPException 500 "LLM API key not configured")
  else Ok {| chat_api_key := default "" api_key |}.

Definition get_user_llm_chat (api_key : option string) : result LlmChat :=
  if negb (truthy_str api_key)
  then get_llm_chat
  else Ok {| chat_api_key := default "" api_key |}.

(** [await chat.send_message(UserMessage(text=text))] *)
Definition send_message (chat : LlmChat) (text : string) : M string :=
  fun w =>
    let w' := add_llm_call (chat_api_key chat) text w in
    match llm_reply (chat_api_key chat) text with
    | Some response => (Ok response, w')
    | None => (Raise (OtherException "LlmChat.send_message"), w')
    end.

(** *** Authentication helpers *)

Definition hash_password (password : string) : string :=
  sha256_hexdigest password.

Definition verify_password (password hashed : string) : bool :=
  bool_decide (sha256_hexdigest password = hashed).

Definition JWT_EXPIRATION_HOURS : Z := 24.

Definition jwt_encode (payload : Payload.t) (key : string) : Token.t :=
  Token.mk payload (hs256 key payload).

(** [jwt.decode(token, key, algorithms=["HS256"])] at time [t]: the
    signature is checked first, then the expiry; a token whose [exp] is
    the current second is expired. *)
Definition jwt_decode (t : Z) (token : Token.t) (key : string) : JwtError + Payload.t :=
  if bool_decide (Token.signature token = hs256 key (Token.payload token))
  then if Payload.exp (Token.payload token) <=? t
       then inl ExpiredSignatureError
       else inr (Token.payload token)
  else inl InvalidTokenError.

Definition create_jwt_token (t : Z) (user_data : User.t) : Token.t :=
  let payload :=
    Payload.mk (User.id user_data) (User.email user_data)
               (t + JWT_EXPIRATION_HOURS * 3600) in
  jwt_encode payload JWT_SECRET.

Definition verify_jwt_token (t : Z) (token : Token.t) : result Payload.t :=
  match jwt_decode t token JWT_SECRET with
  | inr payload => Ok payload
  | inl ExpiredSignatureError => Raise (HTTPException 401 "Token has expired")
  | inl InvalidTokenError => Raise (HTTPException 401 "Invalid token")
  end.

Definition get_current_user (env : Env) (credentials : Token.t) : M User.t :=
  payload <- lift (verify_jwt_token (now env) credentials) ;;
  let user_email := Payload.email payload in
  fun w =>
    match users_db w !! user_email with
    | None => (Raise (HTTPException 401 "User not found"), w)
    | Some user => (Ok user, w)
    end.

Definition user_response (user : User.t) : UserResponse.t :=
  UserResponse.mk (User.id user) (User.firstName user) (User.lastName user)
    (User.email user) (User.institution user) (User.department user)
    (truthy_str (User.api_key user)).

(** *** Authentication routes *)

(** [User(firstName=..., ..., password_hash=hash_password(password),
    newsletter=...)]: the id and the creation time are the defaults of
    the model, the API key is [None]. *)
Definition new_user (env : Env) (user_data : UserSignup.t) : User.t :=
  User.mk (uuid4 env)
    (UserSignup.firstName user_data) (UserSignup.lastName user_data)
    (UserSignup.email user_data) (UserSignup.institution user_data)
    (UserSignup.department user_data)
    (hash_password (UserSignup.password user_data))
    None (UserSignup.newsletter user_data) (now env).

Definition signup (env : Env) (user_data : UserSignup.t) : M AuthResponse.t :=
  fun w =>
    if bool_decide (is_Some (users_db w !! UserSignup.email user_data))
    then (Raise (HTTPException 400 "Email already registered"), w)
    else
      let user := new_user env user_data in
      let w' := set_users_db (insert (User.email user) user) w in
      let token := create_jwt_token (now env) user in
      (Ok (AuthResponse.mk true token (user_response user)), w').

Definition login (env : Env) (login_data : UserLogin.t) : M AuthResponse.t :=
  fun w =>
    match users_db w !! UserLogin.email login_data with
    | None => (Raise (HTTPException 401 "Invalid email or password"), w)
    | Some user =>
        if negb (verify_password (UserLogin.password login_data) (User.password_hash user))
        then (Raise (HTTPException 401 "Invalid email or password"), w)
        else
          let token := create_jwt_token (now env) user in
          (Ok (AuthResponse.mk true token (user_response user)), w)
    end.

(** [users_db[email]["api_key"] = key]; a missing email is a [KeyError]. *)
Definition store_api_key (email key : string) : M unit :=
  fun w =>
    match users_db w !! email with
    | None => (Raise (OtherException "KeyError"), w)
    | Some user =>
        (Ok tt, set_users_db (insert email (User.set_api_key key user)) w)
    end.

Definition validate_api_key (env : Env) (api_data : ApiKeyValidation.t)
    (credentials : Token.t) : M Message :=
  current_user <- get_current_user env credentials ;;
  try_except
    (chat <- lift (get_user_llm_chat (Some (ApiKeyValidation.apiKey api_data))) ;;
     response <- send_message chat "Hello" ;;
     store_api_key (User.email current_user) (ApiKeyValidation.apiKey api_data) ;;;
     ret {| msg_success := true;
            msg_message := "API key validated and saved successfully" |})
    (fun e =>
       raise (HTTPException 400 "Invalid API key or failed to connect to Gemini API")).

Definition get_profile (env : Env) (credentials : Token.t) : M UserResponse.t :=
  current_user <- get_current_user env credentials ;;
  ret (user_response current_user).

(** *** PDF text extraction *)

(** [PdfReader(path).pages] with [page.extract_text()] for each page, from
    the bytes of the file: [None] when the reader raises, and a page is
    [None] when its extraction raises. *)
Variable PdfReader : string -> option (list (option string)).

(** The loop over the pages, with [text] the text so far. *)
Fixpoint extract_pages (pages : list (option string)) (text : string) : string :=
  match pages with
  | [] => text
  | Some page_text :: rest =>
      if negb (PyStr.is_empty (PyStr.strip page_text))
      then extract_pages rest (text +:+ page_text +:+ PyStr.LF)
      else extract_pages rest text
  | None :: rest => extract_pages rest text
  end.

Definition no_readable_text : string :=
  "No readable text found in the PDF. Please ensure the PDF contains text content and is not a scanned image.".

Definition extract_text_from_pdf (file_path : string) : M string :=
  try_except
    (fun w =>
       match files w !! file_path with
       | None => (Raise (OtherException "FileNotFoundError"), w)
       | Some bytes =>
           match PdfReader bytes with
           | None => (Raise (OtherException "PdfReader"), w)
           | Some pages =>
               let text := extract_pages pages "" in
               if PyStr.is_empty (PyStr.strip text)
               then (Raise (HTTPException 400 no_readable_text), w)
               else (Ok text, w)
           end
       end)
    (fun e =>
       match e with
       | HTTPException _ _ => raise e
       | OtherException _ =>
           raise (HTTPException 400 ("Unable to process this PDF format. Please try with a different PDF file or ensure the PDF contains readable text. Error: " +:+ str_exc e))
       end).

(** *** PDF generation *)

(** [generated_at.strftime("%Y-%m-%d %H:%M:%S")] *)
Variable strftime : Z -> string.
(** The bytes [doc.build(story)] writes, [None] when it raises.  Reportlab
    reads the clock while it builds, hence the time.  Reportlab also reads
    the text of a [Paragraph] as markup when the paragraph is made, and
    raises on text it cannot parse, while the story is still being put
    together: that is a [None] here too.  The caller sees the same in both
    cases, an exception out of [generate_lesson_plan_pdf] with nothing
    written. *)
Variable doc_build : Z -> list Flowable -> option string.

(** The test for a subsection heading:
    [('(' in line and 'minutes)' in line) or line.endswith('minutes')]. *)
Definition minutes_line (line : string) : bool :=
  (PyStr.contains "(" line && PyStr.contains "minutes)" line)
  || PyStr.endswith "minutes" line.

(** The body of the loop over the lines that follow a section heading. *)
Definition heading_block_line (line : string) : list Flowable :=
  let line := PyStr.strip line in
  if PyStr.is_empty line then []
  else if minutes_line line
  then [Paragraph line subsection_heading_style]
  else if PyStr.startswith "- " line
  then [Paragraph ("• " +:+ PyStr.drop 2 line) bullet_style]
  else [Paragraph line normal_style; Spacer 1 6].

(** The body of the loop over the lines of a regular content block. *)
Definition regular_block_line (line : string) : list Flowable :=
  let line := PyStr.strip line in
  if PyStr.is_empty line then []
  else if PyStr.startswith "- " line
  then [Paragraph ("• " +:+ PyStr.drop 2 line) bullet_style]
  else [Paragraph line normal_style; Spacer 1 6].

(** The body of the loop over the content sections.  The test of the
    first line is [first_line.isupper() and len(first_line) < 100]: for a
    first line that is ASCII, the one below. *)
Definition render_section (section : string) : list Flowable :=
  let section := PyStr.strip section in
  if PyStr.is_empty section then []
  else
    let lines := PyStr.split PyStr.LF section in
    let first_line := PyStr.strip (hd "" lines) in
    if PyStr.isupper first_line && (String.length first_line <? 100)%nat
    then Paragraph first_line section_heading_style
           :: flat_map heading_block_line (tl lines)
    else flat_map regular_block_line lines.

Definition details_table (lesson_plan : LessonPlan.t) : list (list string) :=
  let request_data := LessonPlan.request_data lesson_plan in
  [ ["Subject:"; LessonPlanRequest.subject_name request_data];
    ["Lecture Topic:"; LessonPlanRequest.lecture_topic request_data];
    ["Focus Topic:";
     if truthy_str (LessonPlanRequest.focus_topic request_data)
     then default "" (LessonPlanRequest.focus_topic request_data)
     else "General Coverage"];
    ["Bloom's Taxonomy Level:"; LessonPlanRequest.blooms_taxonomy request_data];
    ["AQF Level:"; LessonPlanRequest.aqf_level request_data];
    ["Duration:"; LessonPlanRequest.lesson_duration request_data];
    ["Generated:"; strftime (LessonPlan.generated_at lesson_plan)] ].

(** The list [story] that [generate_lesson_plan_pdf] hands to [doc.build],
    when every [Paragraph] of it could be made. *)
Definition lesson_plan_story (lesson_plan : LessonPlan.t) : list Flowable :=
  [ Paragraph "LESSON PLAN" title_style; Spacer 1 20;
    Table (details_table lesson_plan); Spacer 1 30 ]
  ++ flat_map render_section
       (PyStr.split (PyStr.LF +:+ PyStr.LF) (LessonPlan.content lesson_plan)).

Definition generate_lesson_plan_pdf (env : Env) (lesson_plan : LessonPlan.t)
    (output_path : string) : M unit :=
  match doc_build (now env) (lesson_plan_story lesson_plan) with
  | None => raise (OtherException "doc.build")
  | Some bytes => modify (set_files (insert output_path bytes))
  end.

(** *** Temporary files *)

(** [tempfile.NamedTemporaryFile(delete=False, suffix='.pdf')]: an empty
    file under a name that is not in use; the name is returned. *)
Definition NamedTemporaryFile (env : Env) : M string :=
  fun w =>
    match temp_outcome env with
    | TempCreateFails => (Raise (OtherException "NamedTemporaryFile"), w)
    | _ =>
        if bool_decide (is_Some (files w !! temp_name env))
        then (Raise (OtherException "FileExistsError"), w)
        else (Ok (temp_name env), set_files (insert (temp_name env) "") w)
    end.

(** [shutil.copyfileobj(src, temp_file)] *)
Definition copyfileobj (env : Env) (src : string) (temp_file : string) : M unit :=
  match temp_outcome env with
  | TempWriteFails => raise (OtherException "copyfileobj")
  | _ => modify (set_files (insert temp_file src))
  end.

(** *** Curriculum extraction *)

Variable json_loads : string -> option json.
(** Pydantic's conversion of one list item to [str]: what it does with a
    number depends on its version, a string it always keeps. *)
Variable pydantic_str : json -> option string.
Hypothesis pydantic_str_JStr : forall s, pydantic_str (JStr s) = Some s.

(** The prompt of [upload_pdf], with [pdf_text[:8000]] in it: the first
    8000 bytes, which are the first 8000 characters when those are
    ASCII. *)
Definition extraction_prompt (pdf_text : string) : string :=
  PyStr.join PyStr.LF
    [ "";
      "        Analyze the following academic subject outline PDF content and extract the required information in JSON format.";
      "        ";
      "        PDF Content:";
      "        " +:+ PyStr.take (Z.to_nat 8000) pdf_text +:+ "  # Limit to first 8000 characters";
      "        ";
      "        Please extract and return ONLY a JSON object with the following structure:";
      "        {";
      "            " +:+ PyStr.DQ +:+ "subject_names" +:+ PyStr.DQ +:+ ": [" +:+ PyStr.DQ +:+ "list of subject names found" +:+ PyStr.DQ +:+ "],";
      "            " +:+ PyStr.DQ +:+ "lecture_topics" +:+ PyStr.DQ +:+ ": [" +:+ PyStr.DQ +:+ "list of lecture topics from timetable of activities" +:+ PyStr.DQ +:+ "],";
      "            " +:+ PyStr.DQ +:+ "lecture_focus_mapping" +:+ PyStr.DQ +:+ ": {";
      "                " +:+ PyStr.DQ +:+ "Lecture Topic 1" +:+ PyStr.DQ +:+ ": [" +:+ PyStr.DQ +:+ "focus topic 1.1" +:+ PyStr.DQ +:+ ", " +:+ PyStr.DQ +:+ "focus topic 1.2" +:+ PyStr.DQ +:+ "],";
      "                " +:+ PyStr.DQ +:+ "Lecture Topic 2" +:+ PyStr.DQ +:+ ": [" +:+ PyStr.DQ +:+ "focus topic 2.1" +:+ PyStr.DQ +:+ ", " +:+ PyStr.DQ +:+ "focus topic 2.2" +:+ PyStr.DQ +:+ "],";
      "                " +:+ PyStr.DQ +:+ "etc" +:+ PyStr.DQ +:+ ": [" +:+ PyStr.DQ +:+ "etc" +:+ PyStr.DQ +:+ "]";
      "            }";
      "        }";
      "        ";
      "        Instructions:";
      "        1. Look for subject names in headers, titles, or course information";
      "        2. Find lecture topics in the timetable of activities section";
      "        3. For each lecture topic, identify its corresponding focus topics (subtopics/subdivisions mentioned for that specific lecture/week)";
      "        4. Create a mapping where each lecture topic maps to its specific focus topics only";
      "        5. If a lecture topic has no specific focus topics, map it to an empty array []";
      "        6. Return clean, readable names without extra formatting";
      "        7. Return ONLY the JSON object, no other text";
      "        " ].

Definition generation_prompt (request : LessonPlanRequest.t) : string :=
  PyStr.join PyStr.LF
    [ "";
      "        Create a detailed lesson plan based on the following parameters:";
      "        ";
      "        Subject: " +:+ (LessonPlanRequest.subject_name request);
      "        Lecture Topic: " +:+ (LessonPlanRequest.lecture_topic request);
      "        Focus Topic: " +:+ (if truthy_str (LessonPlanRequest.focus_topic request) then (default "" (LessonPlanRequest.focus_topic request)) else "General coverage of the lecture topic");
      "        Bloom's Taxonomy Level: " +:+ (LessonPlanRequest.blooms_taxonomy request);
      "        AQF Level: " +:+ (LessonPlanRequest.aqf_level request);
      "        Duration: " +:+ (LessonPlanRequest.lesson_duration request);
      "        ";
      "        Please create a comprehensive lesson plan with professional formatting. Use proper headings, bullet points, and structure. DO NOT use markdown symbols like #, *, or other formatting characters. Format it as follows:";
      "        ";
      "        LEARNING OBJECTIVES";
      "        - Clear, measurable objectives aligned with the " +:+ (LessonPlanRequest.blooms_taxonomy request) +:+ " level of Bloom's taxonomy";
      "        ";
      "        LEARNING OUTCOMES";
      "        - What students will achieve, appropriate for " +:+ (LessonPlanRequest.aqf_level request);
      "        ";
      "        PRE-REQUISITES";
      "        - Required knowledge or skills";
      "        ";
      "        MATERIALS AND RESOURCES";
      "        - What's needed for the lesson";
      "        ";
      "        LESSON STRUCTURE (" +:+ (LessonPlanRequest.lesson_duration request) +:+ ")";
      "        ";
      "        Introduction/Hook (X minutes)";
      "        - Engage students activities";
      "        ";
      "        Main Content Delivery (X minutes)";
      "        - Explanation and demonstration activities";
      "        ";
      "        Active Learning Activities (X minutes)";
      "        - Hands-on, discussion, and practice activities";
      "        ";
      "        Assessment/Evaluation (X minutes)";
      "        - Formative assessment aligned with Bloom's level";
      "        ";
      "        Conclusion/Summary (X minutes)";
      "        - Wrap-up activities";
      "        ";
      "        ASSESSMENT CRITERIA";
      "        - How student understanding will be measured";
      "        ";
      "        EXTENSION ACTIVITIES";
      "        - For advanced students";
      "        ";
      "        DIFFERENTIATION STRATEGIES";
      "        - For diverse learning needs";
      "        ";
      "        Focus Area: " +:+ (if truthy_str (LessonPlanRequest.focus_topic request) then "Emphasize " +:+ (default "" (LessonPlanRequest.focus_topic request)) +:+ " within the broader " +:+ (LessonPlanRequest.lecture_topic request) +:+ " context" else "Provide comprehensive coverage of " +:+ (LessonPlanRequest.lecture_topic request));
      "        ";
      "        Ensure the content is:";
      "        - Age and level appropriate for " +:+ (LessonPlanRequest.aqf_level request);
      "        - " +:+ (if truthy_str (LessonPlanRequest.focus_topic request) then "Focused specifically on '" +:+ (default "" (LessonPlanRequest.focus_topic request)) +:+ "'" else "Comprehensively covering '" +:+ (LessonPlanRequest.lecture_topic request) +:+ "'");
      "        - Designed to achieve " +:+ (LessonPlanRequest.blooms_taxonomy request) +:+ " level cognitive skills";
      "        - Realistic for the " +:+ (LessonPlanRequest.lesson_duration request) +:+ " timeframe";
      "        - Engaging and interactive";
      "        - Professionally formatted without markdown symbols";
      "        ";
      "        Format the response as clean, professional text with clear section headings in ALL CAPS and proper bullet points using hyphens.";
      "        " ].

(** Validation of a [List[str]] field: only a list is accepted. *)
Definition validate_list_str (v : json) : option (list string) :=
  match v with
  | JArr items => mapM pydantic_str items
  | _ => None
  end.

(** Validation of a [Dict[str, List[str]]] field, given a dict. *)
Definition validate_mapping (members : list (string * json)) : option (list (string * list string)) :=
  mapM (fun kv => l ← validate_list_str kv.2; Some (kv.1, l)) members.

(** [PDFExtractionResult(filename=..., subject_names=..., lecture_topics=...,
    lecture_focus_mapping=...)] *)
Definition new_PDFExtractionResult (env : Env) (filename : string)
    (subject_names lecture_topics : json) (lecture_focus_mapping : list (string * json))
    : result PDFExtractionResult.t :=
  match validate_list_str subject_names,
        validate_list_str lecture_topics,
        validate_mapping lecture_focus_mapping with
  | Some names, Some topics, Some mapping =>
      Ok (PDFExtractionResult.mk (uuid4 env) filename names topics mapping (now env))
  | _, _, _ => Raise (OtherException "ValidationError")
  end.

(** The cleaning of the response before [json.loads]. *)
Definition clean_response (response : string) : string :=
  let response_text := PyStr.strip response in
  if PyStr.startswith "```json" response_text
  then PyStr.strip (PyStr.replace "```" "" (PyStr.replace "```json" "" response_text))
  else if PyStr.startswith "```" response_text
  then PyStr.strip (PyStr.replace "```" "" response_text)
  else response_text.

Definition is_JSONDecodeError (e : PyExc) : bool :=
  match e with
  | OtherException origin => bool_decide (origin = "JSONDecodeError")
  | HTTPException _ _ => false
  end.

(** The inner [try] of [upload_pdf]: from the response of the model to the
    stored result. *)
Definition parse_llm_response (env : Env) (file : UploadFile) (response : string)
    : M PDFExtractionResult.t :=
  fun w =>
    match
      (let response_text := clean_response response in
       match json_loads response_text with
       | None => raise (OtherException "JSONDecodeError")
       | Some (JObj extracted_data) =>
           let subject_names := dict_get "subject_names" extracted_data (JArr []) in
           let lecture_topics := dict_get "lecture_topics" extracted_data (JArr []) in
           let lecture_focus_mapping :=
             dict_get "lecture_focus_mapping" extracted_data (JObj []) in
           if negb (truthy subject_names || truthy lecture_topics)
           then raise (HTTPException 400 "Could not extract meaningful data from PDF")
           else
             let lecture_focus_mapping :=
               match lecture_focus_mapping with
               | JObj members => members
               | _ => []
               end in
             result <- lift (new_PDFExtractionResult env (filename file)
                               subject_names lecture_topics lecture_focus_mapping) ;;
             (if db_ok env then modify (add_pdf_extraction result)
              else raise (OtherException "insert_one")) ;;;
             ret result
       | Some _ => raise (OtherException "AttributeError")
       end) w
    with
    | (Raise e, w') =>
        if is_JSONDecodeError e
        then (Raise (HTTPException 500 ("Failed to parse LLM response: " +:+ str_exc e)), w')
        else (Raise e, w')
    | (Ok result, w') => (Ok result, w')
    end.

(** The outer [try] of [upload_pdf] once the upload is on disk: from the
    text extraction to the end. *)
Definition upload_pdf_process (env : Env) (file_ : UploadFile) (current_user : User.t)
    (path_ : string) : M PDFExtractionResult.t :=
  pdf_text <- extract_text_from_pdf path_ ;;
  if PyStr.is_empty (PyStr.strip pdf_text)
  then raise (HTTPException 400 "No text found in PDF")
  else
    let user_api_key := User.api_key current_user in
    chat <- lift (get_user_llm_chat user_api_key) ;;
    response <- send_message chat (extraction_prompt pdf_text) ;;
    parse_llm_response env file_ response.

(** The body of the outer [try] of [upload_pdf], with the local variables
    as they are when it is left. *)
Definition upload_pdf_try (env : Env) (file_ : UploadFile) (current_user : User.t)
    : World -> result PDFExtractionResult.t * UploadLocals * World :=
  fun w =>
    match NamedTemporaryFile env w with
    | (Raise e, w1) => (Raise e, {| temp_file := None; temp_file_path := None |}, w1)
    | (Ok tmp, w1) =>
        match copyfileobj env (file file_) tmp w1 with
        | (Raise e, w2) =>
            (Raise e, {| temp_file := Some tmp; temp_file_path := None |}, w2)
        | (Ok _, w2) =>
            let path_ := tmp in
            let '(r, w3) := upload_pdf_process env file_ current_user path_ w2 in
            (r, {| temp_file := Some tmp; temp_file_path := Some path_ |}, w3)
        end
    end.

(** The [finally] clause: [if temp_file and os.path.exists(temp_file_path):
    os.unlink(temp_file_path)]. *)
Definition upload_pdf_finally (locals : UploadLocals) : M unit :=
  match temp_file locals with
  | None => ret tt
  | Some _ =>
      match temp_file_path locals with
      | None => raise (OtherException "UnboundLocalError")
      | Some p =>
          fun w =>
            if bool_decide (is_Some (files w !! p))
            then (Ok tt, set_files (delete p) w)
            else (Ok tt, w)
      end
  end.

Definition upload_pdf (env : Env) (file_ : UploadFile) (credentials : Token.t)
    : M PDFExtractionResult.t :=
  current_user <- get_current_user env credentials ;;
  if negb (PyStr.endswith ".pdf" (PyStr.lower (filename file_)))
  then raise (HTTPException 400 "File must be a PDF")
  else
    fun w =>
      let '(r, locals, w1) := upload_pdf_try env file_ current_user w in
      let r' :=
        match r with
        | Ok result => Ok result
        | Raise e => Raise (HTTPException 500 ("Failed to process PDF: " +:+ str_exc e))
        end in
      match upload_pdf_finally locals w1 with
      | (Ok _, w2) => (r', w2)
      | (Raise e, w2) => (Raise e, w2)
      end.

(** *** Lesson plans *)

Definition generate_lesson_plan (env : Env) (request : LessonPlanRequest.t)
    (credentials : Token.t) : M LessonPlan.t :=
  current_user <- get_current_user env credentials ;;
  try_except
    (let user_api_key := User.api_key current_user in
     chat <- lift (get_user_llm_chat user_api_key) ;;
     response <- send_message chat (generation_prompt request) ;;
     let lesson_plan := LessonPlan.mk (uuid4 env) request response (now env) in
     (if db_ok env then modify (add_lesson_plan lesson_plan)
      else raise (OtherException "insert_one")) ;;;
     ret lesson_plan)
    (fun e =>
       raise (HTTPException 500 ("Failed to generate lesson plan: " +:+ str_exc e))).

(** [await db.lesson_plans.find_one({"id": lesson_plan_id})] *)
Definition find_lesson_plan (env : Env) (lesson_plan_id : string) : M (option LessonPlan.t) :=
  fun w =>
    if db_ok env
    then (Ok (List.find (fun p => bool_decide (LessonPlan.id p = lesson_plan_id))
                (lesson_plans w)), w)
    else (Raise (OtherException "find_one"), w).

Definition download_lesson_plan (env : Env) (lesson_plan_id : string) : M FileResponse :=
  try_except
    (lesson_plan_doc <- find_lesson_plan env lesson_plan_id ;;
     match lesson_plan_doc with
     | None => raise (HTTPException 404 "Lesson plan not found")
     | Some lesson_plan =>
         temp_pdf <- NamedTemporaryFile env ;;
         generate_lesson_plan_pdf env lesson_plan temp_pdf ;;;
         let filename :=
           "lesson_plan_"
           +:+ LessonPlanRequest.subject_name (LessonPlan.request_data lesson_plan)
           +:+ "_" +:+ PyStr.take 8 lesson_plan_id +:+ ".pdf" in
         ret {| path := temp_pdf; media_type := "application/pdf";
                download_name := filename |}
     end)
    (fun e => raise (HTTPException 500 ("Failed to generate PDF: " +:+ str_exc e))).

(** *** Runs and invariants *)

(** A sequence of signup requests, handled one after the other. *)
Fixpoint signups (requests : list (Env * UserSignup.t)) (w : World)
    : list (result AuthResponse.t) * World :=
  match requests with
  | [] => ([], w)
  | (env, user_data) :: rest =>
      let '(r, w1) := signup env user_data w in
      let '(rs, w2) := signups rest w1 in
      (r :: rs, w2)
  end.

Definition signup_emails (requests : list (Env * UserSignup.t)) : list string :=
  map (fun r => UserSignup.email r.2) requests.

(** The world the server starts in, and the worlds it can get to: one
    request after the other, to any of the handlers that touch the
    world. *)
Definition initial_world : World := mkWorld ∅ ∅ [] [] [].

Inductive reachable : World -> Prop :=
  | reach_initial :
      reachable initial_world
  | reach_signup env user_data w :
      reachable w -> reachable (signup env user_data w).2
  | reach_login env login_data w :
      reachable w -> reachable (login env login_data w).2
  | reach_validate_api_key env api_data credentials w :
      reachable w -> reachable (validate_api_key env api_data credentials w).2
  | reach_get_profile env credentials w :
      reachable w -> reachable (get_profile env credentials w).2
  | reach_upload_pdf env file_ credentials w :
      reachable w -> reachable (upload_pdf env file_ credentials w).2
  | reach_generate_lesson_plan env request credentials w :
      reachable w -> reachable (generate_lesson_plan env request credentials w).2
  | reach_download_lesson_plan env lesson_plan_id w :
      reachable w -> reachable (download_lesson_plan env lesson_plan_id w).2.

(** Every record of [users_db] is stored under its own email. *)
Definition users_db_keyed (w : World) : Prop :=
  forall e u, users_db w !! e = Some u -> User.email u = e.

(** The keys of a stored mapping, and the invariant the data model asks
    of an extraction result. *)
Definition mapping_keys (r : PDFExtractionResult.t) : list string :=
  map fst (PDFExtractionResult.lecture_focus_mapping r).

Definition keys_in_topics (r : PDFExtractionResult.t) : Prop :=
  mapping_keys r ⊆ PDFExtractionResult.lecture_topics r.

(** The keys of the [lecture_focus_mapping] of a reply, as [upload_pdf]
    reads them: those of the object, none for anything else. *)
Definition reply_mapping_keys (members : list (string * json)) : list string :=
  match dict_get "lecture_focus_mapping" members (JObj []) with
  | JObj mapping => map fst mapping
  | _ => []
  end.

(** One request: the world before and the world after the call of any
    handler that is given the world. *)
Inductive handler_step : World -> World -> Prop :=
  | step_signup env user_data w :
      handler_step w (signup env user_data w).2
  | step_login env login_data w :
      handler_step w (login env login_data w).2
  | step_validate_api_key env api_data credentials w :
      handler_step w (validate_api_key env api_data credentials w).2
  | step_get_profile env credentials w :
      handler_step w (get_profile env credentials w).2
  | step_upload_pdf env file_ credentials w :
      handler_step w (upload_pdf env file_ credentials w).2
  | step_generate_lesson_plan env request credentials w :
      handler_step w (generate_lesson_plan env request credentials w).2
  | step_download_lesson_plan env lesson_plan_id w :
      handler_step w (download_lesson_plan env lesson_plan_id w).2.

(** Two records of one account: they differ at most in the API key. *)
Definition same_account (u u' : User.t) : Prop :=
  User.id u' = User.id u
  /\ User.firstName u' = User.firstName u
  /\ User.lastName u' = User.lastName u
  /\ User.email u' = User.email u
  /\ User.institution u' = User.institution u
  /\ User.department u' = User.department u
  /\ User.password_hash u' = User.password_hash u
  /\ User.newsletter u' = User.newsletter u
  /\ User.created_at u' = User.created_at u.

(** The text of every page that can be read is ASCII. *)
Definition ascii_pages (pages : list (option string)) : bool :=
  forallb (fun page => from_option PyStr.isascii true page) pages.

(** The texts of the pages that can be read and are not blank, and the
    text they make, each followed by a newline. *)
Definition readable_texts (pages : list (option string)) : list string :=
  filter (fun t => PyStr.strip t <> "") (omap id pages).

Fixpoint lines_text (texts : list string) : string :=
  match texts with
  | [] => ""
  | t :: rest => t +:+ PyStr.LF +:+ lines_text rest
  end.

(** What a flowable of the body of a story has to be, by its style. *)
Definition body_flowable (f : Flowable) : Prop :=
  match f with
  | Paragraph text section_heading_style =>
      PyStr.isupper text = true /\ (String.length text < 100)%nat
      /\ PyStr.strip text = text
  | Paragraph text subsection_heading_style =>
      minutes_line text = true /\ PyStr.strip text = text
  | Paragraph text bullet_style =>
      exists line, text = "• " +:+ PyStr.drop 2 line
                   /\ PyStr.startswith "- " line = true /\ PyStr.strip line = line
  | Paragraph text normal_style =>
      text <> "" /\ PyStr.startswith "- " text = false /\ PyStr.strip text = text
  | Paragraph _ title_style => False
  | Spacer width height => width = 1 /\ height = 6
  | Table _ => False
  end.

(** From one world to a later one nothing is lost: every account is
    still there, changed at most in its API key, and the two collections
    and the record of the calls to the provider have only been added
    to. *)
Definition world_grows (w w' : World) : Prop :=
  (forall e u, users_db w !! e = Some u ->
     exists u', users_db w' !! e = Some u' /\ same_account u u')
  /\ pdf_extractions w `prefix_of` pdf_extractions w'
  /\ lesson_plans w `prefix_of` lesson_plans w'
  /\ llm_calls w `prefix_of` llm_calls w'.

(** ** Properties *)

(** *** Splitting and joining *)

Lemma split_go_skip sep s : forall skip,
  PyStr.split_go sep skip s = PyStr.split_go sep O (PyStr.drop skip s).
Proof.
  induction s as [|c s IH]; intros [|k]; simpl; try reflexivity. apply IH.
Qed.

Lemma prefix_drop p : forall s,
  String.prefix p s = true -> s = p +:+ PyStr.drop (String.length p) s.
Proof.
  induction p as [|a p IH]; intros s Hprefix; [reflexivity|].
  destruct s as [|c s]; simpl in Hprefix; [discriminate|].
  destruct (ascii_dec a c) as [->|]; [|discriminate].
  change (String c s = String c (p +:+ PyStr.drop (String.length p) s)).
  f_equal. by apply IH.
Qed.

Lemma length_drop_le n : forall s,
  (String.length (PyStr.drop n s) <= String.length s)%nat.
Proof.
  induction n as [|n IH]; intros [|c s]; simpl; try lia.
  specialize (IH s). lia.
Qed.

Lemma join_cons_char sep c h t :
  PyStr.join sep (String c h :: t) = String c (PyStr.join sep (h :: t)).
Proof. by destruct t. Qed.

Lemma join_split_go sep : sep <> "" -> forall n s,
  (String.length s <= n)%nat ->
  PyStr.join sep ((PyStr.split_go sep O s).1 :: (PyStr.split_go sep O s).2) = s.
Proof.
  intros Hsep. induction n as [|n IH]; intros s Hlen.
  { destruct s; [reflexivity|simpl in Hlen; lia]. }
  destruct s as [|c s]; [reflexivity|].
  cbn [PyStr.split_go].
  destruct (String.prefix sep (String c s)) eqn:Hprefix.
  - rewrite split_go_skip.
    destruct sep as [|a sep]; [done|].
    pose proof (prefix_drop _ _ Hprefix) as Hs.
    cbn [String.length PyStr.drop] in Hs.
    replace (String.length (String a sep) - 1)%nat with (String.length sep)
      by (simpl; lia).
    set (rest := PyStr.drop (String.length sep) s) in *.
    specialize (IH rest).
    destruct (PyStr.split_go (String a sep) O rest) as [h t]. simpl in *.
    rewrite IH; [by rewrite Hs|].
    subst rest. pose proof (length_drop_le (String.length sep) s). lia.
  - specialize (IH s).
    destruct (PyStr.split_go sep O s) as [h t]. cbn [fst snd] in *.
    rewrite join_cons_char. f_equal. apply IH. simpl in Hlen. lia.
Qed.

(** Joining the pieces of a split with the separator gives the string
    back. *)
Lemma join_split sep s : sep <> "" -> PyStr.join sep (PyStr.split sep s) = s.
Proof.
  intros Hsep. unfold PyStr.split.
  pose proof (join_split_go sep Hsep (String.length s) s (le_n _)) as Hjoin.
  by destruct (PyStr.split_go sep O s).
Qed.

(** *** Signup, login and authentication *)

Lemma signup_fresh env user_data w :
  users_db w !! UserSignup.email user_data = None ->
  signup env user_data w =
    (Ok (AuthResponse.mk true (create_jwt_token (now env) (new_user env user_data))
           (user_response (new_user env user_data))),
     set_users_db (insert (UserSignup.email user_data) (new_user env user_data)) w).
Proof.
  intros Hnone. unfold signup. rewrite Hnone.
  rewrite bool_decide_eq_false_2; [reflexivity|]. intros [? ?]; discriminate.
Qed.

(** C5: a signup with an email that is already registered fails with
    status 400, "Email already registered", and the world, with it the
    record stored under that email, is what it was. *)
Theorem signup_duplicate_email env user_data w :
  is_Some (users_db w !! UserSignup.email user_data) ->
  signup env user_data w = (Raise (HTTPException 400 "Email already registered"), w).
Proof.
  intros Hsome. unfold signup. by rewrite bool_decide_eq_true_2.
Qed.

Lemma signups_lookup requests : forall w,
  NoDup (signup_emails requests) ->
  (forall e, e ∈ signup_emails requests -> users_db w !! e = None) ->
  Forall (fun r => is_ok r = true) (signups requests w).1
  /\ (forall env user_data, (env, user_data) ∈ requests ->
        users_db (signups requests w).2 !! UserSignup.email user_data
        = Some (new_user env user_data))
  /\ (forall e, e ∉ signup_emails requests ->
        users_db (signups requests w).2 !! e = users_db w !! e).
Proof.
  induction requests as [|[env0 u0] rest IH]; intros w Hnodup Hfresh; simpl.
  - split; [constructor|]. split; [|done]. intros ? ? Hin. by apply elem_of_nil in Hin.
  - apply NoDup_cons in Hnodup as [Hnotin Hnodup].
    rewrite signup_fresh by (apply Hfresh; simpl; left).
    set (w1 := set_users_db _ w).
    destruct (IH w1) as (Hok & Hin & Hout); [done| |].
    { intros e He. subst w1. simpl. rewrite lookup_insert_ne.
      - apply Hfresh. simpl. by right.
      - intros <-. done. }
    destruct (signups rest w1) as [rs w2] eqn:Hrun. simpl in *.
    split; [by constructor|]. split.
    + intros env user_data Hmem. apply elem_of_cons in Hmem as [Heq|Hmem].
      * injection Heq as -> ->. rewrite Hout by done.
        subst w1. simpl. by rewrite lookup_insert_eq.
      * by apply Hin.
    + intros e He. apply not_elem_of_cons in He as [Hne He].
      rewrite Hout by done. subst w1. simpl. by rewrite lookup_insert_ne.
Qed.

Lemma login_registered env email password u w :
  users_db w !! email = Some u ->
  User.password_hash u = hash_password password ->
  login env (UserLogin.mk email password) w =
    (Ok (AuthResponse.mk true (create_jwt_token (now env) u) (user_response u)), w).
Proof.
  intros Hu Hhash. unfold login. simpl. rewrite Hu.
  unfold verify_password, hash_password in *. by rewrite bool_decide_eq_true_2.
Qed.

Lemma get_current_user_spec env token w :
  get_current_user env token w =
    if bool_decide (Token.signature token = hs256 JWT_SECRET (Token.payload token))
    then if Payload.exp (Token.payload token) <=? now env
         then (Raise (HTTPException 401 "Token has expired"), w)
         else match users_db w !! Payload.email (Token.payload token) with
              | None => (Raise (HTTPException 401 "User not found"), w)
              | Some user => (Ok user, w)
              end
    else (Raise (HTTPException 401 "Invalid token"), w).
Proof.
  unfold get_current_user, bind, lift, verify_jwt_token, jwt_decode.
  case_bool_decide; [|done]. by destruct (_ <=? _).
Qed.

Lemma get_current_user_world env token w :
  (get_current_user env token w).2 = w.
Proof. rewrite get_current_user_spec. by repeat case_match. Qed.

Lemma get_current_user_minted env t u w :
  now env < t + 24 * 3600 ->
  users_db w !! User.email u = Some u ->
  get_current_user env (create_jwt_token t u) w = (Ok u, w).
Proof.
  intros Htime Hu. rewrite get_current_user_spec. simpl.
  rewrite bool_decide_eq_true_2 by done.
  unfold JWT_EXPIRATION_HOURS.
  destruct (Z.leb_spec (t + 24 * 3600) (now env)); [lia|]. by rewrite Hu.
Qed.

(** C4: after any sequence of signups with pairwise distinct emails, none
    of them registered before, every signup has succeeded, and a login
    with the email and the password of one of them succeeds; the token it
    returns is accepted by [get_current_user], at the time of the login and
    at any time before its expiry, and resolves to the user that signup
    registered. *)
Theorem signups_login_authenticate requests w env_s user_data env_l :
  NoDup (signup_emails requests) ->
  (forall e, e ∈ signup_emails requests -> users_db w !! e = None) ->
  (env_s, user_data) ∈ requests ->
  let w' := (signups requests w).2 in
  Forall (fun r => is_ok r = true) (signups requests w).1
  /\ exists response,
       login env_l (UserLogin.mk (UserSignup.email user_data)
                      (UserSignup.password user_data)) w'
       = (Ok response, w')
       /\ AuthResponse.success response = true
       /\ get_current_user env_l (AuthResponse.token response) w'
          = (Ok (new_user env_s user_data), w')
       /\ forall env_a, now env_a < now env_l + 24 * 3600 ->
            get_current_user env_a (AuthResponse.token response) w'
            = (Ok (new_user env_s user_data), w').
Proof.
  intros Hnodup Hfresh Hmem w'.
  destruct (signups_lookup requests w Hnodup Hfresh) as (Hok & Hin & _).
  split; [done|].
  specialize (Hin _ _ Hmem). fold w' in Hin.
  eexists. split.
  { apply login_registered; [exact Hin|reflexivity]. }
  simpl. split; [reflexivity|].
  split; [|intros env_a Ha]; apply get_current_user_minted; simpl; (lia || done).
Qed.

Lemma get_current_user_ok_iff env token w user :
  get_current_user env token w = (Ok user, w) <->
  Token.signature token = hs256 JWT_SECRET (Token.payload token)
  /\ now env < Payload.exp (Token.payload token)
  /\ users_db w !! Payload.email (Token.payload token) = Some user.
Proof.
  rewrite get_current_user_spec.
  case_bool_decide as Hsig; [|split; [discriminate|by intros [? _]]].
  destruct (Z.leb_spec (Payload.exp (Token.payload token)) (now env)) as [Hexp|Hexp].
  { split; [discriminate|lia]. }
  destruct (users_db w !! _) as [u|]; split.
  - intros [= ->]. auto.
  - intros (_ & _ & [= ->]). done.
  - discriminate.
  - intros (_ & _ & ?). discriminate.
Qed.

(** C9: [get_current_user] accepts a token exactly when its signature is
    the MAC of its payload under the server secret, its expiry is still
    ahead, and the email of its payload is a key of [users_db]; the user it
    returns is the record stored under that email in the world of the
    request, whatever the world was when the token was minted, so a key
    attached since then is seen; and the user id of the payload plays no
    part: two tokens signed by the server that differ in it alone get the
    same answer. *)
Theorem get_current_user_accepts env token w :
  let payload := Token.payload token in
  (is_ok (get_current_user env token w).1 = true <->
     Token.signature token = hs256 JWT_SECRET payload
     /\ now env < Payload.exp payload
     /\ is_Some (users_db w !! Payload.email payload))
  /\ (forall user,
        get_current_user env token w = (Ok user, w) <->
        Token.signature token = hs256 JWT_SECRET payload
        /\ now env < Payload.exp payload
        /\ users_db w !! Payload.email payload = Some user)
  /\ (forall user_id',
        get_current_user env
          (jwt_encode (Payload.mk user_id' (Payload.email payload) (Payload.exp payload))
             JWT_SECRET) w
        = get_current_user env (jwt_encode payload JWT_SECRET) w)
  /\ (forall user key w1,
        get_current_user env token w = (Ok user, w) ->
        store_api_key (Payload.email payload) key w = (Ok tt, w1) ->
        get_current_user env token w1 = (Ok (User.set_api_key key user), w1)).
Proof.
  intros payload. subst payload.
  split; [|split; [intros user; apply get_current_user_ok_iff|split]].
  - rewrite get_current_user_spec.
    case_bool_decide as Hsig; [|split; [discriminate|by intros [? _]]].
    destruct (Z.leb_spec (Payload.exp (Token.payload token)) (now env)) as [Hexp|Hexp].
    { split; [discriminate|lia]. }
    destruct (users_db w !! _) as [u|]; simpl.
    + split; [intros _; eauto|done].
    + split; [discriminate|]. intros (_ & _ & [? ?]). discriminate.
  - intros user_id'. rewrite !get_current_user_spec. simpl.
    by rewrite !bool_decide_eq_true_2.
  - intros user key w1 Hacc Hstore.
    apply get_current_user_ok_iff in Hacc as (Hsig & Hexp & Hu).
    unfold store_api_key in Hstore. rewrite Hu in Hstore.
    injection Hstore as <-.
    apply get_current_user_ok_iff.
    split; [done|]. split; [done|]. simpl. by rewrite lookup_insert_eq.
Qed.

(** The store stays keyed by the emails of its records. *)
Lemma users_db_keyed_signup env user_data w :
  users_db_keyed w -> users_db_keyed (signup env user_data w).2.
Proof.
  intros Hk. unfold signup. case_bool_decide; [done|].
  intros e u. simpl. destruct (decide (UserSignup.email user_data = e)) as [<-|Hne].
  - rewrite lookup_insert_eq. by intros [= <-].
  - rewrite lookup_insert_ne by done. apply Hk.
Qed.

Lemma users_db_keyed_store email key w :
  users_db_keyed w -> users_db_keyed (store_api_key email key w).2.
Proof.
  intros Hk. unfold store_api_key. destruct (users_db w !! email) as [u0|] eqn:Hu0; [|done].
  intros e u. simpl. destruct (decide (email = e)) as [<-|Hne].
  - rewrite lookup_insert_eq. intros [= <-]. simpl. by apply Hk.
  - rewrite lookup_insert_ne by done. apply Hk.
Qed.

Lemma users_db_keyed_validate_api_key env api_data credentials w :
  users_db_keyed w -> users_db_keyed (validate_api_key env api_data credentials w).2.
Proof.
  intros Hk. unfold validate_api_key, bind at 1.
  pose proof (get_current_user_world env credentials w) as Hw.
  destruct (get_current_user env credentials w) as [[user|e] w0]; simpl in Hw; subst w0;
    [|done].
  unfold try_except, bind, lift, send_message.
  destruct (get_user_llm_chat _) as [chat|e]; [|done].
  destruct (llm_reply _ _); [|done].
  pose proof (users_db_keyed_store (User.email user) (ApiKeyValidation.apiKey api_data)
                (add_llm_call (chat_api_key chat) "Hello" w) Hk) as Hstore.
  by destruct (store_api_key _ _ _) as [[[]|e] w1].
Qed.

Lemma get_user_llm_chat_falsy api_key k :
  truthy_str api_key = false ->
  EMERGENT_LLM_KEY = Some k -> k <> "" ->
  get_user_llm_chat api_key = Ok {| chat_api_key := k |}.
Proof.
  intros Hfalsy Hk Hne. unfold get_user_llm_chat, get_llm_chat.
  rewrite Hfalsy, Hk. simpl. by destruct k.
Qed.

(** C10: with a system key configured, [validate_api_key] called with the
    empty string makes its probe with the system key; when the probe is
    answered, the empty string is what is stored as the [api_key] of the
    user, after which [get_user_llm_chat] on the stored key still gives a
    chat with the system key, a lesson-plan generation sends its prompt
    with the system key, and the profile still reports
    [hasApiKey = false]. *)
Theorem validate_api_key_empty_string env credentials w user k :
  EMERGENT_LLM_KEY = Some k -> k <> "" ->
  users_db_keyed w ->
  get_current_user env credentials w = (Ok user, w) ->
  let run := validate_api_key env (ApiKeyValidation.mk "") credentials w in
  llm_calls run.2 = llm_calls w ++ [(k, "Hello")]
  /\ forall response, llm_reply k "Hello" = Some response ->
       is_ok run.1 = true
       /\ users_db run.2 = <[User.email user := User.set_api_key "" user]> (users_db w)
       /\ User.api_key (User.set_api_key "" user) = Some ""
       /\ get_user_llm_chat (User.api_key (User.set_api_key "" user))
          = Ok {| chat_api_key := k |}
       /\ forall env', now env' < Payload.exp (Token.payload credentials) ->
            (exists profile,
               get_profile env' credentials run.2 = (Ok profile, run.2)
               /\ UserResponse.hasApiKey profile = false)
            /\ forall request,
                 llm_calls (generate_lesson_plan env' request credentials run.2).2
                 = llm_calls run.2 ++ [(k, generation_prompt request)].
Proof.
  intros Hk Hne Hkeyed Hauth run.
  pose proof (proj1 (get_current_user_ok_iff env credentials w user) Hauth)
    as (Hsig & Hexp & Hu).
  pose proof (Hkeyed _ _ Hu) as Hemail.
  assert (Hrun : run =
    match llm_reply k "Hello" with
    | Some _ =>
        (Ok {| msg_success := true;
               msg_message := "API key validated and saved successfully" |},
         set_users_db (insert (User.email user) (User.set_api_key "" user))
           (add_llm_call k "Hello" w))
    | None =>
        (Raise (HTTPException 400 "Invalid API key or failed to connect to Gemini API"),
         add_llm_call k "Hello" w)
    end).
  { subst run. unfold validate_api_key, bind at 1. rewrite Hauth.
    unfold try_except, bind, lift. cbn [ApiKeyValidation.apiKey].
    rewrite (get_user_llm_chat_falsy (Some "") k) by done.
    unfold send_message. simpl.
    destruct (llm_reply k "Hello"); [|done].
    unfold store_api_key. simpl. rewrite Hemail, Hu. done. }
  split.
  { rewrite Hrun. by destruct (llm_reply k "Hello"). }
  intros response Hreply. rewrite Hrun, Hreply. simpl.
  split; [done|]. split; [done|]. split; [done|].
  split; [by apply get_user_llm_chat_falsy|].
  intros env' Hvalid.
  set (w' := set_users_db _ _).
  assert (Hauth' : get_current_user env' credentials w'
                   = (Ok (User.set_api_key "" user), w')).
  { apply get_current_user_ok_iff.
    split; [done|]. split; [done|]. subst w'. simpl.
    rewrite <- Hemail. by rewrite lookup_insert_eq. }
  split.
  - eexists. unfold get_profile, bind. rewrite Hauth'. split; [reflexivity|done].
  - intros request. unfold generate_lesson_plan, bind at 1. rewrite Hauth'.
    unfold try_except, bind, lift. simpl.
    rewrite (get_user_llm_chat_falsy (Some "") k) by done.
    unfold send_message. simpl.
    destruct (llm_reply k (generation_prompt request)); [|done].
    by destruct (db_ok env').
Qed.

(** *** Text extraction and upload *)

Lemma extract_pages_blank pages text :
  Forall (fun page => exists t, page = Some t /\ PyStr.strip t = "") pages ->
  extract_pages pages text = text.
Proof.
  induction 1 as [|page rest (t & -> & Ht) _ IH]; simpl; [done|].
  rewrite Ht. exact IH.
Qed.

Lemma extract_text_from_pdf_world file_path w :
  (extract_text_from_pdf file_path w).2 = w.
Proof.
  unfold extract_text_from_pdf, try_except, raise.
  repeat case_match; simplify_eq; done.
Qed.

Lemma extract_text_from_pdf_blank file_path w bytes pages :
  files w !! file_path = Some bytes ->
  PdfReader bytes = Some pages ->
  PyStr.strip (extract_pages pages "") = "" ->
  extract_text_from_pdf file_path w = (Raise (HTTPException 400 no_readable_text), w).
Proof.
  intros Hfile Hread Hblank. unfold extract_text_from_pdf, try_except.
  by rewrite Hfile, Hread, Hblank.
Qed.


Lemma parse_llm_response_files env file_ response w :
  files (parse_llm_response env file_ response w).2 = files w.
Proof.
  unfold parse_llm_response, bind, lift, raise, ret, modify.
  repeat case_match; simplify_eq; done.
Qed.

Lemma upload_pdf_process_files env file_ user path_ w :
  files (upload_pdf_process env file_ user path_ w).2 = files w.
Proof.
  unfold upload_pdf_process, bind at 1.
  pose proof (extract_text_from_pdf_world path_ w) as Hw.
  destruct (extract_text_from_pdf path_ w) as [[pdf_text|e] w1]; simpl in Hw; subst w1;
    [|done].
  destruct (PyStr.is_empty _); [done|].
  unfold bind, lift, send_message.
  destruct (get_user_llm_chat _) as [chat|e]; [|done].
  destruct (llm_reply _ _); [|done].
  by rewrite parse_llm_response_files.
Qed.

Lemma set_files_delete_insert p c w :
  files w !! p = None ->
  set_files (delete p) (set_files (insert p c) w) = w.
Proof.
  intros Hnone. destruct w. unfold set_files. simpl in *. f_equal.
  by apply delete_insert_id.
Qed.

(** The upload handler once the request is authenticated, the name ends
    in [.pdf] and the upload has been written to a fresh temporary file. *)
Lemma upload_pdf_written env file_ credentials w user :
  get_current_user env credentials w = (Ok user, w) ->
  PyStr.endswith ".pdf" (PyStr.lower (filename file_)) = true ->
  temp_outcome env = TempWritten ->
  files w !! temp_name env = None ->
  upload_pdf env file_ credentials w =
    let run := upload_pdf_process env file_ user (temp_name env)
                 (set_files (insert (temp_name env) (file file_)) w) in
    (match run.1 with
     | Ok result => Ok result
     | Raise e => Raise (HTTPException 500 ("Failed to process PDF: " +:+ str_exc e))
     end,
     set_files (delete (temp_name env)) run.2).
Proof.
  intros Hauth Hext Hout Hfresh. unfold upload_pdf, bind. rewrite Hauth, Hext. simpl.
  unfold upload_pdf_try, NamedTemporaryFile, copyfileobj, modify. rewrite Hout, Hfresh.
  rewrite bool_decide_eq_false_2 by (intros [? ?]; discriminate).
  assert (Hw2 : set_files (insert (temp_name env) (file file_))
                  (set_files (insert (temp_name env) "") w)
                = set_files (insert (temp_name env) (file file_)) w).
  { unfold set_files. simpl. by rewrite insert_insert_eq. }
  rewrite Hw2. set (w2 := set_files _ w).
  pose proof (upload_pdf_process_files env file_ user (temp_name env) w2) as Hfiles.
  destruct (upload_pdf_process env file_ user (temp_name env) w2) as [r w3].
  simpl in *. unfold upload_pdf_finally. simpl.
  rewrite bool_decide_eq_true_2; [done|].
  rewrite Hfiles. subst w2. simpl. rewrite lookup_insert_eq. eauto.
Qed.

(** C1: an authenticated upload whose name ends in [.pdf], that parses as
    a PDF and whose pages all yield empty or whitespace-only text: the
    400 that [extract_text_from_pdf] raises is caught by the
    [except Exception] of [upload_pdf], and the request fails with status
    500. *)
Theorem upload_pdf_no_readable_text env file_ credentials w user pages :
  get_current_user env credentials w = (Ok user, w) ->
  PyStr.endswith ".pdf" (PyStr.lower (filename file_)) = true ->
  temp_outcome env = TempWritten ->
  files w !! temp_name env = None ->
  PdfReader (file file_) = Some pages ->
  Forall (fun page => exists t, page = Some t /\ PyStr.strip t = "") pages ->
  upload_pdf env file_ credentials w
  = (Raise (HTTPException 500
             ("Failed to process PDF: " +:+ str_exc (HTTPException 400 no_readable_text))),
     w)
  /\ http_status (upload_pdf env file_ credentials w).1 = 500.
Proof.
  intros Hauth Hext Hout Hfresh Hread Hblank.
  rewrite (upload_pdf_written env file_ credentials w user) by done.
  set (w2 := set_files (insert (temp_name env) (file file_)) w).
  assert (Hproc : upload_pdf_process env file_ user (temp_name env) w2
                  = (Raise (HTTPException 400 no_readable_text), w2)).
  { unfold upload_pdf_process, bind.
    rewrite (extract_text_from_pdf_blank _ _ (file file_) pages); [done| |done|].
    - subst w2. simpl. by rewrite lookup_insert_eq.
    - by rewrite extract_pages_blank. }
  rewrite Hproc. simpl. split; [|done]. f_equal. by apply set_files_delete_insert.
Qed.

(** *** Curriculum extraction *)

Lemma validate_list_str_strings (l : list string) :
  validate_list_str (JArr (JStr <$> l)) = Some l.
Proof using pydantic_str_JStr.
  simpl. induction l as [|x l IH]; [done|].
  rewrite fmap_cons. cbn. rewrite pydantic_str_JStr. cbn.
  change (mapM pydantic_str (JStr <$> l) ≫= (fun k => Some (x :: k)) = Some (x :: l)).
  by rewrite IH.
Qed.

Lemma validate_mapping_keys members : forall mapping,
  validate_mapping members = Some mapping -> map fst mapping = map fst members.
Proof.
  unfold validate_mapping.
  induction members as [|[k v] rest IH]; intros mapping Hval; simpl in Hval.
  - by injection Hval as <-.
  - destruct (validate_list_str v) as [l|]; simpl in Hval; [|done].
    destruct (mapM _ rest) as [m|]; simpl in Hval; [|done].
    injection Hval as <-. simpl. f_equal. by apply IH.
Qed.

Lemma parse_llm_response_ok env file_ response w r w' :
  parse_llm_response env file_ response w = (Ok r, w') ->
  exists members,
    json_loads (clean_response response) = Some (JObj members)
    /\ new_PDFExtractionResult env (filename file_)
         (dict_get "subject_names" members (JArr []))
         (dict_get "lecture_topics" members (JArr []))
         (match dict_get "lecture_focus_mapping" members (JObj []) with
          | JObj mapping => mapping
          | _ => []
          end) = Ok r
    /\ db_ok env = true
    /\ w' = add_pdf_extraction r w.
Proof.
  unfold parse_llm_response. intros Hrun.
  destruct (json_loads (clean_response response)) as [[| | | | |members]|];
    try (unfold raise in Hrun; simpl in Hrun; discriminate).
  exists members. split; [done|].
  destruct (negb _); [unfold raise in Hrun; simpl in Hrun; discriminate|].
  unfold bind, lift in Hrun.
  destruct (new_PDFExtractionResult _ _ _ _ _) as [r0|e];
    [|simpl in Hrun; destruct (is_JSONDecodeError e); discriminate].
  destruct (db_ok env); unfold modify, raise, ret in Hrun; simpl in Hrun; [|discriminate].
  by injection Hrun as <- <-.
Qed.

Lemma parse_llm_response_members env file_ response w members r :
  json_loads (clean_response response) = Some (JObj members) ->
  truthy (dict_get "subject_names" members (JArr []))
  || truthy (dict_get "lecture_topics" members (JArr [])) = true ->
  new_PDFExtractionResult env (filename file_)
    (dict_get "subject_names" members (JArr []))
    (dict_get "lecture_topics" members (JArr []))
    (match dict_get "lecture_focus_mapping" members (JObj []) with
     | JObj mapping => mapping
     | _ => []
     end) = Ok r ->
  db_ok env = true ->
  parse_llm_response env file_ response w = (Ok r, add_pdf_extraction r w).
Proof.
  intros Hloads Hany Hnew Hdb. unfold parse_llm_response.
  rewrite Hloads, Hany. simpl. unfold bind, lift. rewrite Hnew, Hdb. done.
Qed.

Lemma upload_pdf_process_ok env file_ user path_ w r w' :
  upload_pdf_process env file_ user path_ w = (Ok r, w') ->
  exists pdf_text chat response,
    get_user_llm_chat (User.api_key user) = Ok chat
    /\ llm_reply (chat_api_key chat) (extraction_prompt pdf_text) = Some response
    /\ parse_llm_response env file_ response
         (add_llm_call (chat_api_key chat) (extraction_prompt pdf_text) w)
       = (Ok r, w').
Proof.
  unfold upload_pdf_process, bind at 1. intros Hrun.
  pose proof (extract_text_from_pdf_world path_ w) as Hw.
  destruct (extract_text_from_pdf path_ w) as [[pdf_text|e] w1]; simpl in Hw; subst w1;
    [|discriminate].
  destruct (PyStr.is_empty _); [discriminate|].
  unfold bind, lift, send_message in Hrun.
  destruct (get_user_llm_chat _) as [chat|e]; [|discriminate].
  destruct (llm_reply _ _) as [response|] eqn:Hreply; [|discriminate].
  by exists pdf_text, chat, response.
Qed.

Lemma upload_pdf_ok env file_ credentials w r w' :
  upload_pdf env file_ credentials w = (Ok r, w') ->
  exists user w3,
    upload_pdf_process env file_ user (temp_name env)
      (set_files (insert (temp_name env) (file file_)) w) = (Ok r, w3)
    /\ files w !! temp_name env = None
    /\ w' = set_files (delete (temp_name env)) w3.
Proof.
  intros Hrun0. pose proof Hrun0 as Hrun. unfold upload_pdf, bind in Hrun.
  pose proof (get_current_user_world env credentials w) as Hw.
  destruct (get_current_user env credentials w) as [[user|e] w0] eqn:Hauth;
    simpl in Hw; subst w0; [|discriminate].
  destruct (PyStr.endswith _ _) eqn:Hext; [|discriminate].
  cbn [negb] in Hrun.
  destruct (temp_outcome env) eqn:Hout.
  - unfold upload_pdf_try, NamedTemporaryFile in Hrun. rewrite Hout in Hrun. discriminate.
  - unfold upload_pdf_try, NamedTemporaryFile, copyfileobj in Hrun. rewrite Hout in Hrun.
    destruct (bool_decide (is_Some (files w !! temp_name env))); discriminate.
  - destruct (files w !! temp_name env) as [c|] eqn:Hfresh.
    + unfold upload_pdf_try, NamedTemporaryFile in Hrun. rewrite Hout, Hfresh in Hrun.
      rewrite bool_decide_eq_true_2 in Hrun by eauto. discriminate.
    + clear Hrun. rename Hrun0 into Hrun.
      rewrite (upload_pdf_written env file_ credentials w user) in Hrun by done.
      destruct (upload_pdf_process _ _ _ _ _) as [[r0|e] w3] eqn:Hproc; simpl in Hrun;
        [|discriminate].
      injection Hrun as <- <-. by exists user, w3.
Qed.


(** A successful [upload_pdf], with the caller the token resolved to. *)
Lemma upload_pdf_ok_caller env file_ credentials w r w' :
  upload_pdf env file_ credentials w = (Ok r, w') ->
  exists user w3,
    get_current_user env credentials w = (Ok user, w)
    /\ upload_pdf_process env file_ user (temp_name env)
         (set_files (insert (temp_name env) (file file_)) w) = (Ok r, w3)
    /\ w' = set_files (delete (temp_name env)) w3.
Proof.
  intros Hrun0. pose proof Hrun0 as Hrun. unfold upload_pdf, bind in Hrun.
  pose proof (get_current_user_world env credentials w) as Hw.
  destruct (get_current_user env credentials w) as [[user|e] w0] eqn:Hauth;
    simpl in Hw; subst w0; [|discriminate].
  destruct (PyStr.endswith _ _) eqn:Hext; [|discriminate].
  cbn [negb] in Hrun.
  destruct (temp_outcome env) eqn:Hout.
  - unfold upload_pdf_try, NamedTemporaryFile in Hrun. rewrite Hout in Hrun. discriminate.
  - unfold upload_pdf_try, NamedTemporaryFile, copyfileobj in Hrun. rewrite Hout in Hrun.
    destruct (bool_decide (is_Some (files w !! temp_name env))); discriminate.
  - destruct (files w !! temp_name env) as [c|] eqn:Hfresh.
    + unfold upload_pdf_try, NamedTemporaryFile in Hrun. rewrite Hout, Hfresh in Hrun.
      rewrite bool_decide_eq_true_2 in Hrun by eauto. discriminate.
    + clear Hrun. rename Hrun0 into Hrun.
      rewrite (upload_pdf_written env file_ credentials w user) in Hrun by done.
      destruct (upload_pdf_process _ _ _ _ _) as [[r0|e] w3] eqn:Hproc; simpl in Hrun;
        [|discriminate].
      injection Hrun as <- <-. by exists user, w3.
Qed.

(** C7, as the code has it: a result that a successful [upload_pdf]
    returns is the last document of the collection; the request sent one
    message to the provider, the extraction prompt, with the key of the
    caller's chat, and the result carries the lecture topics of the reply
    to that message and, as the keys of its mapping, the keys of the
    mapping object of that reply (none when that is not an object);
    nothing compares the two, so the keys are among the topics exactly
    when they are in the reply, as they are when the reply has no mapping
    object. *)
Theorem upload_pdf_result_keys env file_ credentials w r w' :
  upload_pdf env file_ credentials w = (Ok r, w') ->
  pdf_extractions w' = pdf_extractions w ++ [r]
  /\ exists user chat pdf_text response members topics,
       get_current_user env credentials w = (Ok user, w)
       /\ get_user_llm_chat (User.api_key user) = Ok chat
       /\ llm_calls w'
          = llm_calls w ++ [(chat_api_key chat, extraction_prompt pdf_text)]
       /\ llm_reply (chat_api_key chat) (extraction_prompt pdf_text) = Some response
       /\ json_loads (clean_response response) = Some (JObj members)
       /\ validate_list_str (dict_get "lecture_topics" members (JArr [])) = Some topics
       /\ PDFExtractionResult.lecture_topics r = topics
       /\ mapping_keys r = reply_mapping_keys members
       /\ (keys_in_topics r <-> reply_mapping_keys members ⊆ topics)
       /\ ((forall mapping,
               dict_get "lecture_focus_mapping" members (JObj []) <> JObj mapping) ->
           keys_in_topics r).
Proof.
  intros Hrun.
  apply upload_pdf_ok_caller in Hrun as (user & w3 & Hauth & Hproc & ->).
  apply upload_pdf_process_ok in Hproc
    as (pdf_text & chat & response & Hchat & Hreply & Hparse).
  apply parse_llm_response_ok in Hparse as (members & Hloads & Hnew & _ & ->).
  split; [done|].
  unfold new_PDFExtractionResult in Hnew.
  destruct (validate_list_str (dict_get "subject_names" _ _)) as [names|]; [|done].
  destruct (validate_list_str (dict_get "lecture_topics" _ _)) as [topics|] eqn:Htopics;
    [|done].
  destruct (validate_mapping _) as [mapping|] eqn:Hmapping; [|done].
  injection Hnew as <-.
  assert (Hkeys : map fst mapping = reply_mapping_keys members).
  { rewrite (validate_mapping_keys _ _ Hmapping). unfold reply_mapping_keys.
    by destruct (dict_get "lecture_focus_mapping" members (JObj [])). }
  exists user, chat, pdf_text, response, members, topics.
  unfold keys_in_topics, mapping_keys. simpl. rewrite Hkeys.
  repeat split; try done.
  intros Hnotobj. unfold reply_mapping_keys.
  destruct (dict_get "lecture_focus_mapping" members (JObj [])) eqn:Hmap;
    try (intros ? Hin; by apply elem_of_nil in Hin).
  by destruct (Hnotobj members0).
Qed.

(** *** The user store across requests *)

Lemma parse_llm_response_users_db env file_ response w :
  users_db (parse_llm_response env file_ response w).2 = users_db w.
Proof.
  unfold parse_llm_response, bind, lift, raise, ret, modify.
  repeat case_match; simplify_eq; done.
Qed.

Lemma upload_pdf_process_users_db env file_ user path_ w :
  users_db (upload_pdf_process env file_ user path_ w).2 = users_db w.
Proof.
  unfold upload_pdf_process, bind at 1.
  pose proof (extract_text_from_pdf_world path_ w) as Hw.
  destruct (extract_text_from_pdf path_ w) as [[pdf_text|e] w1]; simpl in Hw; subst w1;
    [|done].
  destruct (PyStr.is_empty _); [done|].
  unfold bind, lift, send_message.
  destruct (get_user_llm_chat _) as [chat|e]; [|done].
  destruct (llm_reply _ _); [|done].
  by rewrite parse_llm_response_users_db.
Qed.

Lemma upload_pdf_users_db env file_ credentials w :
  users_db (upload_pdf env file_ credentials w).2 = users_db w.
Proof.
  unfold upload_pdf, bind.
  pose proof (get_current_user_world env credentials w) as Hw.
  destruct (get_current_user env credentials w) as [[user|e] w0]; simpl in Hw; subst w0;
    [|done].
  destruct (negb _); [done|].
  unfold upload_pdf_try, NamedTemporaryFile, copyfileobj, modify, raise.
  destruct (temp_outcome env); [done| |].
  - by destruct (bool_decide _).
  - destruct (bool_decide _); [done|].
    set (w2 := set_files _ (set_files _ w)).
    pose proof (upload_pdf_process_users_db env file_ user (temp_name env) w2) as Hdb.
    destruct (upload_pdf_process env file_ user (temp_name env) w2) as [r w3].
    simpl in *. unfold upload_pdf_finally. simpl.
    by destruct (bool_decide _).
Qed.

Lemma generate_lesson_plan_users_db env request credentials w :
  users_db (generate_lesson_plan env request credentials w).2 = users_db w.
Proof.
  unfold generate_lesson_plan, bind at 1.
  pose proof (get_current_user_world env credentials w) as Hw.
  destruct (get_current_user env credentials w) as [[user|e] w0]; simpl in Hw; subst w0;
    [|done].
  unfold try_except, bind, lift, send_message, modify, raise, ret.
  repeat case_match; simplify_eq; done.
Qed.

Lemma download_lesson_plan_users_db env lesson_plan_id w :
  users_db (download_lesson_plan env lesson_plan_id w).2 = users_db w.
Proof.
  unfold download_lesson_plan, try_except, bind, find_lesson_plan, NamedTemporaryFile,
    generate_lesson_plan_pdf, modify, raise, ret.
  repeat case_match; simplify_eq; done.
Qed.

(** X23: in every world the server can get to, the store is keyed by
    the emails of its records. *)
Lemma reachable_users_db_keyed w : reachable w -> users_db_keyed w.
Proof.
  induction 1 as [|env user_data w _ IH|env login_data w _ IH
                  |env api_data credentials w _ IH|env credentials w _ IH
                  |env file_ credentials w _ IH|env request credentials w _ IH
                  |env lesson_plan_id w _ IH].
  - intros e u Hu. simpl in Hu. by rewrite lookup_empty in Hu.
  - by apply users_db_keyed_signup.
  - unfold login. by repeat case_match.
  - by apply users_db_keyed_validate_api_key.
  - unfold get_profile, bind.
    pose proof (get_current_user_world env credentials w) as Hw.
    by destruct (get_current_user env credentials w) as [[user|e] w0]; simpl in Hw; subst w0.
  - unfold users_db_keyed. by rewrite upload_pdf_users_db.
  - unfold users_db_keyed. by rewrite generate_lesson_plan_users_db.
  - unfold users_db_keyed. by rewrite download_lesson_plan_users_db.
Qed.

(** *** Temporary files *)

(** C3, as the code has it: [upload_pdf] leaves the temporary directory
    as it found it, on its success path and on its error paths, when
    writing the upload to the temporary file does not itself fail;
    [download_lesson_plan] does not remove the PDF it generates: when it
    returns its response, the file is there, under a name that was free,
    and it is the file the response points to. *)
Theorem temporary_files_after_request :
  (forall env file_ credentials w,
     temp_outcome env <> TempWriteFails ->
     files (upload_pdf env file_ credentials w).2 = files w)
  /\ (forall env lesson_plan_id w response w',
        download_lesson_plan env lesson_plan_id w = (Ok response, w') ->
        path response = temp_name env
        /\ files w !! temp_name env = None
        /\ exists bytes, files w' = <[temp_name env := bytes]> (files w)).
Proof.
  split.
  - intros env file_ credentials w Hwrite.
    pose proof (get_current_user_world env credentials w) as Hw.
    destruct (get_current_user env credentials w) as [[user|e] w0] eqn:Hauth;
      simpl in Hw; subst w0.
    2: { unfold upload_pdf, bind. by rewrite Hauth. }
    destruct (PyStr.endswith ".pdf" (PyStr.lower (filename file_))) eqn:Hext.
    2: { unfold upload_pdf, bind. by rewrite Hauth, Hext. }
    destruct (temp_outcome env) eqn:Hout; [|done|].
    + unfold upload_pdf, bind. rewrite Hauth, Hext. cbn [negb].
      unfold upload_pdf_try, NamedTemporaryFile. by rewrite Hout.
    + destruct (files w !! temp_name env) as [c|] eqn:Hfresh.
      * unfold upload_pdf, bind. rewrite Hauth, Hext. cbn [negb].
        unfold upload_pdf_try, NamedTemporaryFile. rewrite Hout, Hfresh.
        by rewrite bool_decide_eq_true_2 by eauto.
      * rewrite (upload_pdf_written env file_ credentials w user) by done.
        cbn [snd]. cbv zeta. unfold set_files at 1. cbn [files].
        rewrite upload_pdf_process_files. cbn [files set_files].
        by apply delete_insert_id.
  - intros env lesson_plan_id w response w' Hrun.
    unfold download_lesson_plan, try_except, bind, find_lesson_plan in Hrun.
    destruct (db_ok env); [|discriminate].
    destruct (List.find _ _) as [lesson_plan|]; [|discriminate].
    unfold NamedTemporaryFile, generate_lesson_plan_pdf in Hrun.
    destruct (files w !! temp_name env) as [c|] eqn:Hfresh.
    { rewrite bool_decide_eq_true_2 in Hrun by eauto.
      destruct (temp_outcome env); discriminate. }
    rewrite bool_decide_eq_false_2 in Hrun by (intros [? ?]; discriminate).
    destruct (doc_build _ _) as [bytes|];
      destruct (temp_outcome env); try discriminate;
      unfold modify, ret in Hrun; injection Hrun as <- <-;
      (split; [done|]; split; [done|]; exists bytes; simpl; apply insert_insert_eq).
Qed.

(** *** Rendering *)

Lemma minutes_line_not_empty line :
  minutes_line line = true -> PyStr.is_empty line = false.
Proof. by destruct line. Qed.

(** Under a section heading, a line that passes the test is a subsection
    heading of the story. *)
Lemma heading_block_minutes_line section line :
  let lines := PyStr.split PyStr.LF (PyStr.strip section) in
  let first_line := PyStr.strip (hd "" lines) in
  PyStr.isupper first_line && (String.length first_line <? 100)%nat = true ->
  line ∈ tl lines ->
  minutes_line (PyStr.strip line) = true ->
  Paragraph (PyStr.strip line) subsection_heading_style ∈ render_section section.
Proof.
  intros lines first_line Hhead Hin Hmin. unfold render_section.
  fold lines. fold first_line. rewrite Hhead.
  destruct (PyStr.is_empty (PyStr.strip section)) eqn:Hempty.
  { destruct (PyStr.strip section); [|done]. by apply elem_of_nil in Hin. }
  apply elem_of_cons. right. apply list_elem_of_In, in_flat_map.
  exists line. split; [by apply list_elem_of_In|].
  unfold heading_block_line. rewrite (minutes_line_not_empty _ Hmin), Hmin. by left.
Qed.

(** A block whose first line is not a section heading never gives a
    subsection heading. *)
Lemma regular_block_no_subsection_heading section text :
  let lines := PyStr.split PyStr.LF (PyStr.strip section) in
  let first_line := PyStr.strip (hd "" lines) in
  PyStr.isupper first_line && (String.length first_line <? 100)%nat = false ->
  Paragraph text subsection_heading_style ∉ render_section section.
Proof.
  intros lines first_line Hhead. unfold render_section.
  fold lines. fold first_line. rewrite Hhead.
  destruct (PyStr.is_empty _); [apply not_elem_of_nil|].
  intros Hin. apply list_elem_of_In, in_flat_map in Hin as (line & _ & Hin).
  unfold regular_block_line in Hin.
  destruct (PyStr.is_empty _); [done|].
  destruct (PyStr.startswith _ _); simpl in Hin.
  - destruct Hin as [Hin|[]]. discriminate.
  - destruct Hin as [Hin|[Hin|[]]]; discriminate.
Qed.

Lemma render_section_in_story lesson_plan section flowable :
  section ∈ PyStr.split (PyStr.LF +:+ PyStr.LF) (LessonPlan.content lesson_plan) ->
  flowable ∈ render_section section ->
  flowable ∈ lesson_plan_story lesson_plan.
Proof.
  intros Hsection Hflowable. unfold lesson_plan_story.
  apply elem_of_app. right. apply list_elem_of_In, in_flat_map.
  exists section. split; by apply list_elem_of_In.
Qed.

(** When [generate_lesson_plan_pdf] returns, every paragraph of the story
    could be made and the builder has written the file. *)
Lemma generate_lesson_plan_pdf_ok env lesson_plan output_path w w' :
  generate_lesson_plan_pdf env lesson_plan output_path w = (Ok tt, w') ->
  exists bytes,
    doc_build (now env) (lesson_plan_story lesson_plan) = Some bytes
    /\ w' = set_files (insert output_path bytes) w.
Proof.
  unfold generate_lesson_plan_pdf. intros Hrun.
  destruct (doc_build _ _) as [bytes|]; [|discriminate].
  unfold modify in Hrun. injection Hrun as <-. by exists bytes.
Qed.

(** X24: when [generate_lesson_plan_pdf] returns for a plan whose content
    is ASCII, the story it built and wrote to the file has, for every
    block of the content that starts with a section heading, each later
    line that passes the test as a subsection heading. *)
Lemma heading_block_minutes_line_story
    env lesson_plan output_path w w' section line :
  let lines := PyStr.split PyStr.LF (PyStr.strip section) in
  let first_line := PyStr.strip (hd "" lines) in
  generate_lesson_plan_pdf env lesson_plan output_path w = (Ok tt, w') ->
  PyStr.isascii (LessonPlan.content lesson_plan) = true ->
  section ∈ PyStr.split (PyStr.LF +:+ PyStr.LF) (LessonPlan.content lesson_plan) ->
  PyStr.isupper first_line && (String.length first_line <? 100)%nat = true ->
  line ∈ tl lines ->
  minutes_line (PyStr.strip line) = true ->
  exists bytes,
    doc_build (now env) (lesson_plan_story lesson_plan) = Some bytes
    /\ files w' !! output_path = Some bytes
    /\ Paragraph (PyStr.strip line) subsection_heading_style
         ∈ lesson_plan_story lesson_plan.
Proof.
  intros lines first_line Hrun Hascii Hsection Hhead Hline Hmin.
  apply generate_lesson_plan_pdf_ok in Hrun as (bytes & Hbuild & ->).
  exists bytes. split; [done|]. split; [simpl; by rewrite lookup_insert_eq|].
  apply (render_section_in_story _ section); [done|].
  by apply heading_block_minutes_line.
Qed.

(** What a successful download leaves on disk is what [doc.build] gives
    for the story of the stored plan at the time of the request: two
    downloads of one plan build the same story, and their files can differ
    only as far as [doc.build] depends on the clock. *)
Lemma download_lesson_plan_builds_story env lesson_plan_id w response w' :
  download_lesson_plan env lesson_plan_id w = (Ok response, w') ->
  exists lesson_plan,
    List.find (fun p => bool_decide (LessonPlan.id p = lesson_plan_id)) (lesson_plans w)
    = Some lesson_plan
    /\ files w' !! path response
       = doc_build (now env) (lesson_plan_story lesson_plan).
Proof.
  intros Hrun.
  unfold download_lesson_plan, try_except, bind, find_lesson_plan in Hrun.
  destruct (db_ok env); [|discriminate].
  destruct (List.find _ _) as [lesson_plan|]; [|discriminate].
  exists lesson_plan. split; [done|].
  unfold NamedTemporaryFile, generate_lesson_plan_pdf in Hrun.
  destruct (bool_decide _); [destruct (temp_outcome env); discriminate|].
  destruct (doc_build _ _) as [bytes|];
    destruct (temp_outcome env); try discriminate;
    unfold modify, ret in Hrun; injection Hrun as <- <-; simpl;
    by rewrite lookup_insert_eq.
Qed.

(** A successful download, read backwards. *)
Lemma download_lesson_plan_ok env lesson_plan_id w response w' :
  download_lesson_plan env lesson_plan_id w = (Ok response, w') ->
  exists lesson_plan bytes,
    List.find (fun p => bool_decide (LessonPlan.id p = lesson_plan_id)) (lesson_plans w)
    = Some lesson_plan
    /\ files w !! temp_name env = None
    /\ doc_build (now env) (lesson_plan_story lesson_plan) = Some bytes
    /\ response
       = {| path := temp_name env; media_type := "application/pdf";
            download_name :=
              "lesson_plan_"
              +:+ LessonPlanRequest.subject_name (LessonPlan.request_data lesson_plan)
              +:+ "_" +:+ PyStr.take 8 lesson_plan_id +:+ ".pdf" |}
    /\ w' = set_files (insert (temp_name env) bytes) w.
Proof.
  intros Hrun.
  unfold download_lesson_plan, try_except, bind, find_lesson_plan in Hrun.
  destruct (db_ok env); [|discriminate].
  destruct (List.find _ _) as [lesson_plan|]; [|discriminate].
  unfold NamedTemporaryFile, generate_lesson_plan_pdf in Hrun.
  destruct (files w !! temp_name env) as [c|] eqn:Hfresh.
  { rewrite bool_decide_eq_true_2 in Hrun by eauto.
    destruct (temp_outcome env); discriminate. }
  rewrite bool_decide_eq_false_2 in Hrun by (intros [? ?]; discriminate).
  destruct (doc_build _ _) as [bytes|] eqn:Hbuild;
    destruct (temp_outcome env); try discriminate;
    unfold modify, ret in Hrun; injection Hrun as <- <-;
    (exists lesson_plan, bytes; do 4 (split; [done|]);
     unfold set_files; simpl; by rewrite insert_insert_eq).
Qed.

(** C8, as the code has it: a download leaves the stored plans as they
    are, and two downloads of one id that find the same stored record
    build the PDF from the same story and give it the same download name;
    the file of each holds what [doc.build] writes for that story at the
    time of its call, so the two files have the same bytes exactly when
    the builder gives the same for the story at the two times, as it does
    when it does not depend on the clock. *)
Theorem download_twice_same_story env1 env2 lesson_plan_id wa wb r1 wa' r2 wb' :
  download_lesson_plan env1 lesson_plan_id wa = (Ok r1, wa') ->
  download_lesson_plan env2 lesson_plan_id wb = (Ok r2, wb') ->
  List.find (fun p => bool_decide (LessonPlan.id p = lesson_plan_id)) (lesson_plans wb)
  = List.find (fun p => bool_decide (LessonPlan.id p = lesson_plan_id)) (lesson_plans wa) ->
  lesson_plans wa' = lesson_plans wa
  /\ lesson_plans wb' = lesson_plans wb
  /\ exists lesson_plan bytes1 bytes2,
       List.find (fun p => bool_decide (LessonPlan.id p = lesson_plan_id))
         (lesson_plans wa) = Some lesson_plan
       /\ doc_build (now env1) (lesson_plan_story lesson_plan) = Some bytes1
       /\ doc_build (now env2) (lesson_plan_story lesson_plan) = Some bytes2
       /\ files wa' !! path r1 = Some bytes1
       /\ files wb' !! path r2 = Some bytes2
       /\ download_name r1 = download_name r2
       /\ (bytes1 = bytes2 <->
           doc_build (now env1) (lesson_plan_story lesson_plan)
           = doc_build (now env2) (lesson_plan_story lesson_plan))
       /\ ((forall t t' story, doc_build t story = doc_build t' story) ->
           bytes1 = bytes2).
Proof.
  intros Hrun1 Hrun2 Hsame.
  apply download_lesson_plan_ok in Hrun1
    as (plan1 & bytes1 & Hfind1 & _ & Hbuild1 & -> & ->).
  apply download_lesson_plan_ok in Hrun2
    as (plan2 & bytes2 & Hfind2 & _ & Hbuild2 & -> & ->).
  rewrite Hsame, Hfind1 in Hfind2. injection Hfind2 as <-.
  split; [done|]. split; [done|].
  exists plan1, bytes1, bytes2. simpl.
  rewrite !lookup_insert_eq, Hbuild1, Hbuild2.
  repeat split; try done.
  - by intros ->.
  - by intros [= ->].
  - intros Hclock. rewrite (Hclock (now env1) (now env2)) in Hbuild1.
    rewrite Hbuild1 in Hbuild2. by injection Hbuild2.
Qed.

(** C2: outside a heading block the code does not do what the claim
    says.  The content ["Introduction/Hook (10 minutes)"] is one block
    whose first line is not a section heading, and its line, which passes
    the subsection test, is rendered as a plain paragraph followed by a
    spacer; the story has no subsection heading. *)
Theorem minutes_line_in_regular_block id_ request generated_at :
  let lesson_plan :=
    LessonPlan.mk id_ request "Introduction/Hook (10 minutes)" generated_at in
  minutes_line "Introduction/Hook (10 minutes)" = true
  /\ lesson_plan_story lesson_plan
     = [ Paragraph "LESSON PLAN" title_style; Spacer 1 20;
         Table (details_table lesson_plan); Spacer 1 30;
         Paragraph "Introduction/Hook (10 minutes)" normal_style; Spacer 1 6 ]
  /\ Paragraph "Introduction/Hook (10 minutes)" subsection_heading_style
       ∉ lesson_plan_story lesson_plan.
Proof.
  intros lesson_plan.
  assert (Hstory : lesson_plan_story lesson_plan
     = [ Paragraph "LESSON PLAN" title_style; Spacer 1 20;
         Table (details_table lesson_plan); Spacer 1 30;
         Paragraph "Introduction/Hook (10 minutes)" normal_style; Spacer 1 6 ]).
  { unfold lesson_plan_story. f_equal. }
  split; [reflexivity|]. split; [exact Hstory|].
  rewrite Hstory. intros Hin.
  repeat (apply elem_of_cons in Hin as [Hin|Hin]; [discriminate|]).
  by apply elem_of_nil in Hin.
Qed.

(** ** Further properties of the handlers *)

(** *** Login and tokens *)

(** X1: [login] never changes the world; it succeeds exactly when the
    email is registered and the digest of the password is the stored one;
    an unknown email and a wrong password are answered alike, with 401
    and one message. *)
Theorem login_outcome env login_data w :
  (login env login_data w).2 = w
  /\ (is_ok (login env login_data w).1 = true <->
      exists user,
        users_db w !! UserLogin.email login_data = Some user
        /\ sha256_hexdigest (UserLogin.password login_data) = User.password_hash user)
  /\ (is_ok (login env login_data w).1 = false ->
      (login env login_data w).1
      = Raise (HTTPException 401 "Invalid email or password")).
Proof.
  unfold login, verify_password.
  destruct (users_db w !! UserLogin.email login_data) as [user|].
  - case_bool_decide as Hhash; simpl.
    + split; [done|]. split; [|done]. split; [eauto|done].
    + split; [done|]. split; [|done].
      split; [done|]. intros (u & [= <-] & Heq). done.
  - simpl. split; [done|]. split; [|done].
    split; [done|]. intros (u & Hu & _). discriminate.
Qed.

(** X2: a token minted at time [t] for a stored user is accepted at every
    time before [t] plus 24 hours and resolves to that user; from then on
    it is rejected with 401, "Token has expired". *)
Theorem minted_token_lifetime env t user w :
  users_db w !! User.email user = Some user ->
  get_current_user env (create_jwt_token t user) w
  = if now env <? t + 24 * 3600
    then (Ok user, w)
    else (Raise (HTTPException 401 "Token has expired"), w).
Proof.
  intros Hu. rewrite get_current_user_spec. simpl.
  rewrite bool_decide_eq_true_2 by done. unfold JWT_EXPIRATION_HOURS.
  destruct (Z.leb_spec (t + 24 * 3600) (now env)) as [Hle|Hlt];
    destruct (Z.ltb_spec (now env) (t + 24 * 3600)) as [Hlt'|Hle']; try lia; [done|].
  by rewrite Hu.
Qed.

(** X3: a signup with an email that is not registered succeeds, adds
    exactly the new record to the store, and the token it returns opens
    the profile of the new user, the one of the response, which has no
    API key. *)
Theorem signup_then_profile env user_data w env' :
  users_db w !! UserSignup.email user_data = None ->
  now env' < now env + 24 * 3600 ->
  exists response w',
    signup env user_data w = (Ok response, w')
    /\ users_db w'
       = <[UserSignup.email user_data := new_user env user_data]> (users_db w)
    /\ get_profile env' (AuthResponse.token response) w'
       = (Ok (AuthResponse.user response), w')
    /\ UserResponse.hasApiKey (AuthResponse.user response) = false
    /\ UserResponse.email (AuthResponse.user response) = UserSignup.email user_data.
Proof.
  intros Hfresh Htime. eexists _, _. split; [by apply signup_fresh|].
  split; [done|]. split; [|done].
  unfold get_profile, bind. cbn [AuthResponse.token AuthResponse.user].
  rewrite get_current_user_minted; [done|lia|].
  simpl. by rewrite lookup_insert_eq.
Qed.

(** *** API keys *)

Lemma validate_api_key_run env api_data credentials w user chat :
  get_current_user env credentials w = (Ok user, w) ->
  get_user_llm_chat (Some (ApiKeyValidation.apiKey api_data)) = Ok chat ->
  users_db w !! User.email user = Some user ->
  validate_api_key env api_data credentials w =
    match llm_reply (chat_api_key chat) "Hello" with
    | Some _ =>
        (Ok {| msg_success := true;
               msg_message := "API key validated and saved successfully" |},
         set_users_db
           (insert (User.email user)
              (User.set_api_key (ApiKeyValidation.apiKey api_data) user))
           (add_llm_call (chat_api_key chat) "Hello" w))
    | None =>
        (Raise (HTTPException 400 "Invalid API key or failed to connect to Gemini API"),
         add_llm_call (chat_api_key chat) "Hello" w)
    end.
Proof.
  intros Hauth Hchat Hu. unfold validate_api_key, bind at 1. rewrite Hauth.
  unfold try_except, bind, lift. rewrite Hchat. unfold send_message. simpl.
  destruct (llm_reply (chat_api_key chat) "Hello"); [|done].
  unfold store_api_key. simpl. by rewrite Hu.
Qed.

Lemma get_user_llm_chat_truthy key :
  key <> "" -> get_user_llm_chat (Some key) = Ok {| chat_api_key := key |}.
Proof. intros Hne. unfold get_user_llm_chat. by destruct key. Qed.

(** X4: [validate_api_key] with a key that is not empty probes the
    provider with that key, whatever the system key is; when the probe is
    answered the key is stored on the record of the caller, after which
    the profile reports [hasApiKey = true] and a lesson-plan generation
    sends its prompt with the key of the user. *)
Theorem validate_api_key_own_key env credentials w user key response :
  key <> "" ->
  users_db_keyed w ->
  get_current_user env credentials w = (Ok user, w) ->
  llm_reply key "Hello" = Some response ->
  let run := validate_api_key env (ApiKeyValidation.mk key) credentials w in
  is_ok run.1 = true
  /\ llm_calls run.2 = llm_calls w ++ [(key, "Hello")]
  /\ users_db run.2 = <[User.email user := User.set_api_key key user]> (users_db w)
  /\ forall env', now env' < Payload.exp (Token.payload credentials) ->
       (exists profile,
          get_profile env' credentials run.2 = (Ok profile, run.2)
          /\ UserResponse.hasApiKey profile = true)
       /\ forall request,
            llm_calls (generate_lesson_plan env' request credentials run.2).2
            = llm_calls run.2 ++ [(key, generation_prompt request)].
Proof.
  intros Hne Hkeyed Hauth Hreply run.
  pose proof (proj1 (get_current_user_ok_iff env credentials w user) Hauth)
    as (Hsig & Hexp & Hu).
  pose proof (Hkeyed _ _ Hu) as Hemail.
  assert (Hrun : run =
    (Ok {| msg_success := true;
           msg_message := "API key validated and saved successfully" |},
     set_users_db (insert (User.email user) (User.set_api_key key user))
       (add_llm_call key "Hello" w))).
  { subst run.
    rewrite (validate_api_key_run _ _ _ _ user {| chat_api_key := key |}).
    - simpl. by rewrite Hreply.
    - done.
    - by apply get_user_llm_chat_truthy.
    - by rewrite Hemail. }
  rewrite Hrun. simpl. split; [done|]. split; [done|]. split; [done|].
  intros env' Hvalid. set (w' := set_users_db _ _).
  assert (Hauth' : get_current_user env' credentials w'
                   = (Ok (User.set_api_key key user), w')).
  { apply get_current_user_ok_iff. split; [done|]. split; [done|].
    subst w'. simpl. rewrite <- Hemail. by rewrite lookup_insert_eq. }
  split.
  - eexists. unfold get_profile, bind. rewrite Hauth'. split; [reflexivity|].
    simpl. by destruct key.
  - intros request. unfold generate_lesson_plan, bind at 1. rewrite Hauth'.
    unfold try_except, bind, lift. simpl.
    rewrite (get_user_llm_chat_truthy key) by done.
    unfold send_message. simpl.
    destruct (llm_reply key (generation_prompt request)); [|done].
    by destruct (db_ok env').
Qed.

Lemma validate_api_key_cases env api_data credentials w user :
  get_current_user env credentials w = (Ok user, w) ->
  validate_api_key env api_data credentials w =
    match get_user_llm_chat (Some (ApiKeyValidation.apiKey api_data)) with
    | Raise _ =>
        (Raise (HTTPException 400 "Invalid API key or failed to connect to Gemini API"), w)
    | Ok chat =>
        match llm_reply (chat_api_key chat) "Hello" with
        | None =>
            (Raise (HTTPException 400 "Invalid API key or failed to connect to Gemini API"),
             add_llm_call (chat_api_key chat) "Hello" w)
        | Some _ =>
            match users_db w !! User.email user with
            | None =>
                (Raise (HTTPException 400
                          "Invalid API key or failed to connect to Gemini API"),
                 add_llm_call (chat_api_key chat) "Hello" w)
            | Some u0 =>
                (Ok {| msg_success := true;
                       msg_message := "API key validated and saved successfully" |},
                 set_users_db
                   (insert (User.email user)
                      (User.set_api_key (ApiKeyValidation.apiKey api_data) u0))
                   (add_llm_call (chat_api_key chat) "Hello" w))
            end
        end
    end.
Proof.
  intros Hauth. unfold validate_api_key, bind at 1. rewrite Hauth.
  unfold try_except, bind, lift, send_message.
  destruct (get_user_llm_chat _) as [chat|e]; [|done].
  destruct (llm_reply _ _); [|done].
  unfold store_api_key. simpl. by destruct (users_db w !! User.email user).
Qed.

Lemma get_current_user_error env token w e w' :
  get_current_user env token w = (Raise e, w') ->
  exists detail, e = HTTPException 401 detail.
Proof.
  rewrite get_current_user_spec. intros Hrun.
  repeat case_match; simplify_eq; eauto.
Qed.

(** X5: a call of [validate_api_key] that does not succeed leaves the
    store as it was and answers 401 (the token) or 400 (the key); and,
    the store being keyed by the emails of its records, no call changes
    the record of any user but the one of the token. *)
Theorem validate_api_key_rejected env api_data credentials w :
  let run := validate_api_key env api_data credentials w in
  (is_ok run.1 = false ->
   users_db run.2 = users_db w
   /\ (http_status run.1 = 401 \/ http_status run.1 = 400))
  /\ (users_db_keyed w ->
      forall e, e <> Payload.email (Token.payload credentials) ->
        users_db run.2 !! e = users_db w !! e).
Proof.
  intros run.
  pose proof (get_current_user_world env credentials w) as Hw.
  destruct (get_current_user env credentials w) as [[user|e] w0] eqn:Hauth;
    simpl in Hw; subst w0.
  - apply get_current_user_ok_iff in Hauth as Hok. destruct Hok as (_ & _ & Hu).
    assert (Hrun : run = (match get_user_llm_chat (Some (ApiKeyValidation.apiKey api_data)) with
       | Raise _ => (Raise (HTTPException 400 "Invalid API key or failed to connect to Gemini API"), w)
       | Ok chat =>
           match llm_reply (chat_api_key chat) "Hello" with
           | None => (Raise (HTTPException 400 "Invalid API key or failed to connect to Gemini API"),
                      add_llm_call (chat_api_key chat) "Hello" w)
           | Some _ =>
               match users_db w !! User.email user with
               | None => (Raise (HTTPException 400 "Invalid API key or failed to connect to Gemini API"),
                          add_llm_call (chat_api_key chat) "Hello" w)
               | Some u0 =>
                   (Ok {| msg_success := true;
                          msg_message := "API key validated and saved successfully" |},
                    set_users_db
                      (insert (User.email user)
                         (User.set_api_key (ApiKeyValidation.apiKey api_data) u0))
                      (add_llm_call (chat_api_key chat) "Hello" w))
               end
           end
       end)).
    { subst run. by apply validate_api_key_cases. }
    rewrite Hrun. clear Hrun run.
    destruct (get_user_llm_chat _) as [chat|e]; [|by split; [intros _; split; [|right]|]].
    destruct (llm_reply _ _); [|by split; [intros _; split; [|right]|]].
    destruct (users_db w !! User.email user) as [u0|] eqn:Hu0; simpl.
    + split; [done|]. intros Hkeyed e He.
      rewrite lookup_insert_ne; [done|]. by rewrite (Hkeyed _ _ Hu).
    + by split; [intros _; split; [|right]|].
  - assert (Hrun : run = (Raise e, w)).
    { subst run. unfold validate_api_key, bind. by rewrite Hauth. }
    rewrite Hrun. simpl. split; [|done]. intros _. split; [done|]. left.
    by destruct (get_current_user_error _ _ _ _ _ Hauth) as [detail ->].
Qed.

(** *** Lesson plans *)

(** X6: without a key of the user and without a system key,
    [generate_lesson_plan] answers 500 before any message is sent: the
    world is unchanged. *)
Theorem generate_lesson_plan_no_key env request credentials w user :
  get_current_user env credentials w = (Ok user, w) ->
  truthy_str (User.api_key user) = false ->
  truthy_str EMERGENT_LLM_KEY = false ->
  generate_lesson_plan env request credentials w
  = (Raise (HTTPException 500
             ("Failed to generate lesson plan: "
              +:+ str_exc (HTTPException 500 "LLM API key not configured"))),
     w).
Proof.
  intros Hauth Huser Hsys. unfold generate_lesson_plan, bind at 1. rewrite Hauth.
  unfold try_except, bind, lift, get_user_llm_chat, get_llm_chat.
  by rewrite Huser, Hsys.
Qed.

Lemma generate_lesson_plan_cases env request credentials w user :
  get_current_user env credentials w = (Ok user, w) ->
  generate_lesson_plan env request credentials w =
    match get_user_llm_chat (User.api_key user) with
    | Raise e =>
        (Raise (HTTPException 500 ("Failed to generate lesson plan: " +:+ str_exc e)), w)
    | Ok chat =>
        match llm_reply (chat_api_key chat) (generation_prompt request) with
        | None =>
            (Raise (HTTPException 500
                      ("Failed to generate lesson plan: "
                       +:+ str_exc (OtherException "LlmChat.send_message"))),
             add_llm_call (chat_api_key chat) (generation_prompt request) w)
        | Some response =>
            if db_ok env
            then (Ok (LessonPlan.mk (uuid4 env) request response (now env)),
                  add_lesson_plan (LessonPlan.mk (uuid4 env) request response (now env))
                    (add_llm_call (chat_api_key chat) (generation_prompt request) w))
            else (Raise (HTTPException 500
                           ("Failed to generate lesson plan: "
                            +:+ str_exc (OtherException "insert_one"))),
                  add_llm_call (chat_api_key chat) (generation_prompt request) w)
        end
    end.
Proof.
  intros Hauth. unfold generate_lesson_plan, bind at 1. rewrite Hauth.
  unfold try_except, bind, lift, send_message.
  destruct (get_user_llm_chat _) as [chat|e]; [|done].
  destruct (llm_reply _ _); [|done].
  by destruct (db_ok env).
Qed.

Lemma generate_lesson_plan_ok env request credentials w user plan w' :
  get_current_user env credentials w = (Ok user, w) ->
  generate_lesson_plan env request credentials w = (Ok plan, w') ->
  exists chat response,
    get_user_llm_chat (User.api_key user) = Ok chat
    /\ llm_reply (chat_api_key chat) (generation_prompt request) = Some response
    /\ db_ok env = true
    /\ plan = LessonPlan.mk (uuid4 env) request response (now env)
    /\ w' = add_lesson_plan plan
              (add_llm_call (chat_api_key chat) (generation_prompt request) w).
Proof.
  intros Hauth Hrun. unfold generate_lesson_plan, bind at 1 in Hrun.
  rewrite Hauth in Hrun. unfold try_except, bind, lift, send_message in Hrun.
  destruct (get_user_llm_chat _) as [chat|e]; [|discriminate].
  destruct (llm_reply _ _) as [response|] eqn:Hreply; [|discriminate].
  destruct (db_ok env); [|discriminate].
  unfold modify, ret in Hrun. injection Hrun as <- <-.
  by exists chat, response.
Qed.

(** X7: for an authenticated caller, a plan that [generate_lesson_plan]
    returns holds the request and, as its content, the answer of the
    provider to the generation prompt, unchanged, and it is the last
    document of the collection; a call that fails answers 500 and stores
    nothing. *)
Theorem generate_lesson_plan_outcome env request credentials w user :
  get_current_user env credentials w = (Ok user, w) ->
  let run := generate_lesson_plan env request credentials w in
  (forall plan, run.1 = Ok plan ->
     plan = LessonPlan.mk (uuid4 env) request (LessonPlan.content plan) (now env)
     /\ (exists chat,
           get_user_llm_chat (User.api_key user) = Ok chat
           /\ llm_reply (chat_api_key chat) (generation_prompt request)
              = Some (LessonPlan.content plan))
     /\ lesson_plans run.2 = lesson_plans w ++ [plan])
  /\ (is_ok run.1 = false ->
      http_status run.1 = 500 /\ lesson_plans run.2 = lesson_plans w).
Proof.
  intros Hauth run. split.
  - intros plan Hok.
    destruct run as [r w'] eqn:Hrun. simpl in Hok. subst r.
    destruct (generate_lesson_plan_ok _ _ _ _ _ _ _ Hauth Hrun)
      as (chat & response & Hchat & Hreply & _ & -> & ->).
    simpl. split; [done|]. split; [by exists chat|done].
  - subst run. rewrite (generate_lesson_plan_cases _ _ _ _ user) by done.
    destruct (get_user_llm_chat _) as [chat|e]; [|done].
    destruct (llm_reply _ _); [|done].
    by destruct (db_ok env).
Qed.

Lemma find_lesson_plan_last plans plan :
  Forall (fun p => LessonPlan.id p <> LessonPlan.id plan) plans ->
  List.find (fun p => bool_decide (LessonPlan.id p = LessonPlan.id plan)) (plans ++ [plan])
  = Some plan.
Proof.
  induction 1 as [|p plans Hp _ IH]; simpl.
  - by rewrite bool_decide_eq_true_2.
  - by rewrite bool_decide_eq_false_2.
Qed.

Lemma find_lesson_plan_none plans lesson_plan_id :
  Forall (fun p => LessonPlan.id p <> lesson_plan_id) plans ->
  List.find (fun p => bool_decide (LessonPlan.id p = lesson_plan_id)) plans = None.
Proof.
  induction 1 as [|p plans Hp _ IH]; simpl; [done|].
  by rewrite bool_decide_eq_false_2.
Qed.

Lemma download_lesson_plan_found env lesson_plan_id w plan :
  db_ok env = true ->
  List.find (fun p => bool_decide (LessonPlan.id p = lesson_plan_id)) (lesson_plans w)
  = Some plan ->
  temp_outcome env <> TempCreateFails ->
  files w !! temp_name env = None ->
  download_lesson_plan env lesson_plan_id w =
    match doc_build (now env) (lesson_plan_story plan) with
    | Some bytes =>
        (Ok {| path := temp_name env; media_type := "application/pdf";
               download_name :=
                 "lesson_plan_"
                 +:+ LessonPlanRequest.subject_name (LessonPlan.request_data plan)
                 +:+ "_" +:+ PyStr.take 8 lesson_plan_id +:+ ".pdf" |},
         set_files (insert (temp_name env) bytes) w)
    | None =>
        (Raise (HTTPException 500
                  ("Failed to generate PDF: " +:+ str_exc (OtherException "doc.build"))),
         set_files (insert (temp_name env) "") w)
    end.
Proof.
  intros Hdb Hfind Hout Hfresh.
  unfold download_lesson_plan, try_except, bind, find_lesson_plan.
  rewrite Hdb, Hfind. unfold NamedTemporaryFile, generate_lesson_plan_pdf.
  rewrite Hfresh. rewrite bool_decide_eq_false_2 by (intros [? ?]; discriminate).
  assert (Hw : forall bytes,
    set_files (insert (temp_name env) bytes) (set_files (insert (temp_name env) "") w)
    = set_files (insert (temp_name env) bytes) w).
  { intros bytes. unfold set_files. simpl. by rewrite insert_insert_eq. }
  destruct (temp_outcome env); [done| |];
    (destruct (doc_build _ _) as [bytes|]; unfold modify, ret, raise; simpl;
     [by rewrite Hw|done]).
Qed.

(** X8: a plan that [generate_lesson_plan] has just stored under an id
    no earlier plan has can be downloaded by that id: the response names
    the temporary file, which holds what [doc.build] gives for the story
    of that plan, and the download name is made of the subject and the
    first eight characters of the id. *)
Theorem generate_then_download env request credentials w user plan w' env' bytes :
  get_current_user env credentials w = (Ok user, w) ->
  generate_lesson_plan env request credentials w = (Ok plan, w') ->
  Forall (fun p => LessonPlan.id p <> uuid4 env) (lesson_plans w) ->
  db_ok env' = true ->
  temp_outcome env' <> TempCreateFails ->
  files w' !! temp_name env' = None ->
  doc_build (now env') (lesson_plan_story plan) = Some bytes ->
  download_lesson_plan env' (LessonPlan.id plan) w'
  = (Ok {| path := temp_name env'; media_type := "application/pdf";
           download_name :=
             "lesson_plan_" +:+ LessonPlanRequest.subject_name request
             +:+ "_" +:+ PyStr.take 8 (uuid4 env) +:+ ".pdf" |},
     set_files (insert (temp_name env') bytes) w').
Proof.
  intros Hauth Hrun Hids Hdb Hout Hfresh Hbuild.
  destruct (generate_lesson_plan_ok _ _ _ _ _ _ _ Hauth Hrun)
    as (chat & response & _ & _ & _ & Hplan & Hw').
  rewrite (download_lesson_plan_found env' _ w' plan); [| done | | done | done].
  - rewrite Hbuild. by subst plan.
  - subst w'. simpl. apply find_lesson_plan_last. by subst plan.
Qed.

(** X9: [download_lesson_plan] never answers 404: every outcome is a
    response or a 500.  For an id that no stored plan has, the 404 raised
    inside is caught by the handler's own [except Exception]; the answer
    is 500 and no file is made. *)
Theorem download_unknown_id :
  (forall env lesson_plan_id w,
     http_status (download_lesson_plan env lesson_plan_id w).1 = 200
     \/ http_status (download_lesson_plan env lesson_plan_id w).1 = 500)
  /\ (forall env lesson_plan_id w,
        db_ok env = true ->
        Forall (fun p => LessonPlan.id p <> lesson_plan_id) (lesson_plans w) ->
        download_lesson_plan env lesson_plan_id w
        = (Raise (HTTPException 500
                    ("Failed to generate PDF: "
                     +:+ str_exc (HTTPException 404 "Lesson plan not found"))),
           w)).
Proof.
  split.
  - intros env lesson_plan_id w.
    unfold download_lesson_plan, try_except, bind, find_lesson_plan,
      NamedTemporaryFile, generate_lesson_plan_pdf, modify, raise, ret.
    repeat case_match; simplify_eq; simpl; auto.
  - intros env lesson_plan_id w Hdb Hids.
    unfold download_lesson_plan, try_except, bind, find_lesson_plan.
    by rewrite Hdb, (find_lesson_plan_none _ _ Hids).
Qed.

(** X10: when [doc.build] raises, [download_lesson_plan] answers 500 and
    the temporary file it had created, still empty, stays on disk. *)
Theorem download_build_fails env lesson_plan_id w plan :
  db_ok env = true ->
  List.find (fun p => bool_decide (LessonPlan.id p = lesson_plan_id)) (lesson_plans w)
  = Some plan ->
  temp_outcome env <> TempCreateFails ->
  files w !! temp_name env = None ->
  doc_build (now env) (lesson_plan_story plan) = None ->
  download_lesson_plan env lesson_plan_id w
  = (Raise (HTTPException 500
              ("Failed to generate PDF: " +:+ str_exc (OtherException "doc.build"))),
     set_files (insert (temp_name env) "") w)
  /\ files (download_lesson_plan env lesson_plan_id w).2 !! temp_name env = Some "".
Proof.
  intros Hdb Hfind Hout Hfresh Hbuild.
  rewrite (download_lesson_plan_found env _ w plan) by done. rewrite Hbuild.
  split; [done|]. simpl. by rewrite lookup_insert_eq.
Qed.

(** *** Strings *)

Lemma append_cons c s t : String c s +:+ t = String c (s +:+ t).
Proof. reflexivity. Qed.

Lemma append_nil_r s : s +:+ "" = s.
Proof. induction s as [|c s IH]; [done|]. by rewrite append_cons, IH. Qed.

Lemma append_assoc s t u : (s +:+ t) +:+ u = s +:+ t +:+ u.
Proof. induction s as [|c s IH]; [done|]. by rewrite !append_cons, IH. Qed.

Lemma take_append n : forall s more,
  (n <= String.length s)%nat -> PyStr.take n (s +:+ more) = PyStr.take n s.
Proof.
  induction n as [|n IH]; intros [|c s] more Hlen; simpl in *; try done; [lia|].
  f_equal. apply IH. lia.
Qed.

(** *** Text extraction *)

Lemma readable_texts_cons_some t pages :
  readable_texts (Some t :: pages)
  = if PyStr.is_empty (PyStr.strip t) then readable_texts pages
    else t :: readable_texts pages.
Proof.
  unfold readable_texts. simpl. rewrite filter_cons.
  by destruct (PyStr.strip t) eqn:Hstrip.
Qed.

Lemma extract_pages_lines pages : forall text,
  extract_pages pages text = text +:+ lines_text (readable_texts pages).
Proof.
  induction pages as [|[t|] pages IH]; intros text.
  - simpl. by rewrite append_nil_r.
  - simpl. rewrite readable_texts_cons_some.
    destruct (PyStr.is_empty (PyStr.strip t)); simpl; [apply IH|].
    rewrite IH. by rewrite !append_assoc.
  - simpl. apply IH.
Qed.

Lemma readable_texts_app pages1 pages2 :
  readable_texts (pages1 ++ pages2) = readable_texts pages1 ++ readable_texts pages2.
Proof. unfold readable_texts. by rewrite omap_app, filter_app. Qed.

(** X11: on pages whose text is ASCII, the loop of
    [extract_text_from_pdf] gives, after the text so far, the texts of the
    pages that can be read and are not blank, in order, each followed by a
    newline; a page whose extraction raises, or whose text is blank,
    changes nothing, wherever it is. *)
Theorem extract_pages_readable :
  (forall pages text,
     ascii_pages pages = true ->
     extract_pages pages text = text +:+ lines_text (readable_texts pages))
  /\ (forall pages1 page pages2 text,
        ascii_pages (pages1 ++ page :: pages2) = true ->
        (page = None \/ exists t, page = Some t /\ PyStr.strip t = "") ->
        extract_pages (pages1 ++ page :: pages2) text
        = extract_pages (pages1 ++ pages2) text).
Proof.
  split; [intros; apply extract_pages_lines|].
  intros pages1 page pages2 text _ Hpage. rewrite !extract_pages_lines. f_equal. f_equal.
  rewrite !readable_texts_app. f_equal.
  destruct Hpage as [->|(t & -> & Hblank)]; [done|].
  rewrite readable_texts_cons_some. by rewrite Hblank.
Qed.

Lemma extract_text_from_pdf_cases file_path w :
  extract_text_from_pdf file_path w =
    match files w !! file_path with
    | None =>
        (Raise (HTTPException 400
                  ("Unable to process this PDF format. Please try with a different PDF file or ensure the PDF contains readable text. Error: "
                   +:+ str_exc (OtherException "FileNotFoundError"))), w)
    | Some bytes =>
        match PdfReader bytes with
        | None =>
            (Raise (HTTPException 400
                      ("Unable to process this PDF format. Please try with a different PDF file or ensure the PDF contains readable text. Error: "
                       +:+ str_exc (OtherException "PdfReader"))), w)
        | Some pages =>
            if PyStr.is_empty (PyStr.strip (extract_pages pages ""))
            then (Raise (HTTPException 400 no_readable_text), w)
            else (Ok (extract_pages pages ""), w)
        end
    end.
Proof.
  unfold extract_text_from_pdf, try_except, raise.
  repeat case_match; simplify_eq; done.
Qed.

(** X12: [extract_text_from_pdf] never changes the world, and every
    failure is an [HTTPException] with status 400; when the text of the
    pages is ASCII, it returns a text exactly when the file is there, the
    reader opens it, and the text of its readable pages is not blank, and
    that text is what it returns. *)
Theorem extract_text_from_pdf_outcome file_path w :
  (extract_text_from_pdf file_path w).2 = w
  /\ ((forall bytes pages,
         files w !! file_path = Some bytes -> PdfReader bytes = Some pages ->
         ascii_pages pages = true) ->
      forall text,
        (extract_text_from_pdf file_path w).1 = Ok text <->
        exists bytes pages,
          files w !! file_path = Some bytes
          /\ PdfReader bytes = Some pages
          /\ text = lines_text (readable_texts pages)
          /\ PyStr.strip text <> "")
  /\ (is_ok (extract_text_from_pdf file_path w).1 = false ->
      exists detail,
        (extract_text_from_pdf file_path w).1 = Raise (HTTPException 400 detail)).
Proof.
  split; [apply extract_text_from_pdf_world|].
  rewrite extract_text_from_pdf_cases.
  destruct (files w !! file_path) as [bytes|]; simpl.
  2: { split; [|eauto]. intros _ text. split; [done|]. by intros (? & ? & ? & _). }
  destruct (PdfReader bytes) as [pages|] eqn:Hread; simpl.
  2: { split; [|eauto]. intros _ text. split; [done|].
       intros (? & ? & [= <-] & Hr & _). by rewrite Hread in Hr. }
  rewrite extract_pages_lines. change ("" +:+ ?s) with s.
  destruct (PyStr.strip (lines_text (readable_texts pages))) eqn:Hstrip; simpl.
  - split; [|eauto]. intros _ text. split; [done|].
    intros (? & ? & [= <-] & Hr & -> & Hne). rewrite Hread in Hr.
    injection Hr as <-. by rewrite Hstrip in Hne.
  - split; [|done]. intros _ text. split.
    + intros [= <-]. exists bytes, pages. by rewrite Hstrip.
    + intros (? & ? & [= <-] & Hr & -> & _). rewrite Hread in Hr.
      by injection Hr as <-.
Qed.

(** X13: the prompt is made from the first 8000 characters of the text:
    after an ASCII text of 8000 characters or more, whatever follows
    never reaches the model. *)
Theorem extraction_prompt_prefix pdf_text more :
  PyStr.isascii pdf_text = true ->
  (Z.to_nat 8000 <= String.length pdf_text)%nat ->
  extraction_prompt (pdf_text +:+ more) = extraction_prompt pdf_text.
Proof.
  intros _ Hlen. unfold extraction_prompt. by rewrite take_append.
Qed.

(** *** Upload *)

Lemma parse_llm_response_raise env file_ response w e w' :
  parse_llm_response env file_ response w = (Raise e, w') -> w' = w.
Proof.
  unfold parse_llm_response, bind, lift, raise, ret, modify.
  intros Hrun. repeat case_match; simplify_eq; done.
Qed.

Lemma upload_pdf_process_raise env file_ user path_ w e w' :
  upload_pdf_process env file_ user path_ w = (Raise e, w') ->
  pdf_extractions w' = pdf_extractions w.
Proof.
  unfold upload_pdf_process, bind at 1. intros Hrun.
  pose proof (extract_text_from_pdf_world path_ w) as Hw.
  destruct (extract_text_from_pdf path_ w) as [[pdf_text|e0] w1]; simpl in Hw; subst w1;
    [|by injection Hrun as _ <-].
  destruct (PyStr.is_empty _); [by injection Hrun as _ <-|].
  unfold bind, lift, send_message in Hrun.
  destruct (get_user_llm_chat _) as [chat|e0]; [|by injection Hrun as _ <-].
  destruct (llm_reply _ _); [|by injection Hrun as _ <-].
  by apply parse_llm_response_raise in Hrun as ->.
Qed.

Lemma upload_pdf_not_written env file_ credentials w user :
  get_current_user env credentials w = (Ok user, w) ->
  PyStr.endswith ".pdf" (PyStr.lower (filename file_)) = true ->
  upload_pdf env file_ credentials w =
    match temp_outcome env with
    | TempCreateFails =>
        (Raise (HTTPException 500
                  ("Failed to process PDF: "
                   +:+ str_exc (OtherException "NamedTemporaryFile"))), w)
    | TempWriteFails =>
        if bool_decide (is_Some (files w !! temp_name env))
        then (Raise (HTTPException 500
                       ("Failed to process PDF: "
                        +:+ str_exc (OtherException "FileExistsError"))), w)
        else (Raise (OtherException "UnboundLocalError"),
              set_files (insert (temp_name env) "") w)
    | TempWritten =>
        if bool_decide (is_Some (files w !! temp_name env))
        then (Raise (HTTPException 500
                       ("Failed to process PDF: "
                        +:+ str_exc (OtherException "FileExistsError"))), w)
        else upload_pdf env file_ credentials w
    end.
Proof.
  intros Hauth Hext. destruct (temp_outcome env) eqn:Hout.
  - unfold upload_pdf, bind. rewrite Hauth, Hext. cbn [negb].
    unfold upload_pdf_try, NamedTemporaryFile. by rewrite Hout.
  - unfold upload_pdf, bind. rewrite Hauth, Hext. cbn [negb].
    unfold upload_pdf_try, NamedTemporaryFile, copyfileobj. rewrite Hout.
    by destruct (bool_decide _).
  - case_bool_decide as Hexists; [|done].
    unfold upload_pdf, bind. rewrite Hauth, Hext. cbn [negb].
    unfold upload_pdf_try, NamedTemporaryFile. rewrite Hout.
    by rewrite bool_decide_eq_true_2.
Qed.

(** X14: what [upload_pdf] answers.  A name that does not end in [.pdf],
    in any case of letters, is refused with 400 before anything is
    written or sent; for a name that does, the answer is the result, a
    401 for the token, or a 500, never a 400; and a call that fails
    stores no extraction result. *)
Theorem upload_pdf_answers env file_ credentials w :
  let run := upload_pdf env file_ credentials w in
  (forall user,
     get_current_user env credentials w = (Ok user, w) ->
     PyStr.endswith ".pdf" (PyStr.lower (filename file_)) = false ->
     run = (Raise (HTTPException 400 "File must be a PDF"), w))
  /\ (PyStr.endswith ".pdf" (PyStr.lower (filename file_)) = true ->
      http_status run.1 = 200 \/ http_status run.1 = 401 \/ http_status run.1 = 500)
  /\ (is_ok run.1 = false -> pdf_extractions run.2 = pdf_extractions w).
Proof.
  intros run.
  pose proof (get_current_user_world env credentials w) as Hw.
  destruct (get_current_user env credentials w) as [[user|e] w0] eqn:Hauth;
    simpl in Hw; subst w0.
  2: { assert (Hrun : run = (Raise e, w)).
       { subst run. unfold upload_pdf, bind. by rewrite Hauth. }
       rewrite Hrun. split; [done|]. split; [|done]. intros _. right. left.
       by destruct (get_current_user_error _ _ _ _ _ Hauth) as [detail ->]. }
  destruct (PyStr.endswith ".pdf" (PyStr.lower (filename file_))) eqn:Hext.
  2: { assert (Hrun : run = (Raise (HTTPException 400 "File must be a PDF"), w)).
       { subst run. unfold upload_pdf, bind. by rewrite Hauth, Hext. }
       rewrite Hrun. by split; [|split]. }
  split; [done|].
  pose proof (upload_pdf_not_written env file_ credentials w user Hauth Hext) as Hcases.
  fold run in Hcases.
  destruct (temp_outcome env) eqn:Hout.
  - rewrite Hcases. split; [auto|done].
  - rewrite Hcases. destruct (bool_decide _); split; auto.
  - destruct (files w !! temp_name env) as [c|] eqn:Hfresh.
    { rewrite bool_decide_eq_true_2 in Hcases by eauto. rewrite Hcases. split; auto. }
    clear Hcases. subst run.
    rewrite (upload_pdf_written env file_ credentials w user) by done.
    cbv zeta.
    destruct (upload_pdf_process _ _ _ _ _) as [[r|e] w3] eqn:Hproc; simpl.
    + split; [auto|done].
    + split; [auto|]. intros _. by apply upload_pdf_process_raise in Hproc.
Qed.

(** X15: when writing the upload to the temporary file raises, the
    [finally] clause of [upload_pdf] reads a name that was never bound:
    the error that escapes is that one, and the file that had been
    created is left behind. *)
Theorem upload_pdf_write_fails env file_ credentials w user :
  get_current_user env credentials w = (Ok user, w) ->
  PyStr.endswith ".pdf" (PyStr.lower (filename file_)) = true ->
  temp_outcome env = TempWriteFails ->
  files w !! temp_name env = None ->
  upload_pdf env file_ credentials w
  = (Raise (OtherException "UnboundLocalError"),
     set_files (insert (temp_name env) "") w)
  /\ http_status (upload_pdf env file_ credentials w).1 = 500
  /\ is_Some (files (upload_pdf env file_ credentials w).2 !! temp_name env).
Proof.
  intros Hauth Hext Hout Hfresh.
  rewrite (upload_pdf_not_written env file_ credentials w user Hauth Hext).
  rewrite Hout, Hfresh. rewrite bool_decide_eq_false_2 by (intros [? ?]; discriminate).
  split; [done|]. split; [done|]. simpl. rewrite lookup_insert_eq. eauto.
Qed.

(** *** Cleaning the reply *)















(** *** Parsing the reply *)

Lemma validate_mapping_strings (mapping : list (string * list string)) :
  validate_mapping (map (fun kv => (kv.1, JArr (JStr <$> kv.2))) mapping) = Some mapping.
Proof using pydantic_str_JStr.
  unfold validate_mapping. induction mapping as [|[k l] mapping IH]; [done|].
  cbn [map mapM fst snd]. rewrite validate_list_str_strings. cbn.
  change (mapM (fun kv : string * json => l0 ← validate_list_str kv.2; Some (kv.1, l0))
            (map (fun kv : string * list string => (kv.1, JArr (JStr <$> kv.2))) mapping)
          ≫= (fun k0 => Some ((k, l) :: k0)) = Some ((k, l) :: mapping)).
  by rewrite IH.
Qed.

(** X17: a reply that is what the prompt asks for, an object whose two
    lists are arrays of strings, not both empty, and whose mapping is an
    object of arrays of strings, is returned and stored as it is: the
    names, the topics and the mapping of the result are those of the
    reply. *)
Theorem parse_llm_response_verbatim env file_ response w members names topics mapping :
  json_loads (clean_response response) = Some (JObj members) ->
  dict_get "subject_names" members (JArr []) = JArr (JStr <$> names) ->
  dict_get "lecture_topics" members (JArr []) = JArr (JStr <$> topics) ->
  dict_get "lecture_focus_mapping" members (JObj [])
  = JObj (map (fun kv => (kv.1, JArr (JStr <$> kv.2))) mapping) ->
  names <> [] \/ topics <> [] ->
  db_ok env = true ->
  let r := PDFExtractionResult.mk (uuid4 env) (filename file_) names topics mapping
             (now env) in
  parse_llm_response env file_ response w = (Ok r, add_pdf_extraction r w).
Proof using pydantic_str_JStr.
  intros Hloads Hnames Htopics Hmapping Hsome Hdb r.
  apply (parse_llm_response_members _ _ _ _ members); [done| | |done].
  - rewrite Hnames, Htopics. simpl.
    destruct Hsome as [Hne|Hne]; [destruct names|destruct topics]; try done.
    by rewrite orb_true_r.
  - rewrite Hnames, Htopics, Hmapping. unfold new_PDFExtractionResult.
    by rewrite !validate_list_str_strings, validate_mapping_strings.
Qed.


(** *** The flowables of a story *)

Lemma rstrip_idem s : PyStr.rstrip (PyStr.rstrip s) = PyStr.rstrip s.
Proof.
  induction s as [|c s IH]; [done|]. simpl.
  destruct (PyStr.rstrip s) as [|a r] eqn:Hr.
  - destruct (PyStr.is_space c) eqn:Hc; [done|]. simpl. by rewrite Hc.
  - simpl in *. by rewrite IH.
Qed.

Lemma rstrip_head c s :
  PyStr.rstrip (String c s) = "" \/ exists r, PyStr.rstrip (String c s) = String c r.
Proof.
  simpl. destruct (PyStr.rstrip s); [destruct (PyStr.is_space c)|]; eauto.
Qed.

Lemma strip_idem s : PyStr.strip (PyStr.strip s) = PyStr.strip s.
Proof.
  unfold PyStr.strip. induction s as [|c s IH]; [done|]. simpl.
  destruct (PyStr.is_space c) eqn:Hc; [done|].
  change (match PyStr.rstrip s with
          | "" => if PyStr.is_space c then "" else String c ""
          | String a r => String c (String a r)
          end) with (PyStr.rstrip (String c s)).
  destruct (rstrip_head c s) as [Hr|[r Hr]]; rewrite Hr; [done|].
  simpl. rewrite Hc. rewrite <- Hr. apply rstrip_idem.
Qed.

Lemma heading_block_line_flowable line f :
  f ∈ heading_block_line line -> body_flowable f.
Proof.
  unfold heading_block_line.
  destruct (PyStr.is_empty (PyStr.strip line)) eqn:Hempty.
  { intros Hin. by apply elem_of_nil in Hin. }
  destruct (minutes_line (PyStr.strip line)) eqn:Hmin.
  { intros Hin. apply list_elem_of_singleton in Hin as ->. simpl.
    split; [done|apply strip_idem]. }
  destruct (PyStr.startswith "- " (PyStr.strip line)) eqn:Hdash.
  { intros Hin. apply list_elem_of_singleton in Hin as ->. simpl.
    exists (PyStr.strip line). split; [done|]. split; [done|apply strip_idem]. }
  intros Hin. apply elem_of_cons in Hin as [->|Hin].
  - simpl. split; [by destruct (PyStr.strip line)|]. split; [done|apply strip_idem].
  - by apply list_elem_of_singleton in Hin as ->.
Qed.

Lemma regular_block_line_flowable line f :
  f ∈ regular_block_line line -> body_flowable f.
Proof.
  unfold regular_block_line.
  destruct (PyStr.is_empty (PyStr.strip line)) eqn:Hempty.
  { intros Hin. by apply elem_of_nil in Hin. }
  destruct (PyStr.startswith "- " (PyStr.strip line)) eqn:Hdash.
  { intros Hin. apply list_elem_of_singleton in Hin as ->. simpl.
    exists (PyStr.strip line). split; [done|]. split; [done|apply strip_idem]. }
  intros Hin. apply elem_of_cons in Hin as [->|Hin].
  - simpl. split; [by destruct (PyStr.strip line)|]. split; [done|apply strip_idem].
  - by apply list_elem_of_singleton in Hin as ->.
Qed.

(** X19: what the body of a story is made of, whatever the ASCII
    content.  A section heading is a stripped ALL-CAPS line of fewer than 100
    characters; a subsection heading is a stripped line that passes the
    minutes test; a bullet is the glyph followed by a stripped line
    without its leading hyphen and blank; a plain paragraph is a stripped
    line that is not empty and does not start a bullet; a spacer is 1 by
    6; there is no title and no table. *)
Theorem story_body_flowables lesson_plan f :
  PyStr.isascii (LessonPlan.content lesson_plan) = true ->
  f ∈ flat_map render_section
        (PyStr.split (PyStr.LF +:+ PyStr.LF) (LessonPlan.content lesson_plan)) ->
  body_flowable f.
Proof.
  intros _ Hin. apply list_elem_of_In, in_flat_map in Hin as (section & _ & Hin).
  apply list_elem_of_In in Hin. unfold render_section in Hin.
  destruct (PyStr.is_empty (PyStr.strip section)).
  { by apply elem_of_nil in Hin. }
  set (lines := PyStr.split PyStr.LF (PyStr.strip section)) in *.
  destruct (PyStr.isupper (PyStr.strip (hd "" lines))
            && (String.length (PyStr.strip (hd "" lines)) <? 100)%nat) eqn:Hhead.
  - apply andb_true_iff in Hhead as [Hupper Hlen]. apply Nat.ltb_lt in Hlen.
    apply elem_of_cons in Hin as [->|Hin].
    + simpl. split; [done|]. split; [done|apply strip_idem].
    + apply list_elem_of_In, in_flat_map in Hin as (line & _ & Hin).
      apply (heading_block_line_flowable line). by apply list_elem_of_In.
  - apply list_elem_of_In, in_flat_map in Hin as (line & _ & Hin).
    apply (regular_block_line_flowable line). by apply list_elem_of_In.
Qed.

(** X20: when [generate_lesson_plan_pdf] returns for a plan whose content
    is ASCII, a line of the content that starts with a hyphen and a
    blank, once stripped, is a bullet of the story it built and wrote to
    the file, the two characters replaced by the glyph: in a regular
    block always, under a section heading when it does not pass the
    minutes test, which is tried first. *)
Theorem bullet_line_in_story env lesson_plan output_path w w' section line :
  let lines := PyStr.split PyStr.LF (PyStr.strip section) in
  let first_line := PyStr.strip (hd "" lines) in
  generate_lesson_plan_pdf env lesson_plan output_path w = (Ok tt, w') ->
  PyStr.isascii (LessonPlan.content lesson_plan) = true ->
  section ∈ PyStr.split (PyStr.LF +:+ PyStr.LF) (LessonPlan.content lesson_plan) ->
  PyStr.startswith "- " (PyStr.strip line) = true ->
  (if PyStr.isupper first_line && (String.length first_line <? 100)%nat
   then line ∈ tl lines /\ minutes_line (PyStr.strip line) = false
   else line ∈ lines) ->
  exists bytes,
    doc_build (now env) (lesson_plan_story lesson_plan) = Some bytes
    /\ files w' !! output_path = Some bytes
    /\ Paragraph ("• " +:+ PyStr.drop 2 (PyStr.strip line)) bullet_style
         ∈ lesson_plan_story lesson_plan.
Proof.
  intros lines first_line Hrun Hascii Hsection Hdash Hline.
  apply generate_lesson_plan_pdf_ok in Hrun as (bytes & Hbuild & ->).
  exists bytes. split; [done|]. split; [simpl; by rewrite lookup_insert_eq|].
  apply (render_section_in_story _ section); [done|].
  unfold render_section. fold lines. fold first_line.
  assert (Hne : PyStr.is_empty (PyStr.strip line) = false).
  { by destruct (PyStr.strip line). }
  destruct (PyStr.is_empty (PyStr.strip section)) eqn:Hempty.
  { exfalso. subst lines first_line. destruct (PyStr.strip section); [|done].
    simpl in Hline. apply list_elem_of_singleton in Hline. subst line. done. }
  destruct (PyStr.isupper first_line && (String.length first_line <? 100)%nat).
  - destruct Hline as [Hline Hmin]. apply elem_of_cons. right.
    apply list_elem_of_In, in_flat_map. exists line.
    split; [by apply list_elem_of_In|].
    unfold heading_block_line. rewrite Hne, Hmin, Hdash. by left.
  - apply list_elem_of_In, in_flat_map. exists line.
    split; [by apply list_elem_of_In|].
    unfold regular_block_line. rewrite Hne, Hdash. by left.
Qed.

(** *** Status checks *)

(** X21: a status check that is created is returned with the name given
    and is appended to the collection; [get_status_checks] never returns
    more than 1000 documents, and while fewer than 1000 are stored it
    returns them all, the one just created last. *)
Theorem status_checks_round_trip env env' input status_checks :
  db_ok env = true ->
  db_ok env' = true ->
  let status_obj :=
    StatusCheck.mk (uuid4 env) (StatusCheckCreate.client_name input) (now env) in
  create_status_check env input status_checks
  = (Ok status_obj, status_checks ++ [status_obj])
  /\ (exists found,
        get_status_checks env' (status_checks ++ [status_obj]) = Ok found
        /\ (length found <= 1000)%nat
        /\ ((length status_checks < 1000)%nat ->
            found = status_checks ++ [status_obj])).
Proof.
  intros Hdb Hdb' status_obj. unfold create_status_check, get_status_checks.
  rewrite Hdb, Hdb'. split; [done|]. eexists. split; [done|]. split.
  - rewrite length_take. change (Z.to_nat 1000) with 1000%nat. lia.
  - intros Hlen. apply take_ge. rewrite length_app. simpl.
    change (Z.to_nat 1000) with 1000%nat. lia.
Qed.

(** *** What a request leaves in place *)

Lemma same_account_refl u : same_account u u.
Proof. by repeat split. Qed.

Lemma same_account_set_api_key key u : same_account u (User.set_api_key key u).
Proof. by repeat split. Qed.

Lemma same_account_trans u1 u2 u3 :
  same_account u1 u2 -> same_account u2 u3 -> same_account u1 u3.
Proof.
  unfold same_account. intros (?&?&?&?&?&?&?&?&?) (?&?&?&?&?&?&?&?&?).
  repeat split; congruence.
Qed.

Lemma world_grows_refl w : world_grows w w.
Proof.
  split; [|done]. intros e u Hu. exists u. split; [done|apply same_account_refl].
Qed.

Lemma world_grows_trans w1 w2 w3 :
  world_grows w1 w2 -> world_grows w2 w3 -> world_grows w1 w3.
Proof.
  intros (Hu12 & Hp12 & Hl12 & Hc12) (Hu23 & Hp23 & Hl23 & Hc23).
  split; [|by repeat split; etrans].
  intros e u Hu. destruct (Hu12 _ _ Hu) as (u2 & Hu2 & Hs12).
  destruct (Hu23 _ _ Hu2) as (u3 & Hu3 & Hs23).
  exists u3. split; [done|]. by apply (same_account_trans _ u2).
Qed.

(** A world that differs from another in its files only, or by documents
    and calls added at the end. *)
Lemma world_grows_frame w w' :
  users_db w' = users_db w ->
  pdf_extractions w `prefix_of` pdf_extractions w' ->
  lesson_plans w `prefix_of` lesson_plans w' ->
  llm_calls w `prefix_of` llm_calls w' ->
  world_grows w w'.
Proof.
  intros Hdb Hp Hl Hc. split; [|done].
  intros e u Hu. exists u. rewrite Hdb. split; [done|apply same_account_refl].
Qed.

Lemma parse_llm_response_world env file_ response w :
  (parse_llm_response env file_ response w).2 = w
  \/ exists r, (parse_llm_response env file_ response w).2 = add_pdf_extraction r w.
Proof.
  destruct (parse_llm_response env file_ response w) as [[r|e] w'] eqn:Hrun.
  - right. exists r. by apply parse_llm_response_ok in Hrun as (_ & _ & _ & _ & ->).
  - left. by apply parse_llm_response_raise in Hrun.
Qed.

Lemma upload_pdf_process_grows env file_ user path_ w :
  world_grows w (upload_pdf_process env file_ user path_ w).2.
Proof.
  unfold upload_pdf_process, bind at 1.
  pose proof (extract_text_from_pdf_world path_ w) as Hw.
  destruct (extract_text_from_pdf path_ w) as [[pdf_text|e] w1]; simpl in Hw; subst w1;
    [|apply world_grows_refl].
  destruct (PyStr.is_empty _); [apply world_grows_refl|].
  unfold bind, lift, send_message.
  destruct (get_user_llm_chat _) as [chat|e]; [|apply world_grows_refl].
  set (w1 := add_llm_call _ _ w).
  assert (Hw1 : world_grows w w1).
  { apply world_grows_frame; try done. by eexists. }
  destruct (llm_reply _ _) as [response|]; [|done].
  apply (world_grows_trans _ w1); [done|].
  destruct (parse_llm_response_world env file_ response w1) as [->|[r ->]];
    [apply world_grows_refl|].
  apply world_grows_frame; try done. by eexists.
Qed.

Lemma world_grows_set_files f w : world_grows w (set_files f w).
Proof. by apply world_grows_frame. Qed.

Lemma upload_pdf_grows env file_ credentials w :
  world_grows w (upload_pdf env file_ credentials w).2.
Proof.
  pose proof (get_current_user_world env credentials w) as Hw.
  destruct (get_current_user env credentials w) as [[user|e] w0] eqn:Hauth;
    simpl in Hw; subst w0.
  2: { unfold upload_pdf, bind. rewrite Hauth. apply world_grows_refl. }
  destruct (PyStr.endswith ".pdf" (PyStr.lower (filename file_))) eqn:Hext.
  2: { unfold upload_pdf, bind. rewrite Hauth, Hext. apply world_grows_refl. }
  pose proof (upload_pdf_not_written env file_ credentials w user Hauth Hext) as Hcases.
  destruct (temp_outcome env) eqn:Hout.
  - rewrite Hcases. apply world_grows_refl.
  - rewrite Hcases. destruct (bool_decide _);
      [apply world_grows_refl|apply world_grows_set_files].
  - destruct (files w !! temp_name env) as [c|] eqn:Hfresh.
    { rewrite bool_decide_eq_true_2 in Hcases by eauto. rewrite Hcases.
      apply world_grows_refl. }
    rewrite (upload_pdf_written env file_ credentials w user) by done. cbv zeta. cbn [snd].
    apply (world_grows_trans _ (set_files (insert (temp_name env) (file file_)) w));
      [apply world_grows_set_files|].
    eapply world_grows_trans; [apply upload_pdf_process_grows|apply world_grows_set_files].
Qed.

Lemma handler_step_grows w w' : handler_step w w' -> world_grows w w'.
Proof.
  destruct 1 as [env user_data w|env login_data w|env api_data credentials w
                 |env credentials w|env file_ credentials w
                 |env request credentials w|env lesson_plan_id w].
  - unfold signup. case_bool_decide as Hsome; [apply world_grows_refl|].
    split; [|done]. intros e u Hu. exists u. split; [|apply same_account_refl].
    simpl. rewrite lookup_insert_ne; [done|]. intros <-. apply Hsome. eauto.
  - unfold login. repeat case_match; apply world_grows_refl.
  - pose proof (get_current_user_world env credentials w) as Hw.
    destruct (get_current_user env credentials w) as [[user|e] w0] eqn:Hauth;
      simpl in Hw; subst w0.
    2: { unfold validate_api_key, bind. rewrite Hauth. apply world_grows_refl. }
    rewrite (validate_api_key_cases _ _ _ _ user) by done.
    destruct (get_user_llm_chat _) as [chat|e]; [|apply world_grows_refl].
    assert (Hcall : world_grows w (add_llm_call (chat_api_key chat) "Hello" w)).
    { apply world_grows_frame; try done. by eexists. }
    destruct (llm_reply _ _); [|done].
    destruct (users_db w !! User.email user) as [u0|] eqn:Hu0; [|done].
    split; [|by split; [|split; [|eexists]]].
    intros e u Hu. simpl. destruct (decide (User.email user = e)) as [<-|Hne].
    + rewrite lookup_insert_eq. eexists. split; [done|].
      rewrite Hu0 in Hu. injection Hu as <-. apply same_account_set_api_key.
    + rewrite lookup_insert_ne by done. exists u. split; [done|apply same_account_refl].
  - unfold get_profile, bind.
    pose proof (get_current_user_world env credentials w) as Hw.
    destruct (get_current_user env credentials w) as [[user|e] w0]; simpl in Hw; subst w0;
      apply world_grows_refl.
  - apply upload_pdf_grows.
  - pose proof (get_current_user_world env credentials w) as Hw.
    destruct (get_current_user env credentials w) as [[user|e] w0] eqn:Hauth;
      simpl in Hw; subst w0.
    2: { unfold generate_lesson_plan, bind. rewrite Hauth. apply world_grows_refl. }
    rewrite (generate_lesson_plan_cases _ _ _ _ user) by done.
    destruct (get_user_llm_chat _) as [chat|e]; [|apply world_grows_refl].
    assert (Hcall : world_grows w
              (add_llm_call (chat_api_key chat) (generation_prompt request) w)).
    { apply world_grows_frame; try done. by eexists. }
    destruct (llm_reply _ _); [|done].
    destruct (db_ok env); [|done].
    apply world_grows_frame; try done; by eexists.
  - unfold download_lesson_plan, try_except, bind, find_lesson_plan,
      NamedTemporaryFile, generate_lesson_plan_pdf, modify, raise, ret.
    repeat case_match; simplify_eq; simpl;
      first [apply world_grows_refl | by apply world_grows_frame].
Qed.

(** X22: over any sequence of requests no account is lost or changed in
    anything but its API key, and the stored extraction results, the
    stored lesson plans and the record of the calls to the provider are
    only added to at the end. *)
Theorem requests_keep_what_is_stored w w' :
  rtc handler_step w w' -> world_grows w w'.
Proof.
  induction 1 as [w|w1 w2 w3 Hstep _ IH]; [apply world_grows_refl|].
  apply (world_grows_trans _ w2); [by apply handler_step_grows|done].
Qed.

End Server.

(** ** The properties on the sample inputs *)

Example split_blocks :
  PyStr.split (PyStr.LF +:+ PyStr.LF)
    ("a" +:+ PyStr.LF +:+ "b" +:+ PyStr.LF +:+ PyStr.LF +:+ PyStr.LF +:+ "c")
  = ["a" +:+ PyStr.LF +:+ "b"; PyStr.LF +:+ "c"].
Proof. reflexivity. Qed.

Example split_trailing : PyStr.split "--" "a--" = ["a"; ""].
Proof. reflexivity. Qed.

Example strip_both : PyStr.strip "  10 minutes  " = "10 minutes".
Proof. reflexivity. Qed.

Example isupper_heading : PyStr.isupper "LEARNING OBJECTIVES" = true.
Proof. reflexivity. Qed.

Example isupper_mixed : PyStr.isupper "LESSON STRUCTURE (1 hour)" = false.
Proof. reflexivity. Qed.

Example clean_response_fenced :
  clean_response (Sample.fenced Sample.text_good) = Sample.text_good.
Proof. reflexivity. Qed.

(** The sample plan: the heading block gets its bullet, the timed phase,
    which the template puts in a block of its own, comes out as a plain
    paragraph. *)
Example sample_plan_body :
  flat_map render_section
    (PyStr.split (PyStr.LF +:+ PyStr.LF) (LessonPlan.content Sample.plan))
  = [ Paragraph "LEARNING OBJECTIVES" section_heading_style;
      Paragraph "• Explain the phases of mitosis" bullet_style;
      Paragraph "LESSON STRUCTURE (1 hour)" normal_style; Spacer 1 6;
      Paragraph "Introduction/Hook (10 minutes)" normal_style; Spacer 1 6;
      Paragraph "• Show a dividing cell" bullet_style ].
Proof. reflexivity. Qed.

Lemma signup_duplicate_email_witness :
  is_Some (users_db Sample.world !! UserSignup.email Sample.ada_signup)
  /\ signup Sample.secret Sample.sha256_hexdigest Sample.hs256
       Sample.env Sample.ada_signup Sample.world
     = (Raise (HTTPException 400 "Email already registered"), Sample.world).
Proof.
  assert (H : is_Some (users_db Sample.world !! UserSignup.email Sample.ada_signup)).
  { exists Sample.ada. vm_compute. reflexivity. }
  split; [exact H|].
  exact (signup_duplicate_email Sample.secret Sample.sha256_hexdigest Sample.hs256
           Sample.env Sample.ada_signup Sample.world H).
Defined.

Lemma signups_login_authenticate_witness :
  let requests := [(Sample.env_ada, Sample.ada_signup); (Sample.env_grace, Sample.grace_signup)] in
  let w' := (signups Sample.secret Sample.sha256_hexdigest Sample.hs256
               requests Sample.empty_world).2 in
  NoDup (signup_emails requests)
  /\ Forall (fun r => is_ok r = true)
       (signups Sample.secret Sample.sha256_hexdigest Sample.hs256
          requests Sample.empty_world).1
  /\ exists response,
       login Sample.secret Sample.sha256_hexdigest Sample.hs256 Sample.env
         (UserLogin.mk "grace@example.org" "compiler") w'
       = (Ok response, w')
       /\ AuthResponse.success response = true
       /\ get_current_user Sample.secret Sample.hs256 Sample.env
            (AuthResponse.token response) w'
          = (Ok (new_user Sample.sha256_hexdigest Sample.env_grace Sample.grace_signup), w')
       /\ forall env_a, now env_a < now Sample.env + 24 * 3600 ->
            get_current_user Sample.secret Sample.hs256 env_a
              (AuthResponse.token response) w'
            = (Ok (new_user Sample.sha256_hexdigest Sample.env_grace Sample.grace_signup), w').
Proof.
  intros requests w'.
  assert (Hnodup : NoDup (signup_emails requests)).
  { apply (bool_decide_unpack (NoDup (signup_emails requests))). vm_compute. exact I. }
  assert (Hfresh : forall e, e ∈ signup_emails requests ->
                     users_db Sample.empty_world !! e = None).
  { intros e _. reflexivity. }
  assert (Hmem : (Sample.env_grace, Sample.grace_signup) ∈ requests).
  { right. left. }
  split; [exact Hnodup|].
  exact (signups_login_authenticate Sample.secret Sample.sha256_hexdigest Sample.hs256
           requests Sample.empty_world Sample.env_grace Sample.grace_signup Sample.env
           Hnodup Hfresh Hmem).
Defined.

Lemma get_current_user_accepts_witness :
  get_current_user Sample.secret Sample.hs256 Sample.env Sample.ada_token Sample.world
  = (Ok Sample.ada, Sample.world)
  /\ get_current_user Sample.secret Sample.hs256 Sample.env
       (jwt_encode Sample.hs256 (Payload.mk "someone-else" "ada@example.org" 90000)
          Sample.secret) Sample.world
     = get_current_user Sample.secret Sample.hs256 Sample.env
         (jwt_encode Sample.hs256 Sample.ada_payload Sample.secret) Sample.world.
Proof.
  pose proof (get_current_user_accepts Sample.secret Sample.hs256 Sample.env
                Sample.ada_token Sample.world) as (_ & Hiff & Hid & _).
  split.
  - apply Hiff. split; [reflexivity|]. split; [reflexivity|]. vm_compute. reflexivity.
  - exact (Hid "someone-else").
Defined.

Lemma validate_api_key_empty_string_witness :
  let run := validate_api_key Sample.secret Sample.system_key Sample.hs256
               (Sample.llm_reply "") Sample.env (ApiKeyValidation.mk "")
               Sample.ada_token Sample.world in
  llm_calls run.2 = llm_calls Sample.world ++ [("system-key", "Hello")]
  /\ users_db run.2
     = <["ada@example.org" := User.set_api_key "" Sample.ada]> (users_db Sample.world).
Proof.
  intros run.
  assert (Hkey : Sample.system_key = Some "system-key") by reflexivity.
  assert (Hne : "system-key" <> "") by discriminate.
  assert (Hkeyed : users_db_keyed Sample.world).
  { intros e u Hu. change (users_db Sample.world) with
      ({[ "ada@example.org" := Sample.ada ]} : gmap string User.t) in Hu.
    apply lookup_singleton_Some in Hu as [<- <-]. reflexivity. }
  assert (Hauth : get_current_user Sample.secret Sample.hs256 Sample.env
                    Sample.ada_token Sample.world = (Ok Sample.ada, Sample.world)).
  { vm_compute. reflexivity. }
  pose proof (validate_api_key_empty_string Sample.secret Sample.system_key Sample.hs256
                (Sample.llm_reply "") Sample.str_exc Sample.env Sample.ada_token
                Sample.world Sample.ada "system-key" Hkey Hne Hkeyed Hauth)
    as (Hcall & Hstored).
  split; [exact Hcall|].
  destruct (Hstored "Hi") as (_ & Hdb & _); [reflexivity|exact Hdb].
Defined.

Lemma upload_pdf_no_readable_text_witness :
  Forall (fun page => exists t, page = Some t /\ PyStr.strip t = "")
    [Some "  "; Some PyStr.LF]
  /\ http_status
       (upload_pdf Sample.secret Sample.system_key Sample.hs256 (Sample.llm_reply "")
          Sample.str_exc Sample.PdfReader Sample.json_loads Sample.pydantic_str
          Sample.env Sample.scanned_pdf Sample.ada_token Sample.world).1 = 500.
Proof.
  assert (Hblank : Forall (fun page => exists t, page = Some t /\ PyStr.strip t = "")
                     [Some "  "; Some PyStr.LF]).
  { repeat constructor; eexists; (split; [reflexivity|reflexivity]). }
  split; [exact Hblank|].
  apply (upload_pdf_no_readable_text Sample.secret Sample.system_key Sample.hs256
           (Sample.llm_reply "") Sample.str_exc Sample.PdfReader Sample.json_loads
           Sample.pydantic_str Sample.env Sample.scanned_pdf Sample.ada_token
           Sample.world Sample.ada [Some "  "; Some PyStr.LF]);
    [vm_compute; reflexivity|reflexivity|reflexivity|reflexivity|reflexivity|exact Hblank].
Defined.



(** The reply whose mapping has the key ["Genetics"] while the only topic
    is ["Cells"]: the upload succeeds, and the result it returns and
    stores has a key that is not among its topics. *)
Lemma upload_pdf_stray_key :
  let run :=
    upload_pdf Sample.secret Sample.system_key Sample.hs256
      (Sample.llm_reply Sample.text_stray_key) Sample.str_exc Sample.PdfReader
      Sample.json_loads Sample.pydantic_str
      Sample.env Sample.outline_pdf Sample.ada_token Sample.world in
  exists r,
    run.1 = Ok r
    /\ pdf_extractions run.2 = [r]
    /\ mapping_keys r = ["Genetics"]
    /\ PDFExtractionResult.lecture_topics r = ["Cells"]
    /\ ~ keys_in_topics r.
Proof.
  eexists. split; [vm_compute; reflexivity|].
  split; [vm_compute; reflexivity|]. split; [reflexivity|]. split; [reflexivity|].
  intros Hsub. specialize (Hsub "Genetics"). unfold mapping_keys in Hsub. simpl in Hsub.
  assert (Hin : "Genetics" ∈ ["Cells"]) by (apply Hsub; left).
  apply elem_of_cons in Hin as [Hin|Hin]; [discriminate|]. by apply elem_of_nil in Hin.
Qed.

Lemma upload_pdf_result_keys_witness :
  let r := PDFExtractionResult.mk "0b5e7a42" "outline.pdf" ["Biology 101"] ["Cells"]
             [("Cells", ["Mitosis"])] 5000 in
  let w' := add_pdf_extraction r
              (add_llm_call "system-key" (extraction_prompt ("Biology 101: Cells" +:+ PyStr.LF))
                 Sample.world) in
  upload_pdf Sample.secret Sample.system_key Sample.hs256
    (Sample.llm_reply (Sample.fenced Sample.text_good)) Sample.str_exc Sample.PdfReader
    Sample.json_loads Sample.pydantic_str
    Sample.env Sample.outline_pdf Sample.ada_token Sample.world = (Ok r, w')
  /\ pdf_extractions w' = pdf_extractions Sample.world ++ [r]
  /\ exists user chat pdf_text response members topics,
       get_current_user Sample.secret Sample.hs256 Sample.env Sample.ada_token
         Sample.world = (Ok user, Sample.world)
       /\ get_user_llm_chat Sample.system_key (User.api_key user) = Ok chat
       /\ llm_calls w'
          = llm_calls Sample.world ++ [(chat_api_key chat, extraction_prompt pdf_text)]
       /\ Sample.llm_reply (Sample.fenced Sample.text_good)
            (chat_api_key chat) (extraction_prompt pdf_text) = Some response
       /\ Sample.json_loads (clean_response response) = Some (JObj members)
       /\ validate_list_str Sample.pydantic_str
            (dict_get "lecture_topics" members (JArr [])) = Some topics
       /\ PDFExtractionResult.lecture_topics r = topics
       /\ mapping_keys r = reply_mapping_keys members
       /\ (keys_in_topics r <-> reply_mapping_keys members ⊆ topics)
       /\ ((forall mapping,
               dict_get "lecture_focus_mapping" members (JObj []) <> JObj mapping) ->
           keys_in_topics r).
Proof.
  intros r w'.
  assert (Hrun : upload_pdf Sample.secret Sample.system_key Sample.hs256
    (Sample.llm_reply (Sample.fenced Sample.text_good)) Sample.str_exc Sample.PdfReader
    Sample.json_loads Sample.pydantic_str
    Sample.env Sample.outline_pdf Sample.ada_token Sample.world = (Ok r, w')).
  { vm_compute. reflexivity. }
  split; [exact Hrun|].
  exact (upload_pdf_result_keys Sample.secret Sample.system_key Sample.hs256
           (Sample.llm_reply (Sample.fenced Sample.text_good)) Sample.str_exc
           Sample.PdfReader Sample.json_loads Sample.pydantic_str
           Sample.env Sample.outline_pdf Sample.ada_token Sample.world r w' Hrun).
Defined.

(** A download of the sample plan succeeds, and the PDF it generated,
    under a name that was free before the request, is there when the
    handler has returned. *)
Lemma download_lesson_plan_keeps_file :
  let run := download_lesson_plan Sample.str_exc Sample.strftime Sample.doc_build
               Sample.env "4c1d2e3f-aaaa" Sample.plan_world in
  run.1 = Ok {| path := "/tmp/tmpk3x9qz.pdf"; media_type := "application/pdf";
                download_name := "lesson_plan_Biology 101_4c1d2e3f.pdf" |}
  /\ files Sample.plan_world !! "/tmp/tmpk3x9qz.pdf" = None
  /\ files run.2 !! "/tmp/tmpk3x9qz.pdf" = Some "%PDF-1.4"
  /\ files run.2 <> files Sample.plan_world.
Proof.
  assert (Hfile : files (download_lesson_plan Sample.str_exc Sample.strftime
                           Sample.doc_build Sample.env "4c1d2e3f-aaaa" Sample.plan_world).2
                  !! "/tmp/tmpk3x9qz.pdf" = Some "%PDF-1.4").
  { vm_compute. reflexivity. }
  split; [vm_compute; reflexivity|]. split; [reflexivity|]. split; [exact Hfile|].
  intros Heq. rewrite Heq in Hfile. discriminate.
Qed.

Lemma temporary_files_after_request_witness :
  files (upload_pdf Sample.secret Sample.system_key Sample.hs256
           (Sample.llm_reply (Sample.fenced Sample.text_good)) Sample.str_exc
           Sample.PdfReader Sample.json_loads Sample.pydantic_str
           Sample.env Sample.outline_pdf Sample.ada_token Sample.world).2
  = files Sample.world
  /\ files (upload_pdf Sample.secret Sample.system_key Sample.hs256
             (Sample.llm_reply "") Sample.str_exc
             Sample.PdfReader Sample.json_loads Sample.pydantic_str
             Sample.env Sample.scanned_pdf Sample.ada_token Sample.world).2
     = files Sample.world
  /\ exists bytes,
       files (download_lesson_plan Sample.str_exc Sample.strftime Sample.doc_build
                Sample.env "4c1d2e3f-aaaa" Sample.plan_world).2
       = <["/tmp/tmpk3x9qz.pdf" := bytes]> (files Sample.plan_world).
Proof.
  pose proof (temporary_files_after_request Sample.secret Sample.system_key Sample.hs256
                (Sample.llm_reply (Sample.fenced Sample.text_good)) Sample.str_exc
                Sample.PdfReader Sample.strftime Sample.doc_build Sample.json_loads
                Sample.pydantic_str) as [Hup _].
  pose proof (temporary_files_after_request Sample.secret Sample.system_key Sample.hs256
                (Sample.llm_reply "") Sample.str_exc
                Sample.PdfReader Sample.strftime Sample.doc_build Sample.json_loads
                Sample.pydantic_str) as [Hup' Hdown].
  split; [apply Hup; discriminate|]. split; [apply Hup'; discriminate|].
  destruct (Hdown Sample.env "4c1d2e3f-aaaa" Sample.plan_world
              {| path := "/tmp/tmpk3x9qz.pdf"; media_type := "application/pdf";
                 download_name := "lesson_plan_Biology 101_4c1d2e3f.pdf" |}
              (download_lesson_plan Sample.str_exc Sample.strftime Sample.doc_build
                 Sample.env "4c1d2e3f-aaaa" Sample.plan_world).2)
    as (_ & _ & Hfile); [vm_compute; reflexivity|exact Hfile].
Defined.

(** Two downloads of the sample plan, the second 1000 seconds after the
    first, with a builder that stamps the time of the build: both
    succeed, the stored plan is what it was, and the two files, both on
    disk, do not hold the same bytes. *)
Lemma download_twice_bytes_differ :
  let run1 := download_lesson_plan Sample.str_exc Sample.strftime Cases.doc_build_stamped
                Sample.env "4c1d2e3f-aaaa" Sample.plan_world in
  let run2 := download_lesson_plan Sample.str_exc Sample.strftime Cases.doc_build_stamped
                Cases.env_later "4c1d2e3f-aaaa" run1.2 in
  (exists r1, run1.1 = Ok r1 /\ path r1 = "/tmp/tmpk3x9qz.pdf")
  /\ (exists r2, run2.1 = Ok r2 /\ path r2 = "/tmp/tmpw4r5t6.pdf")
  /\ lesson_plans run1.2 = lesson_plans Sample.plan_world
  /\ lesson_plans run2.2 = lesson_plans Sample.plan_world
  /\ files run2.2 !! "/tmp/tmpk3x9qz.pdf" = Some "%PDF-1.4 /CreationDate (5000)"
  /\ files run2.2 !! "/tmp/tmpw4r5t6.pdf" = Some "%PDF-1.4 /CreationDate (6000)"
  /\ files run2.2 !! "/tmp/tmpk3x9qz.pdf" <> files run2.2 !! "/tmp/tmpw4r5t6.pdf".
Proof.
  intros run1 run2.
  assert (Hfirst : files run2.2 !! "/tmp/tmpk3x9qz.pdf"
                   = Some "%PDF-1.4 /CreationDate (5000)").
  { vm_compute. reflexivity. }
  assert (Hsecond : files run2.2 !! "/tmp/tmpw4r5t6.pdf"
                    = Some "%PDF-1.4 /CreationDate (6000)").
  { vm_compute. reflexivity. }
  split; [eexists; split; [vm_compute; reflexivity|reflexivity]|].
  split; [eexists; split; [vm_compute; reflexivity|reflexivity]|].
  split; [vm_compute; reflexivity|]. split; [vm_compute; reflexivity|].
  split; [exact Hfirst|]. split; [exact Hsecond|].
  rewrite Hfirst, Hsecond. discriminate.
Qed.

Lemma download_twice_same_story_witness :
  let run1 := download_lesson_plan Sample.str_exc Sample.strftime Sample.doc_build
                Sample.env "4c1d2e3f-aaaa" Sample.plan_world in
  let run2 := download_lesson_plan Sample.str_exc Sample.strftime Sample.doc_build
                Cases.env_later "4c1d2e3f-aaaa" run1.2 in
  exists r1 r2 bytes,
    run1.1 = Ok r1 /\ run2.1 = Ok r2
    /\ files run1.2 !! path r1 = Some bytes
    /\ files run2.2 !! path r2 = Some bytes
    /\ download_name r1 = download_name r2.
Proof.
  intros run1 run2.
  set (r1 := {| path := "/tmp/tmpk3x9qz.pdf"; media_type := "application/pdf";
                download_name := "lesson_plan_Biology 101_4c1d2e3f.pdf" |}).
  set (r2 := {| path := "/tmp/tmpw4r5t6.pdf"; media_type := "application/pdf";
                download_name := "lesson_plan_Biology 101_4c1d2e3f.pdf" |}).
  assert (Hrun1 : download_lesson_plan Sample.str_exc Sample.strftime Sample.doc_build
                    Sample.env "4c1d2e3f-aaaa" Sample.plan_world = (Ok r1, run1.2)).
  { vm_compute. reflexivity. }
  assert (Hrun2 : download_lesson_plan Sample.str_exc Sample.strftime Sample.doc_build
                    Cases.env_later "4c1d2e3f-aaaa" run1.2 = (Ok r2, run2.2)).
  { vm_compute. reflexivity. }
  assert (Hsame :
    List.find (fun p => bool_decide (LessonPlan.id p = "4c1d2e3f-aaaa"))
      (lesson_plans run1.2)
    = List.find (fun p => bool_decide (LessonPlan.id p = "4c1d2e3f-aaaa"))
        (lesson_plans Sample.plan_world)).
  { vm_compute. reflexivity. }
  destruct (download_twice_same_story Sample.str_exc Sample.strftime Sample.doc_build
              Sample.env Cases.env_later "4c1d2e3f-aaaa" Sample.plan_world run1.2
              r1 run1.2 r2 run2.2 Hrun1 Hrun2 Hsame)
    as (_ & _ & plan & bytes1 & bytes2 & _ & _ & _ & Hfile1 & Hfile2 & Hname & _ & Hclock).
  assert (Hbytes : bytes1 = bytes2).
  { apply Hclock. intros t t' story. reflexivity. }
  exists r1, r2, bytes2. rewrite <- Hbytes at 1.
  split; [reflexivity|]. split; [reflexivity|].
  split; [exact Hfile1|]. split; [exact Hfile2|exact Hname].
Defined.

(** ** The further properties on the sample inputs *)

Lemma login_outcome_witness :
  is_ok (login Sample.secret Sample.sha256_hexdigest Sample.hs256 Sample.env
           (UserLogin.mk "ada@example.org" "analytical") Sample.world).1 = true
  /\ (login Sample.secret Sample.sha256_hexdigest Sample.hs256 Sample.env
        (UserLogin.mk "ada@example.org" "difference") Sample.world).1
     = Raise (HTTPException 401 "Invalid email or password")
  /\ (login Sample.secret Sample.sha256_hexdigest Sample.hs256 Sample.env
        (UserLogin.mk "nobody@example.org" "analytical") Sample.world).1
     = Raise (HTTPException 401 "Invalid email or password").
Proof.
  split; [|split].
  - destruct (login_outcome Sample.secret Sample.sha256_hexdigest Sample.hs256 Sample.env
                (UserLogin.mk "ada@example.org" "analytical") Sample.world)
      as (_ & Hiff & _).
    apply Hiff. exists Sample.ada. split; [vm_compute; reflexivity|reflexivity].
  - destruct (login_outcome Sample.secret Sample.sha256_hexdigest Sample.hs256 Sample.env
                (UserLogin.mk "ada@example.org" "difference") Sample.world)
      as (_ & _ & Hfail).
    apply Hfail. vm_compute. reflexivity.
  - destruct (login_outcome Sample.secret Sample.sha256_hexdigest Sample.hs256 Sample.env
                (UserLogin.mk "nobody@example.org" "analytical") Sample.world)
      as (_ & _ & Hfail).
    apply Hfail. vm_compute. reflexivity.
Defined.

Lemma minted_token_lifetime_witness :
  get_current_user Sample.secret Sample.hs256 Sample.env
    (create_jwt_token Sample.secret Sample.hs256 1000 Sample.ada) Sample.world
  = (Ok Sample.ada, Sample.world)
  /\ get_current_user Sample.secret Sample.hs256
       (mkEnv 87400 "0b5e7a42" "/tmp/tmpk3x9qz.pdf" TempWritten true)
       (create_jwt_token Sample.secret Sample.hs256 1000 Sample.ada) Sample.world
     = (Raise (HTTPException 401 "Token has expired"), Sample.world).
Proof.
  assert (Hstored : users_db Sample.world !! User.email Sample.ada = Some Sample.ada).
  { vm_compute. reflexivity. }
  split.
  - exact (minted_token_lifetime Sample.secret Sample.hs256 Sample.env 1000 Sample.ada
             Sample.world Hstored).
  - exact (minted_token_lifetime Sample.secret Sample.hs256
             (mkEnv 87400 "0b5e7a42" "/tmp/tmpk3x9qz.pdf" TempWritten true) 1000
             Sample.ada Sample.world Hstored).
Defined.

Lemma signup_then_profile_witness :
  exists response w',
    signup Sample.secret Sample.sha256_hexdigest Sample.hs256 Sample.env_grace
      Sample.grace_signup Sample.world = (Ok response, w')
    /\ users_db w'
       = <["grace@example.org" :=
             new_user Sample.sha256_hexdigest Sample.env_grace Sample.grace_signup]>
           (users_db Sample.world)
    /\ get_profile Sample.secret Sample.hs256 Sample.env (AuthResponse.token response) w'
       = (Ok (AuthResponse.user response), w')
    /\ UserResponse.hasApiKey (AuthResponse.user response) = false
    /\ UserResponse.email (AuthResponse.user response) = "grace@example.org".
Proof.
  assert (Hnew : users_db Sample.world !! UserSignup.email Sample.grace_signup = None).
  { vm_compute. reflexivity. }
  assert (Hlive : now Sample.env < now Sample.env_grace + 24 * 3600).
  { vm_compute. reflexivity. }
  exact (signup_then_profile Sample.secret Sample.sha256_hexdigest Sample.hs256
           Sample.env_grace Sample.grace_signup Sample.world Sample.env Hnew Hlive).
Defined.

Lemma validate_api_key_own_key_witness :
  let run := validate_api_key Sample.secret Sample.system_key Sample.hs256
               (Sample.llm_reply "") Sample.env (ApiKeyValidation.mk "ada-key")
               Sample.ada_token Sample.world in
  is_ok run.1 = true
  /\ llm_calls run.2 = llm_calls Sample.world ++ [("ada-key", "Hello")]
  /\ (exists profile,
        get_profile Sample.secret Sample.hs256 Sample.env Sample.ada_token run.2
        = (Ok profile, run.2)
        /\ UserResponse.hasApiKey profile = true)
  /\ llm_calls (generate_lesson_plan Sample.secret Sample.system_key Sample.hs256
                  (Sample.llm_reply "") Sample.str_exc Sample.env Sample.plan_request
                  Sample.ada_token run.2).2
     = llm_calls run.2 ++ [("ada-key", generation_prompt Sample.plan_request)].
Proof.
  intros run.
  assert (Hne : "ada-key" <> "") by discriminate.
  assert (Hkeyed : users_db_keyed Sample.world).
  { intros e u Hu. change (users_db Sample.world) with
      ({[ "ada@example.org" := Sample.ada ]} : gmap string User.t) in Hu.
    apply lookup_singleton_Some in Hu as [<- <-]. reflexivity. }
  assert (Hauth : get_current_user Sample.secret Sample.hs256 Sample.env
                    Sample.ada_token Sample.world = (Ok Sample.ada, Sample.world)).
  { vm_compute. reflexivity. }
  assert (Hprobe : Sample.llm_reply "" "ada-key" "Hello" = Some "Hi") by reflexivity.
  pose proof (validate_api_key_own_key Sample.secret Sample.system_key Sample.hs256
                (Sample.llm_reply "") Sample.str_exc Sample.env Sample.ada_token
                Sample.world Sample.ada "ada-key" "Hi" Hne Hkeyed Hauth Hprobe)
    as (Hok & Hcalls & _ & Hlater).
  split; [exact Hok|]. split; [exact Hcalls|].
  destruct (Hlater Sample.env) as [Hprofile Hgen]; [vm_compute; reflexivity|].
  split; [exact Hprofile|exact (Hgen Sample.plan_request)].
Defined.

Lemma validate_api_key_rejected_witness :
  let run := validate_api_key Sample.secret Sample.system_key Sample.hs256
               Cases.llm_down Sample.env (ApiKeyValidation.mk "ada-key")
               Sample.ada_token Cases.two_users in
  let accepted := validate_api_key Sample.secret Sample.system_key Sample.hs256
                    (Sample.llm_reply "") Sample.env (ApiKeyValidation.mk "ada-key")
                    Sample.ada_token Cases.two_users in
  users_db run.2 = users_db Cases.two_users
  /\ (http_status run.1 = 401 \/ http_status run.1 = 400)
  /\ users_db accepted.2 !! "grace@example.org" = Some Cases.grace.
Proof.
  intros run accepted.
  assert (Hkeyed : users_db_keyed Cases.two_users).
  { intros e u Hu. change (users_db Cases.two_users) with
      (<[ "grace@example.org" := Cases.grace ]>
         ({[ "ada@example.org" := Sample.ada ]} : gmap string User.t)) in Hu.
    apply lookup_insert_Some in Hu as [[<- <-]|[_ Hu]]; [reflexivity|].
    apply lookup_singleton_Some in Hu as [<- <-]. reflexivity. }
  destruct (validate_api_key_rejected Sample.secret Sample.system_key Sample.hs256
              Cases.llm_down Sample.env (ApiKeyValidation.mk "ada-key")
              Sample.ada_token Cases.two_users) as [Hfail _].
  destruct (validate_api_key_rejected Sample.secret Sample.system_key Sample.hs256
              (Sample.llm_reply "") Sample.env (ApiKeyValidation.mk "ada-key")
              Sample.ada_token Cases.two_users) as [_ Hothers].
  destruct Hfail as [Hdb Hstatus]; [vm_compute; reflexivity|].
  split; [exact Hdb|]. split; [exact Hstatus|].
  unfold accepted. rewrite (Hothers Hkeyed "grace@example.org"); [|discriminate].
  vm_compute. reflexivity.
Defined.

Lemma generate_lesson_plan_no_key_witness :
  generate_lesson_plan Sample.secret None Sample.hs256 (Sample.llm_reply "")
    Sample.str_exc Sample.env Sample.plan_request Sample.ada_token Sample.world
  = (Raise (HTTPException 500
              "Failed to generate lesson plan: 500: LLM API key not configured"),
     Sample.world).
Proof.
  assert (Hauth : get_current_user Sample.secret Sample.hs256 Sample.env
                    Sample.ada_token Sample.world = (Ok Sample.ada, Sample.world)).
  { vm_compute. reflexivity. }
  exact (generate_lesson_plan_no_key Sample.secret None Sample.hs256
           (Sample.llm_reply "") Sample.str_exc Sample.env Sample.plan_request
           Sample.ada_token Sample.world Sample.ada Hauth eq_refl eq_refl).
Defined.

Lemma generate_lesson_plan_outcome_witness :
  let run := generate_lesson_plan Sample.secret Sample.system_key Sample.hs256
               (Sample.llm_reply "LEARNING OBJECTIVES") Sample.str_exc Sample.env
               Sample.plan_request Sample.ada_token Sample.world in
  let failed := generate_lesson_plan Sample.secret Sample.system_key Sample.hs256
                  Cases.llm_down Sample.str_exc Sample.env
                  Sample.plan_request Sample.ada_token Sample.world in
  let plan := LessonPlan.mk "0b5e7a42" Sample.plan_request "LEARNING OBJECTIVES" 5000 in
  run.1 = Ok plan
  /\ lesson_plans run.2 = lesson_plans Sample.world ++ [plan]
  /\ http_status failed.1 = 500
  /\ lesson_plans failed.2 = lesson_plans Sample.world.
Proof.
  intros run failed plan.
  assert (Hauth : get_current_user Sample.secret Sample.hs256 Sample.env
                    Sample.ada_token Sample.world = (Ok Sample.ada, Sample.world)).
  { vm_compute. reflexivity. }
  assert (Hrun : run.1 = Ok plan).
  { vm_compute. reflexivity. }
  destruct (generate_lesson_plan_outcome Sample.secret Sample.system_key Sample.hs256
              (Sample.llm_reply "LEARNING OBJECTIVES") Sample.str_exc Sample.env
              Sample.plan_request Sample.ada_token Sample.world Sample.ada Hauth)
    as [Hok _].
  destruct (generate_lesson_plan_outcome Sample.secret Sample.system_key Sample.hs256
              Cases.llm_down Sample.str_exc Sample.env
              Sample.plan_request Sample.ada_token Sample.world Sample.ada Hauth)
    as [_ Hfail].
  split; [exact Hrun|]. split; [exact (proj2 (proj2 (Hok plan Hrun)))|].
  apply Hfail. vm_compute. reflexivity.
Defined.

Lemma generate_then_download_witness :
  let run := generate_lesson_plan Sample.secret Sample.system_key Sample.hs256
               (Sample.llm_reply "LEARNING OBJECTIVES") Sample.str_exc Sample.env
               Sample.plan_request Sample.ada_token Sample.world in
  download_lesson_plan Sample.str_exc Sample.strftime Sample.doc_build Cases.env_later
    "0b5e7a42" run.2
  = (Ok {| path := "/tmp/tmpw4r5t6.pdf"; media_type := "application/pdf";
           download_name := "lesson_plan_Biology 101_0b5e7a42.pdf" |},
     set_files (insert "/tmp/tmpw4r5t6.pdf" "%PDF-1.4") run.2).
Proof.
  intros run.
  assert (Hauth : get_current_user Sample.secret Sample.hs256 Sample.env
                    Sample.ada_token Sample.world = (Ok Sample.ada, Sample.world)).
  { vm_compute. reflexivity. }
  assert (Hgen : generate_lesson_plan Sample.secret Sample.system_key Sample.hs256
                   (Sample.llm_reply "LEARNING OBJECTIVES") Sample.str_exc Sample.env
                   Sample.plan_request Sample.ada_token Sample.world
                 = (Ok (LessonPlan.mk "0b5e7a42" Sample.plan_request
                          "LEARNING OBJECTIVES" 5000), run.2)).
  { vm_compute. reflexivity. }
  assert (Hfresh : Forall (fun p => LessonPlan.id p <> uuid4 Sample.env)
                     (lesson_plans Sample.world)).
  { constructor. }
  assert (Htemp : temp_outcome Cases.env_later <> TempCreateFails) by discriminate.
  assert (Hfree : files run.2 !! temp_name Cases.env_later = None).
  { vm_compute. reflexivity. }
  exact (generate_then_download Sample.secret Sample.system_key Sample.hs256
           (Sample.llm_reply "LEARNING OBJECTIVES") Sample.str_exc Sample.strftime
           Sample.doc_build Sample.env Sample.plan_request Sample.ada_token Sample.world
           Sample.ada
           (LessonPlan.mk "0b5e7a42" Sample.plan_request "LEARNING OBJECTIVES" 5000)
           run.2 Cases.env_later "%PDF-1.4"
           Hauth Hgen Hfresh eq_refl Htemp Hfree eq_refl).
Defined.

Lemma download_unknown_id_witness :
  download_lesson_plan Sample.str_exc Sample.strftime Sample.doc_build Sample.env
    "0b5e7a42" Sample.plan_world
  = (Raise (HTTPException 500 "Failed to generate PDF: 404: Lesson plan not found"),
     Sample.plan_world).
Proof.
  assert (Hnone : Forall (fun p => LessonPlan.id p <> "0b5e7a42")
                    (lesson_plans Sample.plan_world)).
  { constructor; [discriminate|constructor]. }
  exact (proj2 (download_unknown_id Sample.str_exc Sample.strftime Sample.doc_build)
           Sample.env "0b5e7a42" Sample.plan_world eq_refl Hnone).
Defined.

Lemma download_build_fails_witness :
  download_lesson_plan Sample.str_exc Sample.strftime Cases.doc_build_fails Sample.env
    "4c1d2e3f-aaaa" Sample.plan_world
  = (Raise (HTTPException 500 "Failed to generate PDF: doc.build"),
     set_files (insert "/tmp/tmpk3x9qz.pdf" "") Sample.plan_world)
  /\ files (download_lesson_plan Sample.str_exc Sample.strftime Cases.doc_build_fails
              Sample.env "4c1d2e3f-aaaa" Sample.plan_world).2
     !! "/tmp/tmpk3x9qz.pdf" = Some "".
Proof.
  assert (Hfound : List.find (fun p => bool_decide (LessonPlan.id p = "4c1d2e3f-aaaa"))
                     (lesson_plans Sample.plan_world) = Some Sample.plan).
  { vm_compute. reflexivity. }
  assert (Htemp : temp_outcome Sample.env <> TempCreateFails) by discriminate.
  assert (Hfree : files Sample.plan_world !! temp_name Sample.env = None).
  { vm_compute. reflexivity. }
  exact (download_build_fails Sample.str_exc Sample.strftime Cases.doc_build_fails
           Sample.env "4c1d2e3f-aaaa" Sample.plan_world Sample.plan
           eq_refl Hfound Htemp Hfree eq_refl).
Defined.

Lemma extract_pages_readable_witness :
  extract_pages Cases.three_pages ""
  = "Biology 101" +:+ PyStr.LF +:+ "Week 1: Cells" +:+ PyStr.LF
  /\ extract_pages Cases.three_pages ""
     = extract_pages [Some "Biology 101"; Some "Week 1: Cells"] "".
Proof.
  assert (Hascii : ascii_pages Cases.three_pages = true) by reflexivity.
  split.
  - exact (proj1 extract_pages_readable Cases.three_pages "" Hascii).
  - exact (proj2 extract_pages_readable [Some "Biology 101"] None
             [Some "Week 1: Cells"] "" Hascii (or_introl eq_refl)).
Defined.

Lemma extract_text_from_pdf_outcome_witness :
  let w := set_files (insert "/tmp/tmpk3x9qz.pdf" "%PDF outline") Sample.world in
  (extract_text_from_pdf Sample.str_exc Sample.PdfReader "/tmp/tmpk3x9qz.pdf" w).1
  = Ok ("Biology 101: Cells" +:+ PyStr.LF)
  /\ exists detail,
       (extract_text_from_pdf Sample.str_exc Sample.PdfReader "/tmp/tmpw4r5t6.pdf" w).1
       = Raise (HTTPException 400 detail).
Proof.
  intros w. split.
  - destruct (extract_text_from_pdf_outcome Sample.str_exc Sample.PdfReader
                "/tmp/tmpk3x9qz.pdf" w) as (_ & Hiff & _).
    apply Hiff.
    + intros bytes pages Hfile Hread.
      assert (Hbytes : bytes = "%PDF outline").
      { vm_compute in Hfile. by injection Hfile as <-. }
      subst bytes. vm_compute in Hread. by injection Hread as <-.
    + exists "%PDF outline", [Some "Biology 101: Cells"].
      split; [vm_compute; reflexivity|]. split; [reflexivity|].
      split; [reflexivity|]. vm_compute. discriminate.
  - destruct (extract_text_from_pdf_outcome Sample.str_exc Sample.PdfReader
                "/tmp/tmpw4r5t6.pdf" w) as (_ & _ & Hfail).
    apply Hfail. vm_compute. reflexivity.
Defined.

Lemma extraction_prompt_prefix_witness :
  extraction_prompt (Cases.long_text +:+ "Week 12: Revision")
  = extraction_prompt Cases.long_text.
Proof.
  apply (extraction_prompt_prefix Cases.long_text "Week 12: Revision").
  - vm_compute. reflexivity.
  - apply Nat.leb_le. vm_compute. reflexivity.
Defined.

Lemma upload_pdf_answers_witness :
  upload_pdf Sample.secret Sample.system_key Sample.hs256 (Sample.llm_reply "")
    Sample.str_exc Sample.PdfReader Sample.json_loads Sample.pydantic_str
    Sample.env {| filename := "outline.docx"; file := "%PDF outline" |}
    Sample.ada_token Sample.world
  = (Raise (HTTPException 400 "File must be a PDF"), Sample.world)
  /\ pdf_extractions
       (upload_pdf Sample.secret Sample.system_key Sample.hs256 (Sample.llm_reply "")
          Sample.str_exc Sample.PdfReader Sample.json_loads Sample.pydantic_str
          Sample.env Sample.scanned_pdf Sample.ada_token Sample.world).2
     = pdf_extractions Sample.world.
Proof.
  destruct (upload_pdf_answers Sample.secret Sample.system_key Sample.hs256
              (Sample.llm_reply "") Sample.str_exc Sample.PdfReader Sample.json_loads
              Sample.pydantic_str Sample.env
              {| filename := "outline.docx"; file := "%PDF outline" |}
              Sample.ada_token Sample.world) as (Hname & _ & _).
  destruct (upload_pdf_answers Sample.secret Sample.system_key Sample.hs256
              (Sample.llm_reply "") Sample.str_exc Sample.PdfReader Sample.json_loads
              Sample.pydantic_str Sample.env Sample.scanned_pdf
              Sample.ada_token Sample.world) as (_ & _ & Hfail).
  split.
  - apply (Hname Sample.ada); [vm_compute; reflexivity|reflexivity].
  - apply Hfail. vm_compute. reflexivity.
Defined.

Lemma upload_pdf_write_fails_witness :
  let run := upload_pdf Sample.secret Sample.system_key Sample.hs256
               (Sample.llm_reply Sample.text_good) Sample.str_exc Sample.PdfReader
               Sample.json_loads Sample.pydantic_str Cases.env_write_fails
               Sample.outline_pdf Sample.ada_token Sample.world in
  run = (Raise (OtherException "UnboundLocalError"),
         set_files (insert "/tmp/tmpk3x9qz.pdf" "") Sample.world)
  /\ http_status run.1 = 500
  /\ is_Some (files run.2 !! "/tmp/tmpk3x9qz.pdf").
Proof.
  intros run.
  assert (Hauth : get_current_user Sample.secret Sample.hs256 Cases.env_write_fails
                    Sample.ada_token Sample.world = (Ok Sample.ada, Sample.world)).
  { vm_compute. reflexivity. }
  assert (Hfree : files Sample.world !! temp_name Cases.env_write_fails = None).
  { vm_compute. reflexivity. }
  exact (upload_pdf_write_fails Sample.secret Sample.system_key Sample.hs256
           (Sample.llm_reply Sample.text_good) Sample.str_exc Sample.PdfReader
           Sample.json_loads Sample.pydantic_str Cases.env_write_fails
           Sample.outline_pdf Sample.ada_token Sample.world Sample.ada
           Hauth eq_refl eq_refl Hfree).
Defined.


Lemma parse_llm_response_verbatim_witness :
  let r := PDFExtractionResult.mk "0b5e7a42" "outline.pdf" ["Biology 101"] ["Cells"]
             [("Cells", ["Mitosis"])] 5000 in
  parse_llm_response Sample.str_exc Sample.json_loads Sample.pydantic_str Sample.env
    Sample.outline_pdf (Sample.fenced Sample.text_good) Sample.world
  = (Ok r, add_pdf_extraction r Sample.world).
Proof.
  intros r.
  apply (parse_llm_response_verbatim Sample.str_exc Sample.json_loads Sample.pydantic_str
           (fun s => eq_refl) Sample.env Sample.outline_pdf
           (Sample.fenced Sample.text_good) Sample.world
           [ ("subject_names", JArr [JStr "Biology 101"]);
             ("lecture_topics", JArr [JStr "Cells"]);
             ("lecture_focus_mapping", JObj [("Cells", JArr [JStr "Mitosis"])]) ]
           ["Biology 101"] ["Cells"] [("Cells", ["Mitosis"])]).
  - vm_compute. reflexivity.
  - reflexivity.
  - reflexivity.
  - reflexivity.
  - left. discriminate.
  - reflexivity.
Defined.


Lemma story_body_flowables_witness :
  body_flowable (Paragraph "• Show a dividing cell" bullet_style).
Proof.
  apply (story_body_flowables Sample.plan (Paragraph "• Show a dividing cell" bullet_style)).
  - vm_compute. reflexivity.
  - rewrite sample_plan_body.
    apply list_elem_of_In. vm_compute. do 6 right. left. reflexivity.
Defined.

Lemma bullet_line_in_story_witness :
  let run := generate_lesson_plan_pdf Sample.strftime Sample.doc_build Sample.env
               Sample.plan "/tmp/tmpk3x9qz.pdf" Sample.plan_world in
  exists bytes,
    Sample.doc_build (now Sample.env) (lesson_plan_story Sample.strftime Sample.plan)
    = Some bytes
    /\ files run.2 !! "/tmp/tmpk3x9qz.pdf" = Some bytes
    /\ Paragraph "• Show a dividing cell" bullet_style
         ∈ lesson_plan_story Sample.strftime Sample.plan.
Proof.
  intros run.
  apply (bullet_line_in_story Sample.strftime Sample.doc_build Sample.env Sample.plan
           "/tmp/tmpk3x9qz.pdf" Sample.plan_world run.2
           ("Introduction/Hook (10 minutes)" +:+ PyStr.LF +:+ "- Show a dividing cell")
           "- Show a dividing cell").
  - vm_compute. reflexivity.
  - vm_compute. reflexivity.
  - apply list_elem_of_In. vm_compute. right. right. left. reflexivity.
  - reflexivity.
  - apply list_elem_of_In. vm_compute. right. left. reflexivity.
Defined.

Lemma heading_block_minutes_line_story_witness :
  let run := generate_lesson_plan_pdf Sample.strftime Sample.doc_build Sample.env
               Cases.structured_plan "/tmp/tmpk3x9qz.pdf" Sample.plan_world in
  exists bytes,
    Sample.doc_build (now Sample.env)
      (lesson_plan_story Sample.strftime Cases.structured_plan) = Some bytes
    /\ files run.2 !! "/tmp/tmpk3x9qz.pdf" = Some bytes
    /\ Paragraph "Introduction/Hook (10 minutes)" subsection_heading_style
         ∈ lesson_plan_story Sample.strftime Cases.structured_plan.
Proof.
  intros run.
  apply (heading_block_minutes_line_story Sample.strftime Sample.doc_build Sample.env
           Cases.structured_plan "/tmp/tmpk3x9qz.pdf" Sample.plan_world run.2
           Cases.structured_content "Introduction/Hook (10 minutes)").
  - vm_compute. reflexivity.
  - vm_compute. reflexivity.
  - apply list_elem_of_In. vm_compute. left. reflexivity.
  - vm_compute. reflexivity.
  - apply list_elem_of_In. vm_compute. left. reflexivity.
  - vm_compute. reflexivity.
Defined.

Lemma status_checks_round_trip_witness :
  let status_obj := StatusCheck.mk "0b5e7a42" "dashboard" 5000 in
  create_status_check Sample.env Cases.status_input [] = (Ok status_obj, [status_obj])
  /\ get_status_checks Cases.env_later [status_obj] = Ok [status_obj].
Proof.
  intros status_obj.
  destruct (status_checks_round_trip Sample.env Cases.env_later Cases.status_input []
              eq_refl eq_refl) as [Hcreate (found & Hget & _ & Hall)].
  split; [exact Hcreate|].
  rewrite Hall in Hget; [exact Hget|]. simpl. lia.
Defined.

Lemma requests_keep_what_is_stored_witness :
  world_grows Sample.world
    (validate_api_key Sample.secret Sample.system_key Sample.hs256 (Sample.llm_reply "")
       Sample.env (ApiKeyValidation.mk "ada-key") Sample.ada_token
       (signup Sample.secret Sample.sha256_hexdigest Sample.hs256 Sample.env_grace
          Sample.grace_signup Sample.world).2).2.
Proof.
  apply (requests_keep_what_is_stored Sample.secret Sample.system_key
           Sample.sha256_hexdigest Sample.hs256 (Sample.llm_reply "") Sample.str_exc
           Sample.PdfReader Sample.strftime Sample.doc_build Sample.json_loads
           Sample.pydantic_str).
  eapply rtc_l; [apply step_signup|]. apply rtc_once. apply step_validate_api_key.
Defined.

Lemma reachable_users_db_keyed_witness :
  let w := (signup Sample.secret Sample.sha256_hexdigest Sample.hs256 Sample.env_grace
              Sample.grace_signup
              (signup Sample.secret Sample.sha256_hexdigest Sample.hs256 Sample.env_ada
                 Sample.ada_signup initial_world).2).2 in
  exists user,
    users_db w !! "grace@example.org" = Some user
    /\ User.email user = "grace@example.org".
Proof.
  intros w.
  assert (Hreach : reachable Sample.secret Sample.system_key Sample.sha256_hexdigest
                     Sample.hs256 (Sample.llm_reply "") Sample.str_exc Sample.PdfReader
                     Sample.strftime Sample.doc_build Sample.json_loads
                     Sample.pydantic_str w).
  { apply reach_signup. apply reach_signup. apply reach_initial. }
  assert (Hstored : users_db w !! "grace@example.org"
                    = Some (new_user Sample.sha256_hexdigest Sample.env_grace
                              Sample.grace_signup)).
  { vm_compute. reflexivity. }
  eexists. split; [exact Hstored|].
  exact (reachable_users_db_keyed Sample.secret Sample.system_key Sample.sha256_hexdigest
           Sample.hs256 (Sample.llm_reply "") Sample.str_exc Sample.PdfReader
           Sample.strftime Sample.doc_build Sample.json_loads Sample.pydantic_str
           w Hreach "grace@example.org" _ Hstored).
Defined.
